(** * mslib.mscolab.file_manager: a shallow embedding of [FileManager]

    The relational tables (Operation, Permission, Change) are lists of rows
    in insertion order, so that [.first()] is the first matching row and
    [.all()] is the sub-list of matching rows.  The data directory is a
    finite map from directory names to the pair (main.ftml, git history).
    Every method becomes a function from a [state] to an [outcome]: the
    returned Python value together with the state it leaves behind, or the
    exception that escapes the method. *)

From Stdlib Require Import String Ascii List Arith Lia Bool.
From stdpp Require Import base decidable option list strings gmap sorting.
Import ListNotations.
Local Open Scope string_scope.
Local Open Scope nat_scope.
Local Open Scope list_scope.

(** ** Python string helpers *)

(** [s.startswith(p)] *)
Fixpoint startswith (s p : string) : bool :=
  match p, s with
  | EmptyString, _ => true
  | String _ _, EmptyString => false
  | String a p', String b s' => if Ascii.eqb a b then startswith s' p' else false
  end.

(** [s.find(sub) != -1], also [sub in s] *)
Fixpoint contains (s sub : string) : bool :=
  if startswith s sub then true
  else match s with
       | EmptyString => false
       | String _ s' => contains s' sub
       end.

(** [s.endswith(suf)] *)
Fixpoint endswith (s suf : string) : bool :=
  if String.eqb s suf then true
  else match s with
       | EmptyString => false
       | String _ s' => endswith s' suf
       end.

(** [s.split(sep)[0]] for a non-empty separator: the text in front of the
    first occurrence of [sep], or all of [s] when [sep] does not occur. *)
Fixpoint split_head (s sep : string) : string :=
  if startswith s sep then EmptyString
  else match s with
       | EmptyString => EmptyString
       | String c s' => String c (split_head s' sep)
       end.

(** [s[:-1] if s.endswith("\n") else s]: what the git library does to the
    output of a command before it returns it. *)
Fixpoint strip_newline (s : string) : string :=
  match s with
  | EmptyString => EmptyString
  | String c rest =>
      match rest with
      | EmptyString => if Ascii.eqb c (ascii_of_nat 10) then EmptyString else s
      | String _ _ => String c (strip_newline rest)
      end
  end.

(** Line boundaries of [str.splitlines] among the code points below 256. *)
Definition is_linebreak (c : ascii) : bool :=
  let n := nat_of_ascii c in
  (n =? 10) || (n =? 11) || (n =? 12) || (n =? 13) ||
  (n =? 28) || (n =? 29) || (n =? 30) || (n =? 133).

(** [s.splitlines()]: [cur] is the line read so far.  A carriage return
    followed by a line feed is one boundary, and a last line is only kept
    when it is not empty. *)
Fixpoint splitlines_from (cur s : string) : list string :=
  match s with
  | EmptyString => if String.eqb cur EmptyString then [] else [cur]
  | String c s' =>
      if is_linebreak c then
        match s' with
        | String d s'' =>
            if (nat_of_ascii c =? 13) && (nat_of_ascii d =? 10)
            then cur :: splitlines_from EmptyString s''
            else cur :: splitlines_from EmptyString s'
        | EmptyString => [cur]
        end
      else splitlines_from (cur +:+ String c EmptyString) s'
  end.

Definition splitlines (s : string) : list string := splitlines_from EmptyString s.

(** [difflib.unified_diff(a, b, lineterm='')] joined with newlines is read by
    [save_file] only through [diff_content != ""].  The generator yields
    nothing when the two line lists are equal and starts with the two header
    lines otherwise, so the test is list inequality. *)
Definition diff_content_nonempty (old_data_lines content_lines : list string) : bool :=
  negb (bool_decide (old_data_lines = content_lines)).

(** ** Settings (conftest.py writes them into mscolab_settings) *)

Definition GROUP_POSTFIX : string := "Group".

Definition dq : string := String (ascii_of_nat 34) EmptyString.
Definition nl : string := String (ascii_of_nat 10) EmptyString.

Definition STUB_CODE : string :=
  "<?xml version=" +:+ dq +:+ "1.0" +:+ dq +:+ " encoding=" +:+ dq +:+ "utf-8" +:+ dq +:+ "?>" +:+ nl +:+
  "<FlightTrack version=" +:+ dq +:+ "1.7.6" +:+ dq +:+ ">" +:+ nl +:+
  "  <ListOfWaypoints>" +:+ nl +:+
  "    <Waypoint flightlevel=" +:+ dq +:+ "250" +:+ dq +:+ " lat=" +:+ dq +:+ "67.821" +:+ dq +:+
  " location=" +:+ dq +:+ "Kiruna" +:+ dq +:+ " lon=" +:+ dq +:+ "20.336" +:+ dq +:+ ">" +:+ nl +:+
  "      <Comments></Comments>" +:+ nl +:+
  "    </Waypoint>" +:+ nl +:+
  "    <Waypoint flightlevel=" +:+ dq +:+ "250" +:+ dq +:+ " lat=" +:+ dq +:+ "78.928" +:+ dq +:+
  " location=" +:+ dq +:+ "Ny-Alesund" +:+ dq +:+ " lon=" +:+ dq +:+ "11.986" +:+ dq +:+ ">" +:+ nl +:+
  "      <Comments></Comments>" +:+ nl +:+
  "    </Waypoint>" +:+ nl +:+
  "  </ListOfWaypoints>" +:+ nl +:+
  "</FlightTrack>" +:+ nl.

(** ** Data model *)

(** The [access_level] column. *)
Inductive AccessLevel := creator | admin | collaborator | viewer.

Global Instance AccessLevel_eq_dec : EqDecision AccessLevel.
Proof. solve_decision. Defined.

Definition level_eqb (a b : AccessLevel) : bool := bool_decide (a = b).

Record User := mkUser { user_id : nat; username : string }.

Record Operation := mkOperation {
  o_id : nat;
  o_path : string;
  o_description : string;
  o_last_used : nat;
  o_category : string;
  o_active : bool
}.

(** The primary key of a Permission row is never read by the file manager;
    a row is identified by its position in the table. *)
Record Permission := mkPermission {
  perm_u_id : nat;
  perm_op_id : nat;
  perm_access_level : AccessLevel
}.

Global Instance Permission_eq_dec : EqDecision Permission.
Proof. solve_decision. Defined.

Record Change := mkChange {
  c_id : nat;
  c_op_id : nat;
  c_u_id : nat;
  c_commit_hash : nat;
  c_version_name : option string
}.

(** A commit of the per-operation repository: its id and the main.ftml blob
    it records.  Commit ids are opaque; a new commit gets an id that no
    commit of the repository has. *)
Record Commit := mkCommit { hexsha : nat; blob : string }.

(** An operation directory below the data directory. *)
Record OpDir := mkOpDir { main_ftml : string; repo : list Commit }.

Record state := mkState {
  operations : list Operation;
  permissions : list Permission;
  changes : list Change;
  data_dir : gmap string OpDir
}.

Definition set_operations (ops : list Operation) (st : state) : state :=
  mkState ops (permissions st) (changes st) (data_dir st).
Definition set_permissions (ps : list Permission) (st : state) : state :=
  mkState (operations st) ps (changes st) (data_dir st).
Definition set_changes (cs : list Change) (st : state) : state :=
  mkState (operations st) (permissions st) cs (data_dir st).
Definition set_data_dir (d : gmap string OpDir) (st : state) : state :=
  mkState (operations st) (permissions st) (changes st) d.

(** ** Outcomes *)

Inductive exn :=
  | AttributeError      (* attribute access on None *)
  | UnboundLocalError   (* a loop variable read before any iteration *)
  | IntegrityError      (* raised by a flush outside a try block *)
  | ResourceNotFound    (* fs: no such file *)
  | DirectoryExists     (* fs: makedir on an existing directory *)
  | IllegalBackReference (* fs: a path that leads out of the file system *)
  | NoSuchPathError     (* git.Repo on a missing directory *)
  | GitCommandError.    (* git show of an unknown revision *)

(** The state of a [Raise] holds what was committed or written before the
    exception; pending session changes are dropped with the session. *)
Inductive outcome (A : Type) :=
  | Ret (a : A) (st : state)
  | Raise (e : exn) (st : state).
Arguments Ret {A} a st.
Arguments Raise {A} e st.

Definition state_of {A} (o : outcome A) : state :=
  match o with Ret _ st => st | Raise _ st => st end.

Definition outcome_map_state {A} (f : state -> state) (o : outcome A) : outcome A :=
  match o with Ret a st => Ret a (f st) | Raise e st => Raise e (f st) end.

(** A Python value that is either [False] or a proper result. *)
Inductive false_or (A : Type) := RFalse | RVal (a : A).
Arguments RFalse {A}.
Arguments RVal {A} a.

(** ** Queries *)

(** [Permission.query.filter_by(u_id=u_id, op_id=op_id)] *)
Definition perm_matches (u_id op_id : nat) (p : Permission) : bool :=
  (perm_u_id p =? u_id) && (perm_op_id p =? op_id).

Definition perm_first (ps : list Permission) (u_id op_id : nat) : option Permission :=
  List.find (perm_matches u_id op_id) ps.

(** [Operation.query.filter_by(id=op_id).first()] *)
Definition operation_by_id (st : state) (id : nat) : option Operation :=
  List.find (fun o => o_id o =? id) (operations st).

(** [Operation.query.filter_by(path=path).first()] *)
Definition operation_by_path (ops : list Operation) (path : string) : option Operation :=
  List.find (fun o => String.eqb (o_path o) path) ops.

(** [Change.query.filter_by(id=ch_id).first()] *)
Definition change_by_id (st : state) (id : nat) : option Change :=
  List.find (fun c => c_id c =? id) (changes st).

(** The id given to an inserted row: one more than the largest id in use. *)
Definition fresh_id (ids : list nat) : nat := S (list_max ids).

(** The value a [for] loop leaves in its variable: the last item, if any. *)
Fixpoint loop_variable (xs : list nat) : option nat :=
  match xs with
  | [] => None
  | [x] => Some x
  | _ :: rest => loop_variable rest
  end.

(** [x in xs] on a list of user ids *)
Definition mem_nat (x : nat) (xs : list nat) : bool := existsb (Nat.eqb x) xs.

(** ** Membership predicates *)

Definition is_member (st : state) (u_id op_id : nat) : bool :=
  match perm_first (permissions st) u_id op_id with
  | None => false
  | Some _ => true
  end.

Definition has_level (lvl : AccessLevel) (st : state) (u_id op_id : nat) : bool :=
  match perm_first (permissions st) u_id op_id with
  | None => false
  | Some perm => level_eqb (perm_access_level perm) lvl
  end.

Definition is_admin := has_level admin.
Definition is_creator := has_level creator.
Definition is_collaborator := has_level collaborator.
Definition is_viewer := has_level viewer.

(** ** Sorting (user id, access level) pairs

    [sorted] on tuples compares the user ids first and the level names, as
    strings, second: "admin" < "collaborator" < "creator" < "viewer". *)

Definition level_rank (l : AccessLevel) : nat :=
  match l with admin => 0 | collaborator => 1 | creator => 2 | viewer => 3 end.

Definition pair_le (a b : nat * AccessLevel) : Prop :=
  fst a < fst b \/ (fst a = fst b /\ level_rank (snd a) <= level_rank (snd b)).

Global Instance pair_le_dec (a b : nat * AccessLevel) : Decision (pair_le a b).
Proof. unfold pair_le. apply _. Defined.

Definition sorted (l : list (nat * AccessLevel)) : list (nat * AccessLevel) :=
  merge_sort pair_le l.

Definition pair_eqb (a b : nat * AccessLevel) : bool :=
  (fst a =? fst b) && level_eqb (snd a) (snd b).

(** [x in l] on a list of pairs *)
Definition pair_in (x : nat * AccessLevel) (l : list (nat * AccessLevel)) : bool :=
  existsb (pair_eqb x) l.

(** [dict(l)[k]]: the last pair with key [k] wins. *)
Definition dict_get (l : list (nat * AccessLevel)) (k : nat) : option AccessLevel :=
  option_map snd (List.find (fun p => fst p =? k) (rev l)).

(** The (u_id, access_level) tuple of a row. *)
Definition pair_of (p : Permission) : nat * AccessLevel :=
  (perm_u_id p, perm_access_level p).

(** The (u_id, op_id) pair of a row. *)
Definition perm_key (p : Permission) : nat * nat := (perm_u_id p, perm_op_id p).

(** Rows at level creator. *)
Definition is_creator_level (p : Permission) : bool :=
  level_eqb (perm_access_level p) creator.

(** The data model's invariant that an operation has one creator row: two
    rows of [op] at level creator are the same row. *)
Definition at_most_one_creator (ps : list Permission) (op : nat) : Prop :=
  forall p q, In p ps -> In q ps -> perm_op_id p = op -> perm_op_id q = op ->
              perm_access_level p = creator -> perm_access_level q = creator -> p = q.

(** The dictionary of user-id lists returned by [import_permissions]; the
    lists come from Python sets, so their order is not fixed. *)
Record events := mkEvents {
  add_users : gset nat;
  modify_users : gset nat;
  delete_users : gset nat
}.

(** ** The version-control repository *)

(** The text of main.ftml that the commit with this id records. *)
Definition committed_text (r : list Commit) (commit_hash : nat) : option string :=
  option_map blob (List.find (fun c => hexsha c =? commit_hash) r).

(** [repo.git.show(f'{commit_hash}:main.ftml')]: the command prints the
    recorded text, and the library returns what was printed without one
    final line feed. *)
Definition git_show (r : list Commit) (commit_hash : nat) : option string :=
  option_map strip_newline (committed_text r commit_hash).

(** [repo.index.add(['main.ftml']); repo.index.commit(...)] on a directory
    whose main.ftml holds [content]: the new commit and the directory. *)
Definition git_commit (d : OpDir) (content : string) : Commit * OpDir :=
  let cm := mkCommit (fresh_id (map hexsha (repo d))) content in
  (cm, mkOpDir content (repo d ++ [cm])).

(** The [Change(op_id, u_id, commit_hash)] row as inserted. *)
Definition new_change (st : state) (op u commit_hash : nat) : Change :=
  mkChange (fresh_id (map c_id (changes st))) op u commit_hash None.

(** ** Example states *)

Definition alice : User := mkUser 1 "alice".
Definition bob : User := mkUser 2 "bob".
Definition carol : User := mkUser 3 "carol".

(** Modelled from the spec: the schema (mslib.mscolab.models) is not among
    the sources; the spec's data model allows at most one Permission row per
    (user_id, operation_id) pair and calls a duplicate insert an integrity
    conflict. *)
Definition unique_user_op (ps : list Permission) : bool :=
  bool_decide (NoDup (map perm_key ps)).

(** Texts shorter than the buffer of a file object: nothing reaches the
    file before the object is closed. *)
Definition nothing_written : string -> string := fun _ => "".

Definition alpha_dir : OpDir := mkOpDir "a" [mkCommit 1 "a"].

(** One operation "alpha" created by alice; bob holds no permission. *)
Definition st_alpha : state :=
  mkState [mkOperation 1 "alpha" "" 0 "tex" true]
          [mkPermission 1 1 creator]
          []
          (<["alpha" := alpha_dir]> ∅).

(** A template "texGroup", an operation "alpha" of category "tex" and a
    second template "fooGroup" that was filed under category "tex"; alice
    created all three, bob is a collaborator of the two templates. *)
Definition st_group : state :=
  mkState [mkOperation 1 "texGroup" "" 0 "default" true;
           mkOperation 2 "alpha" "" 0 "tex" true;
           mkOperation 3 "fooGroup" "" 0 "tex" true]
          [mkPermission 1 1 creator; mkPermission 1 2 creator;
           mkPermission 1 3 creator; mkPermission 2 1 collaborator;
           mkPermission 2 3 collaborator]
          []
          ∅.

(** "alpha" after two saves by alice: commits 2 and 3 hold "b" and "c". *)
Definition st_saved : state :=
  mkState [mkOperation 1 "alpha" "" 0 "tex" true]
          [mkPermission 1 1 creator]
          [mkChange 1 1 1 2 None; mkChange 2 1 1 3 None]
          (<["alpha" := mkOpDir "c" [mkCommit 1 "a"; mkCommit 2 "b"; mkCommit 3 "c"]]> ∅).

(** [st_alpha] after bob saved the text "b". *)
Definition st_bob_saved : state :=
  mkState [mkOperation 1 "alpha" "" 0 "tex" true]
          [mkPermission 1 1 creator]
          [mkChange 1 1 2 2 None]
          (<["alpha" := mkOpDir "b" [mkCommit 1 "a"; mkCommit 2 "b"]]> ∅).

(** [st_alpha] after a save of "a" followed by a line feed. *)
Definition st_newline_saved : state :=
  mkState [mkOperation 1 "alpha" "" 0 "tex" true]
          [mkPermission 1 1 creator]
          []
          (<["alpha" := mkOpDir ("a" +:+ nl) [mkCommit 1 "a"]]> ∅).

(** [st_saved] after alice undid her first change. *)
Definition st_undone : state :=
  mkState [mkOperation 1 "alpha" "" 0 "tex" true]
          [mkPermission 1 1 creator]
          [mkChange 1 1 1 2 None; mkChange 2 1 1 3 None; mkChange 3 1 1 4 None]
          (<["alpha" := mkOpDir "b" [mkCommit 1 "a"; mkCommit 2 "b"; mkCommit 3 "c";
                                     mkCommit 4 "b"]]> ∅).

(** "alpha" after alice saved "b" followed by a line feed and then "c". *)
Definition st_line_saved : state :=
  mkState [mkOperation 1 "alpha" "" 0 "tex" true]
          [mkPermission 1 1 creator]
          [mkChange 1 1 1 2 None; mkChange 2 1 1 3 None]
          (<["alpha" := mkOpDir "c" [mkCommit 1 "a"; mkCommit 2 ("b" +:+ nl);
                                     mkCommit 3 "c"]]> ∅).

(** [st_line_saved] after alice undid her first change. *)
Definition st_line_undone : state :=
  mkState [mkOperation 1 "alpha" "" 0 "tex" true]
          [mkPermission 1 1 creator]
          [mkChange 1 1 1 2 None; mkChange 2 1 1 3 None; mkChange 3 1 1 4 None]
          (<["alpha" := mkOpDir "b" [mkCommit 1 "a"; mkCommit 2 ("b" +:+ nl);
                                     mkCommit 3 "c"; mkCommit 4 "b"]]> ∅).

(** "alpha" (created by alice) and "beta" (created by bob, alice is a
    viewer, carol a collaborator). *)
Definition st_import : state :=
  mkState [mkOperation 1 "alpha" "" 0 "tex" true;
           mkOperation 2 "beta" "" 0 "tex" true]
          [mkPermission 1 1 creator; mkPermission 2 2 creator;
           mkPermission 1 2 viewer; mkPermission 3 2 collaborator]
          []
          ∅.

(** [st_group] after bob created "gamma" in category "tex" with the text
    "x": the permissions of "texGroup" were imported, alice as an admin. *)
Definition st_created : state :=
  mkState [mkOperation 1 "texGroup" "" 0 "default" true;
           mkOperation 2 "alpha" "" 0 "tex" true;
           mkOperation 3 "fooGroup" "" 0 "tex" true;
           mkOperation 4 "gamma" "third" 5 "tex" true]
          [mkPermission 1 1 creator; mkPermission 1 2 creator;
           mkPermission 1 3 creator; mkPermission 2 1 collaborator;
           mkPermission 2 3 collaborator; mkPermission 2 4 creator;
           mkPermission 1 4 admin]
          []
          (<["gamma" := mkOpDir "x" [mkCommit 1 ""]]> ∅).

(** [st_import] after alice imported the permissions of "beta" into "alpha". *)
Definition st_imported : state :=
  mkState [mkOperation 1 "alpha" "" 0 "tex" true;
           mkOperation 2 "beta" "" 0 "tex" true]
          [mkPermission 1 1 creator; mkPermission 2 2 creator;
           mkPermission 1 2 viewer; mkPermission 3 2 collaborator;
           mkPermission 2 1 admin; mkPermission 3 1 collaborator]
          []
          ∅.

(** ** The file manager *)

Section FileManager.

(** The constraints the database checks on the Permission table when rows
    are written.  The schema is declared in mslib.mscolab.models; the file
    manager only reacts to [IntegrityError]. *)
Variable integrity_ok : list Permission -> bool.

(** Writing the pending rows [w] (a flush, an autoflush in front of a query,
    a bulk statement or a commit) succeeds when nothing is pending or the
    constraints hold. *)
Definition flush_ok (st : state) (w : list Permission) : bool :=
  bool_decide (w = permissions st) || integrity_ok w.

(** [try: db.session.commit(); return True
     except IntegrityError: db.session.rollback(); return False] *)
Definition try_commit (st : state) (w : list Permission) : outcome bool :=
  if flush_ok st w then Ret true (set_permissions w st) else Ret false st.

(** A bulk statement per operation of [ops]; [None] when one of them
    violates a constraint. *)
Fixpoint for_each_op (st : state) (stmt : nat -> list Permission -> list Permission)
    (ops : list Operation) (w : list Permission) : option (list Permission) :=
  match ops with
  | [] => Some w
  | o :: rest =>
      let w' := stmt (o_id o) w in
      if flush_ok st w' then for_each_op st stmt rest w' else None
  end.

(** [Operation.query.filter_by(category=category)] for the category of a
    template path. *)
Definition ops_of_category (st : state) (path : string) : list Operation :=
  let category := split_head path GROUP_POSTFIX in
  List.filter (fun o => String.eqb (o_category o) category) (operations st).

Definition add_bulk_permission (st : state) (op_id : nat) (user : User)
    (new_u_ids : list nat) (access_level : AccessLevel) : outcome bool :=
  if negb (is_admin st (user_id user) op_id) && negb (is_creator st (user_id user) op_id)
  then Ret false st
  else
    let new_permissions :=
      map (fun u_id => mkPermission u_id op_id access_level)
          (List.filter (fun u_id => negb (is_member st u_id op_id)) new_u_ids) in
    let w := permissions st ++ new_permissions in
    (* the query for the operation flushes the added rows *)
    if negb (flush_ok st w) then Raise IntegrityError st
    else
      match operation_by_id st op_id with
      | None => Raise AttributeError st
      | Some operation =>
          if endswith (o_path operation) GROUP_POSTFIX then
            let targets :=
              List.filter (fun ops => negb (endswith (o_path ops) GROUP_POSTFIX))
                          (ops_of_category st (o_path operation)) in
            match targets with
            | [] => try_commit st w
            | _ :: _ =>
                (* [u_id] is what the loop over [new_u_ids] left behind *)
                match loop_variable new_u_ids with
                | None => Raise UnboundLocalError st
                | Some u_id =>
                    try_commit st
                      (w ++ map (fun ops => mkPermission u_id (o_id ops) access_level)
                                targets)
                end
            end
          else try_commit st w
      end.

(** [Permission.query.filter(op_id == target).filter(u_id.in_(u_ids))
      .update({access_level: new_access_level})] *)
Definition update_levels (u_ids : list nat) (new_access_level : AccessLevel)
    (target : nat) (w : list Permission) : list Permission :=
  map (fun p => if (perm_op_id p =? target) && mem_nat (perm_u_id p) u_ids
                then mkPermission (perm_u_id p) (perm_op_id p) new_access_level
                else p) w.

Definition modify_bulk_permission (st : state) (op_id : nat) (user : User)
    (u_ids : list nat) (new_access_level : AccessLevel) : outcome bool :=
  if negb (is_admin st (user_id user) op_id) && negb (is_creator st (user_id user) op_id)
  then Ret false st
  else
    let w := update_levels u_ids new_access_level op_id (permissions st) in
    if negb (flush_ok st w) then Raise IntegrityError st
    else
      match operation_by_id st op_id with
      | None => Raise AttributeError st
      | Some operation =>
          if endswith (o_path operation) GROUP_POSTFIX then
            match for_each_op st (update_levels u_ids new_access_level)
                              (ops_of_category st (o_path operation)) w with
            | None => Raise IntegrityError st
            | Some w' => try_commit st w'
            end
          else try_commit st w
      end.

(** [Permission.query.filter(op_id == target).filter(u_id.in_(u_ids)).delete()] *)
Definition delete_rows (u_ids : list nat) (target : nat) (w : list Permission)
    : list Permission :=
  List.filter (fun p => negb ((perm_op_id p =? target) && mem_nat (perm_u_id p) u_ids)) w.

(** The part of [delete_bulk_permission] behind the access checks. *)
Definition delete_bulk_rows (st : state) (op_id : nat) (u_ids : list nat) : outcome bool :=
  let w := delete_rows u_ids op_id (permissions st) in
  if negb (flush_ok st w) then Raise IntegrityError st
  else
    match operation_by_id st op_id with
    | None => Raise AttributeError st
    | Some operation =>
        let committed w' :=
          (* this commit is not inside a try block *)
          if flush_ok st w' then Ret true (set_permissions w' st)
          else Raise IntegrityError st in
        if endswith (o_path operation) GROUP_POSTFIX then
          match for_each_op st (delete_rows u_ids)
                            (ops_of_category st (o_path operation)) w with
          | None => Raise IntegrityError st
          | Some w' => committed w'
          end
        else committed w
    end.

Definition delete_bulk_permission (st : state) (op_id : nat) (user : User)
    (u_ids : list nat) : outcome bool :=
  if negb (is_member st (user_id user) op_id) then Ret false st
  else if negb (is_admin st (user_id user) op_id) && negb (is_creator st (user_id user) op_id)
  then
    if negb (length u_ids =? 1) || negb (mem_nat (user_id user) u_ids) then Ret false st
    else delete_bulk_rows st op_id u_ids
  else
    if existsb (fun u_id => negb (is_member st u_id op_id)) u_ids then Ret false st
    else if is_creator st (user_id user) op_id && mem_nat (user_id user) u_ids
    then Ret false st
    else delete_bulk_rows st op_id u_ids.

(** The creator of the operation keeps that level; an imported creator
    becomes an admin. *)
Definition imported_level (l : AccessLevel) : AccessLevel :=
  match l with creator => admin | _ => l end.

(** The loop that adds the rows of [new_perm] which are not in [is_perm];
    each query of the loop flushes the rows added so far.  [None] stands for
    an [IntegrityError] of such a flush. *)
Fixpoint add_new_permissions (st : state) (current_op_id : nat)
    (is_perm new_perm : list (nat * AccessLevel)) (w : list Permission)
    : option (list Permission) :=
  match new_perm with
  | [] => Some w
  | (u_id, access_level) :: rest =>
      if pair_in (u_id, access_level) is_perm
      then add_new_permissions st current_op_id is_perm rest w
      else if negb (flush_ok st w) then None
      else
        match perm_first w u_id current_op_id with
        | None =>
            add_new_permissions st current_op_id is_perm rest
              (w ++ [mkPermission u_id current_op_id access_level])
        | Some _ => add_new_permissions st current_op_id is_perm rest w
        end
  end.

(** The rows of [current_op_id] that are neither the requester's nor at
    level creator. *)
Definition is_existing_perm (current_op_id u_id : nat) (p : Permission) : bool :=
  (perm_op_id p =? current_op_id) &&
  (negb (perm_u_id p =? u_id) && negb (level_eqb (perm_access_level p) creator)).

(** The rows of [import_op_id] of users other than the requester and the
    creator of the current operation. *)
Definition is_import_perm (import_op_id u_id creator_id : nat) (p : Permission) : bool :=
  (perm_op_id p =? import_op_id) &&
  (negb (perm_u_id p =? u_id) && negb (perm_u_id p =? creator_id)).

(** [Permission.query.filter_by(op_id=current_op_id, access_level="creator").first()] *)
Definition creator_row (ps : list Permission) (current_op_id : nat) : option Permission :=
  List.find (fun p => (perm_op_id p =? current_op_id) &&
                      level_eqb (perm_access_level p) creator) ps.

Definition existing_perms_of (ps : list Permission) (current_op_id u_id : nat)
    : list Permission :=
  List.filter (is_existing_perm current_op_id u_id) ps.

Definition import_perms_of (ps : list Permission) (import_op_id u_id creator_id : nat)
    : list Permission :=
  List.filter (is_import_perm import_op_id u_id creator_id) ps.

(** [new_perm]: the imported tuples, creator replaced by admin. *)
Definition new_perm_of (import_perms : list Permission) : list (nat * AccessLevel) :=
  map (fun p => (perm_u_id p, imported_level (perm_access_level p))) import_perms.

(** The first loop: every row of [existing_perms] whose tuple is not in
    [new_perm] is deleted. *)
Definition delete_missing (current_op_id u_id : nat) (new_perm : list (nat * AccessLevel))
    (ps : list Permission) : list Permission :=
  List.filter (fun p => negb (is_existing_perm current_op_id u_id p &&
                              negb (pair_in (pair_of p) new_perm))) ps.

Definition import_events (is_perm new_perm : list (nat * AccessLevel)) : events :=
  let existing_users : gset nat := list_to_set (map fst is_perm) in
  let import_users : gset nat := list_to_set (map fst new_perm) in
  mkEvents (import_users ∖ existing_users)
           (filter (fun m_uid => dict_get new_perm m_uid <> dict_get is_perm m_uid)
                   (import_users ∩ existing_users))
           (existing_users ∖ import_users).

Definition import_permissions (st : state) (import_op_id current_op_id u_id : nat)
    : outcome (bool * option events * string) :=
  if negb (is_creator st u_id current_op_id) && negb (is_admin st u_id current_op_id)
  then Ret (false, None, "Not the creator or admin of this operation") st
  else
    match perm_first (permissions st) u_id import_op_id with
    | None => Ret (false, None, "Not a member of this operation") st
    | Some _ =>
        let existing_perms := existing_perms_of (permissions st) current_op_id u_id in
        match creator_row (permissions st) current_op_id with
        | None => Raise AttributeError st
        | Some current_operation_creator =>
            let import_perms :=
              import_perms_of (permissions st) import_op_id u_id
                              (perm_u_id current_operation_creator) in
            let is_perm := map pair_of existing_perms in
            let new_perm := new_perm_of import_perms in
            if bool_decide (sorted new_perm = sorted is_perm)
            then Ret (false, None, "Permissions are already given") st
            else
              let w := delete_missing current_op_id u_id new_perm (permissions st) in
              if negb (flush_ok st w) then Raise IntegrityError st
              else
                match add_new_permissions st current_op_id is_perm new_perm w with
                | None => Raise IntegrityError st
                | Some w' =>
                    if flush_ok st w'
                    then Ret (true, Some (import_events is_perm new_perm), "success")
                             (set_permissions w' st)
                    else Ret (false, None,
                              "Some error occurred! Could not import permissions. Please try again.")
                             st
                end
        end
    end.

(** What a text written to a file object has put into the file while the
    object is still open: the part that has left the buffers of the object,
    which for a text below the buffer size is nothing.  The whole text is in
    the file once the object is closed. *)
Variable written_before_close : string -> string.

(** [data.makedir(path)] for a path without a separator, as the exception
    it raises: the names "" and "." are the data directory itself, which
    exists, ".." leads out of it, and every other name is a directory of its
    own.  (Names that the operating system refuses, such as one with a NUL
    character or one longer than a file name may be, are not told apart.) *)
Definition makedir (dirs : gmap string OpDir) (path : string) : option exn :=
  if String.eqb path ".." then Some IllegalBackReference
  else if String.eqb path "" || String.eqb path "." then Some DirectoryExists
  else match dirs !! path with
       | Some _ => Some DirectoryExists
       | None => None
       end.

(** [create_operation]; [now] is the reading of [datetime.utcnow()] and a
    missing [content] is [None].  The rows are committed before the
    directory is made.  main.ftml is written through a file object that is
    still open when the initial commit is made and is closed when the method
    returns, so the commit records what had reached the file by then. *)
Definition create_operation (st : state) (now : nat) (path description : string)
    (user : User) (last_used : option nat) (content : option string)
    (category : string) (active : bool) : outcome bool :=
  if contains path "/" || contains path "\" || contains path " " then Ret false st
  else
    match operation_by_path (operations st) path with
    | Some _ => Ret false st
    | None =>
        let last_used := default now last_used in
        let operation_id := fresh_id (map o_id (operations st)) in
        let operation :=
          mkOperation operation_id path description last_used category active in
        let ops := operations st ++ [operation] in
        (* this is the only insertion with "creator" access_level *)
        let w := permissions st ++ [mkPermission (user_id user) operation_id creator] in
        if negb (flush_ok st w) then Raise IntegrityError st
        else
          let st1 := set_permissions w (set_operations ops st) in
          let imported :=
            if negb (endswith path GROUP_POSTFIX) then
              match operation_by_path ops (category +:+ GROUP_POSTFIX) with
              | Some import_op =>
                  match import_permissions st1 (o_id import_op) operation_id (user_id user) with
                  | Ret _ st2 => Ret tt st2
                  | Raise e st2 => Raise e st2
                  end
              | None => Ret tt st1
              end
            else Ret tt st1 in
          match imported with
          | Raise e st2 => Raise e st2
          | Ret _ st2 =>
              match makedir (data_dir st2) path with
              | Some e => Raise e st2
              | None =>
                  let text := default STUB_CODE content in
                  let d := mkOpDir text
                             [mkCommit (fresh_id []) (written_before_close text)] in
                  Ret true (set_data_dir (<[path := d]> (data_dir st2)) st2)
              end
          end
    end.

Definition save_file (st : state) (op_id : nat) (content : string) (user : User)
    : outcome bool :=
  match operation_by_id st op_id with
  | None => Ret false st
  | Some operation =>
      match data_dir st !! o_path operation with
      | None => Raise ResourceNotFound st
      | Some d =>
          let old_data := main_ftml d in
          let old_data_lines := splitlines old_data in
          let content_lines := splitlines content in
          if diff_content_nonempty old_data_lines content_lines then
            let '(cm, d') := git_commit d content in
            let change := new_change st op_id (user_id user) (hexsha cm) in
            Ret true (set_changes (changes st ++ [change])
                        (set_data_dir (<[o_path operation := d']> (data_dir st)) st))
          else
            (* the text is written even when nothing is committed *)
            Ret false (set_data_dir
                         (<[o_path operation := mkOpDir content (repo d)]> (data_dir st)) st)
      end
  end.

Definition get_file (st : state) (op_id : nat) (user : User) : outcome (false_or string) :=
  match perm_first (permissions st) (user_id user) op_id with
  | None => Ret RFalse st
  | Some _ =>
      match operation_by_id st op_id with
      | None => Ret RFalse st
      | Some operation =>
          match data_dir st !! o_path operation with
          | None => Raise ResourceNotFound st
          | Some d => Ret (RVal (main_ftml d)) st
          end
      end
  end.

Definition get_change_content (st : state) (ch_id : nat) (user : User)
    : outcome (false_or string) :=
  match change_by_id st ch_id with
  | None => Raise AttributeError st   (* [ch.op_id] with [ch] being None *)
  | Some ch =>
      match perm_first (permissions st) (user_id user) (c_op_id ch) with
      | None => Ret RFalse st
      | Some _ =>
          match operation_by_id st (c_op_id ch) with
          | None => Raise AttributeError st
          | Some operation =>
              match data_dir st !! o_path operation with
              | None => Raise NoSuchPathError st
              | Some d =>
                  match git_show (repo d) (c_commit_hash ch) with
                  | None => Raise GitCommandError st
                  | Some change_content => Ret (RVal change_content) st
                  end
              end
          end
      end
  end.

Definition set_version_name (st : state) (ch_id op_id u_id : nat)
    (version_name : option string) : outcome bool :=
  if negb (is_admin st u_id op_id) && negb (is_creator st u_id op_id) &&
     negb (is_collaborator st u_id op_id)
  then Ret false st
  else
    Ret true (set_changes
                (map (fun c => if c_id c =? ch_id
                               then mkChange (c_id c) (c_op_id c) (c_u_id c)
                                             (c_commit_hash c) version_name
                               else c) (changes st)) st).

Definition undo_changes (st : state) (ch_id : nat) (user : User) : outcome bool :=
  match change_by_id st ch_id with
  | None => Raise AttributeError st   (* [ch.op_id] with [ch] being None *)
  | Some ch =>
      if negb (is_admin st (user_id user) (c_op_id ch)) &&
         negb (is_creator st (user_id user) (c_op_id ch)) &&
         negb (is_collaborator st (user_id user) (c_op_id ch))
      then Ret false st
      else
        match operation_by_id st (c_op_id ch) with
        | None => Ret false st
        | Some operation =>
            match data_dir st !! o_path operation with
            | None => Raise NoSuchPathError st
            | Some d =>
                match git_show (repo d) (c_commit_hash ch) with
                | None => Ret false st   (* caught and logged *)
                | Some file_content =>
                    let '(cm, d') := git_commit d file_content in
                    let change := new_change st (c_op_id ch) (user_id user) (hexsha cm) in
                    Ret true (set_changes (changes st ++ [change])
                                (set_data_dir (<[o_path operation := d']> (data_dir st)) st))
                end
            end
        end
  end.

End FileManager.

(** ** The other methods of the file manager

    In what follows, as before, a path is the name of a directory below the
    data directory; what the filesystem layer does with names it rewrites or
    rejects by itself is not part of the model. *)

(** [auth_type]: False or the access level of the first row. *)
Definition auth_type (st : state) (u_id op_id : nat) : false_or AccessLevel :=
  match perm_first (permissions st) u_id op_id with
  | None => RFalse
  | Some perm => RVal (perm_access_level perm)
  end.

(** The dictionary returned by [get_operation_details]. *)
Record OperationDetails := mkDetails {
  det_id : nat;
  det_path : string;
  det_description : string
}.

Definition get_operation_details (st : state) (op_id : nat) (user : User)
    : outcome (false_or OperationDetails) :=
  if is_member st (user_id user) op_id then
    match operation_by_id st op_id with
    | None => Raise AttributeError st
    | Some operation =>
        Ret (RVal (mkDetails (o_id operation) (o_path operation) (o_description operation))) st
    end
  else Ret RFalse st.

(** The columns [update_operation] can set besides the path; [col_other]
    stands for a name that is no column, which [setattr] accepts without
    any effect on the row. *)
Inductive Column :=
  | col_description (value : string)
  | col_category (value : string)
  | col_active (value : bool)
  | col_last_used (value : nat)
  | col_other.

(** The pair (attribute, value) of [update_operation]. *)
Inductive Attribute :=
  | attr_path (value : string)
  | attr_column (c : Column).

(** [setattr(operation, attribute, value)] *)
Definition set_column (c : Column) (o : Operation) : Operation :=
  match c with
  | col_description v =>
      mkOperation (o_id o) (o_path o) v (o_last_used o) (o_category o) (o_active o)
  | col_category v =>
      mkOperation (o_id o) (o_path o) (o_description o) (o_last_used o) v (o_active o)
  | col_active v =>
      mkOperation (o_id o) (o_path o) (o_description o) (o_last_used o) (o_category o) v
  | col_last_used v =>
      mkOperation (o_id o) (o_path o) (o_description o) v (o_category o) (o_active o)
  | col_other => o
  end.

Definition set_path (value : string) (o : Operation) : Operation :=
  mkOperation (o_id o) value (o_description o) (o_last_used o) (o_category o) (o_active o).

(** The UPDATE that a commit issues for the changed operation object. *)
Definition update_operation_row (op_id : nat) (f : Operation -> Operation) (st : state)
    : state :=
  set_operations (map (fun o => if o_id o =? op_id then f o else o) (operations st)) st.

(** [update_operation] for an attribute other than "path". *)
Definition update_operation_column (st : state) (op_id : nat) (c : Column) (user : User)
    : outcome bool :=
  if negb (is_admin st (user_id user) op_id) && negb (is_creator st (user_id user) op_id)
  then Ret false st
  else
    match operation_by_id st op_id with
    | None => Raise AttributeError st   (* [setattr] on None *)
    | Some _ => Ret true (update_operation_row op_id (set_column c) st)
    end.

(** How [update_operation] ends: with an outcome, or, for a rename that gets
    past [makedir(value)] and then has no operation directory to move (no
    operation row, or no directory under its path), in a data directory
    that a [state] cannot hold, since the directories of a [state] all have
    a main.ftml and a repository. *)
Inductive update_outcome :=
  | Finished (o : outcome bool)
  | NothingToMove (value : string).

(** Settings of conftest.py: operations unused for this many days are
    archived. *)
Definition ARCHIVE_THRESHOLD : nat := 30.

(** [(now - last_used).days] for times counted in seconds; a negative
    difference has a negative number of days, which is never above the
    threshold, as little as 0 is. *)
Definition days_since (now last_used : nat) : nat := (now - last_used) / (24 * 3600).

(** [operation.last_used is not None and
    (utcnow() - operation.last_used).days > ARCHIVE_THRESHOLD]; the column is
    set in every row, as [create_operation] fills it in. *)
Definition outdated (now : nat) (operation : Operation) : bool :=
  ARCHIVE_THRESHOLD <? days_since now (o_last_used operation).

(** A dictionary of the list returned by [list_operations]. *)
Record OperationEntry := mkEntry {
  ent_op_id : nat;
  ent_access_level : AccessLevel;
  ent_path : string;
  ent_description : string;
  ent_category : string;
  ent_active : bool
}.

(** The Operation table of a state. *)
Definition all_operations (st : state) : list Operation := operations st.

(** The loop of [list_operations] over the permissions of the user, read
    before the loop; [now] is the reading of the clock, taken as the same in
    every round. *)
Fixpoint list_operations_loop (st : state) (now : nat) (user : User) (skip_archived : bool)
    (permissions : list Permission) (operations : list OperationEntry)
    : outcome (list OperationEntry) :=
  match permissions with
  | [] => Ret operations st
  | permission :: rest =>
      match operation_by_id st (perm_op_id permission) with
      | None => Raise AttributeError st   (* [operation.last_used] on None *)
      | Some operation =>
          let archived :=
            if outdated now operation
            then (* outdated OPs get archived *)
              update_operation_column st (perm_op_id permission) (col_active false) user
            else Ret false st in
          match archived with
          | Raise e st1 => Raise e st1
          | Ret _ st1 =>
              (* new query to get uptodate data *)
              let found :=
                if skip_archived
                then List.find (fun o => (o_id o =? perm_op_id permission) &&
                                         Bool.eqb (o_active o) true) (all_operations st1)
                else operation_by_id st1 (perm_op_id permission) in
              match found with
              | Some operation' =>
                  list_operations_loop st1 now user skip_archived rest
                    (operations ++
                     [mkEntry (perm_op_id permission) (perm_access_level permission)
                              (o_path operation') (o_description operation')
                              (o_category operation') (o_active operation')])
              | None => list_operations_loop st1 now user skip_archived rest operations
              end
          end
      end
  end.

(** [list_operations] *)
Definition list_operations (st : state) (now : nat) (user : User) (skip_archived : bool)
    : outcome (list OperationEntry) :=
  list_operations_loop st now user skip_archived
    (List.filter (fun p => perm_u_id p =? user_id user) (permissions st)) [].

(** How [list_operations] for [user] at time [now] may change a state: a
    row of the Operation table is as it was, or it has been archived, the
    operation found under its id being outdated and the user being admin or
    creator of it; nothing else changes. *)
Definition archived_row (now : nat) (user : User) (st : state) (o o' : Operation) : Prop :=
  o' = o \/
  (o' = set_column (col_active false) o /\
   (exists found, operation_by_id st (o_id o) = Some found /\ outdated now found = true) /\
   (is_admin st (user_id user) (o_id o) || is_creator st (user_id user) (o_id o)) = true).

Definition archives (now : nat) (user : User) (st st' : state) : Prop :=
  permissions st' = permissions st /\ changes st' = changes st /\
  data_dir st' = data_dir st /\
  Forall2 (archived_row now user st) (operations st) (operations st').

(** One entry of [fetch_users_with_permission]. *)
Record UserWithPermission := mkUserWithPermission {
  uwp_username : string;
  uwp_access_level : AccessLevel;
  uwp_id : nat
}.

Section Users.

(** The User table; of its columns the file manager reads id and username. *)
Variable users : list User.

(** [User.query.filter_by(id=u_id).first()], also the [user] relationship of
    a Permission row. *)
Definition user_by_id (u_id : nat) : option User :=
  List.find (fun u => user_id u =? u_id) users.

(** The loop of [get_authorized_users]. *)
Fixpoint authorized_users_loop (permissions : list Permission)
    : option (list (string * AccessLevel)) :=
  match permissions with
  | [] => Some []
  | permission :: rest =>
      match user_by_id (perm_u_id permission) with
      | None => None   (* [user.username] on None *)
      | Some user =>
          option_map (cons (username user, perm_access_level permission))
                     (authorized_users_loop rest)
      end
  end.

Definition get_authorized_users (st : state) (op_id : nat)
    : outcome (list (string * AccessLevel)) :=
  match authorized_users_loop
          (List.filter (fun p => perm_op_id p =? op_id) (permissions st)) with
  | None => Raise AttributeError st
  | Some l => Ret l st
  end.

(** The users without a Permission row on the operation (a left outer join
    of which the rows without a partner are kept), as [username, id]. *)
Definition fetch_users_without_permission (st : state) (op_id u_id : nat)
    : outcome (false_or (list (string * nat))) :=
  if negb (is_admin st u_id op_id) && negb (is_creator st u_id op_id) then Ret RFalse st
  else
    Ret (RVal (map (fun user => (username user, user_id user))
                   (List.filter (fun user => negb (is_member st (user_id user) op_id)) users)))
        st.

(** The join of User and Permission on the user id, restricted to the
    operation, to users other than the requester and to levels other than
    creator; the rows come in the order of the Permission table (the order
    of a join is the database's). *)
Definition fetch_users_with_permission (st : state) (op_id u_id : nat)
    : outcome (false_or (list UserWithPermission)) :=
  if negb (is_admin st u_id op_id) && negb (is_creator st u_id op_id) then Ret RFalse st
  else
    Ret (RVal (flat_map
                 (fun p =>
                    map (fun user =>
                           mkUserWithPermission (username user) (perm_access_level p)
                                                (user_id user))
                        (List.filter (fun user => (user_id user =? perm_u_id p) &&
                                                  negb (user_id user =? u_id)) users))
                 (List.filter (fun p => (perm_op_id p =? op_id) &&
                                        negb (level_eqb (perm_access_level p) creator))
                              (permissions st))))
        st.

Definition fetch_operation_creator (st : state) (op_id u_id : nat)
    : outcome (false_or string) :=
  if negb (is_admin st u_id op_id) && negb (is_creator st u_id op_id) then Ret RFalse st
  else
    match creator_row (permissions st) op_id with
    | None => Raise AttributeError st
    | Some current_operation_creator =>
        match user_by_id (perm_u_id current_operation_creator) with
        | None => Raise AttributeError st
        | Some user => Ret (RVal (username user)) st
        end
    end.

End Users.

Section Maintenance.

Variable integrity_ok : list Permission -> bool.

(** The loop of [update_operation] after a rename to a template name:
    [import_permissions(op_id, ops.id, user.id)] for every operation of the
    category; what the calls return is not looked at. *)
Fixpoint import_into_each (st : state) (op_id u_id : nat) (ops : list Operation)
    : outcome unit :=
  match ops with
  | [] => Ret tt st
  | o :: rest =>
      match import_permissions integrity_ok st op_id (o_id o) u_id with
      | Ret _ st' => import_into_each st' op_id u_id rest
      | Raise e st' => Raise e st'
      end
  end.

Definition update_operation (st : state) (op_id : nat) (attribute : Attribute)
    (user : User) : update_outcome :=
  match attribute with
  | attr_column c => Finished (update_operation_column st op_id c user)
  | attr_path value =>
      if negb (is_admin st (user_id user) op_id) && negb (is_creator st (user_id user) op_id)
      then Finished (Ret false st)
      else if contains value "/" || contains value "\" || contains value " "
      then Finished (Ret false st)
      else
        match data_dir st !! value with
        | Some _ => Finished (Ret false st)
        | None =>
            (* [data.makedir(value)] has made the directory by now *)
            match operation_by_id st op_id with
            | None => NothingToMove value
            | Some operation =>
                match data_dir st !! o_path operation with
                | None => NothingToMove value
                | Some d =>
                    let st1 :=
                      set_data_dir (<[value := d]> (delete (o_path operation) (data_dir st)))
                                   st in
                    let imported :=
                      if endswith value GROUP_POSTFIX
                      then import_into_each st1 op_id (user_id user)
                             (ops_of_category st1 value)
                      else Ret tt st1 in
                    match imported with
                    | Raise e st2 => Finished (Raise e st2)
                    | Ret _ st2 =>
                        Finished (Ret true (update_operation_row op_id (set_path value) st2))
                    end
                end
            end
        end
  end.

(** The Message table; of its columns the file manager reads op_id. *)
Variable Message : Type.
Variable message_op_id : Message -> nat.

(** [delete_operation]: the outcome and the Message table it leaves.  The
    three bulk deletes are statements of their own; the one on the
    Permission table is where a constraint can fail. *)
Definition delete_operation (st : state) (messages : list Message) (op_id : nat)
    (user : User) : outcome bool * list Message :=
  match auth_type st (user_id user) op_id with
  | RVal creator =>
      let w := List.filter (fun p => negb (perm_op_id p =? op_id)) (permissions st) in
      if negb (flush_ok integrity_ok st w) then (Raise IntegrityError st, messages)
      else
        match operation_by_id st op_id with
        | None => (Raise AttributeError st, messages)
        | Some operation =>
            match data_dir st !! o_path operation with
            | None => (Raise ResourceNotFound st, messages)
            | Some _ =>
                let removed := set_data_dir (delete (o_path operation) (data_dir st)) st in
                (Ret true
                   (set_operations
                      (List.filter (fun o => negb (o_id o =? op_id)) (operations st))
                      (set_changes
                         (List.filter (fun c => negb (c_op_id c =? op_id)) (changes st))
                         (set_permissions w removed))),
                 List.filter (fun m => negb (message_op_id m =? op_id)) messages)
            end
        end
  | _ => (Ret false st, messages)
  end.

End Maintenance.

(** * Properties *)

(** ** Records and finds *)

Lemma set_changes_id st : set_changes (changes st) st = st.
Proof. by destruct st. Qed.

Lemma set_permissions_id st : set_permissions (permissions st) st = st.
Proof. by destruct st. Qed.

Lemma set_data_dir_id st : set_data_dir (data_dir st) st = st.
Proof. by destruct st. Qed.

Lemma OpDir_eta d : mkOpDir (main_ftml d) (repo d) = d.
Proof. by destruct d. Qed.

Lemma find_app_l {A} (f : A -> bool) l1 l2 x :
  List.find f l1 = Some x -> List.find f (l1 ++ l2) = Some x.
Proof.
  induction l1 as [|a l1 IH]; simpl; [discriminate|].
  destruct (f a); auto.
Qed.

Lemma find_app_none {A} (f : A -> bool) l1 l2 :
  List.find f l1 = None -> List.find f (l1 ++ l2) = List.find f l2.
Proof.
  induction l1 as [|a l1 IH]; simpl; [done|].
  destruct (f a); [discriminate|auto].
Qed.

Lemma find_app_skip {A} (f : A -> bool) l1 l2 :
  (forall x, In x l2 -> f x = false) -> List.find f (l1 ++ l2) = List.find f l1.
Proof.
  intros H. induction l1 as [|a l1 IH]; simpl.
  - destruct (List.find f l2) eqn:E; [|done].
    apply find_some in E as [Hin Hf]. rewrite (H _ Hin) in Hf. discriminate.
  - destruct (f a); auto.
Qed.

Lemma find_filter_keep {A} (f g : A -> bool) l :
  (forall x, In x l -> f x = true -> g x = true) ->
  List.find f (List.filter g l) = List.find f l.
Proof.
  induction l as [|a l IH]; simpl; [done|]. intros H.
  destruct (g a) eqn:Eg; simpl.
  - destruct (f a); [done|]. apply IH. intros x Hx. apply H. by right.
  - destruct (f a) eqn:Ef.
    + rewrite (H a) in Eg; [discriminate|by left|done].
    + apply IH. intros x Hx. apply H. by right.
Qed.

Lemma map_no_match {A} (f : A -> bool) (g : A -> A) l :
  List.find f l = None -> map (fun x => if f x then g x else x) l = l.
Proof.
  induction l as [|a l IH]; simpl; [done|].
  destruct (f a); [discriminate|]. intros H. by rewrite IH.
Qed.

Lemma list_max_ge x l : In x l -> x <= list_max l.
Proof.
  induction l as [|a l IH]; simpl; [done|].
  intros [->|H]; [lia|]. specialize (IH H). lia.
Qed.

Lemma fresh_id_not_in l : ~ In (fresh_id l) l.
Proof. intros H%list_max_ge. unfold fresh_id in H. lia. Qed.

Lemma mem_nat_In x xs : mem_nat x xs = true <-> In x xs.
Proof.
  unfold mem_nat. rewrite existsb_exists. split.
  - intros (y & Hy & ->%Nat.eqb_eq). done.
  - intros H. exists x. split; [done|apply Nat.eqb_refl].
Qed.

Lemma single_target (x : nat) xs :
  (negb (length xs =? 1) || negb (mem_nat x xs)) = false <-> xs = [x].
Proof.
  rewrite orb_false_iff, !negb_false_iff, Nat.eqb_eq, mem_nat_In. split.
  - intros [Hlen Hin]. destruct xs as [|y [|z xs]]; simpl in *; try lia.
    destruct Hin as [->|[]]. done.
  - intros ->. split; [done|by left].
Qed.

Lemma has_level_member lvl st u op :
  has_level lvl st u op = true -> is_member st u op = true.
Proof. unfold has_level, is_member. by destruct perm_first. Qed.


Lemma find_fresh_commit r :
  List.find (fun c => hexsha c =? fresh_id (map hexsha r)) r = None.
Proof.
  destruct (List.find _ r) eqn:E; [|done].
  apply find_some in E as [Hin Heq%Nat.eqb_eq].
  destruct (fresh_id_not_in (map hexsha r)). rewrite <- Heq. by apply in_map.
Qed.

(** What [strip_newline] does, by the last character of the text. *)
Lemma strip_newline_spec s :
  (endswith s nl = true /\ s = strip_newline s +:+ nl) \/
  (endswith s nl = false /\ strip_newline s = s).
Proof.
  induction s as [|c rest IH]; [by right|].
  destruct rest as [|c' rest'].
  - unfold nl. cbn [endswith strip_newline String.eqb].
    destruct (Ascii.eqb c (ascii_of_nat 10)) eqn:E.
    + left. apply Ascii.eqb_eq in E as ->. done.
    + right. done.
  - assert (endswith (String c (String c' rest')) nl = endswith (String c' rest') nl) as ->.
    { unfold nl. cbn [endswith String.eqb]. by destruct (Ascii.eqb c (ascii_of_nat 10)). }
    change (strip_newline (String c (String c' rest')))
      with (String c (strip_newline (String c' rest'))).
    destruct IH as [[H1 H2]|[H1 H2]]; [left|right]; (split; [done|]).
    + change (String c (strip_newline (String c' rest')) +:+ nl)
        with (String c (strip_newline (String c' rest') +:+ nl)).
      by rewrite <- H2.
    + by rewrite H2.
Qed.

Lemma strip_newline_keeps s : endswith s nl = false -> strip_newline s = s.
Proof. intros H. destruct (strip_newline_spec s) as [[E _]|[_ E]]; congruence. Qed.

Lemma length_append s t : String.length (s +:+ t) = String.length s + String.length t.
Proof. induction s as [|c s IH]; simpl; [done|]. by rewrite IH. Qed.

Lemma strip_newline_shortens s : endswith s nl = true -> strip_newline s <> s.
Proof.
  intros H E. destruct (strip_newline_spec s) as [[_ E']|[E' _]]; [|congruence].
  rewrite E in E'. apply (f_equal String.length) in E'.
  rewrite length_append in E'. simpl in E'. lia.
Qed.

(** [git show] prints what the commit records. *)
Lemma git_show_committed r commit_hash :
  git_show r commit_hash = option_map strip_newline (committed_text r commit_hash).
Proof. reflexivity. Qed.

(** A commit gets an id the repository did not have, and records the text
    under that id. *)
Lemma git_commit_show d content :
  committed_text (repo (snd (git_commit d content))) (hexsha (fst (git_commit d content)))
    = Some content /\
  ~ In (hexsha (fst (git_commit d content))) (map hexsha (repo d)).
Proof.
  unfold git_commit, committed_text. simpl. split; [|apply fresh_id_not_in].
  rewrite find_app_none by apply find_fresh_commit.
  simpl. by rewrite Nat.eqb_refl.
Qed.

Section Properties.

Variable integrity_ok : list Permission -> bool.
Variable written_before_close : string -> string.

(** ** set_version_name *)

(** C10: an admin, creator or collaborator gets True from set_version_name
    for every change id; when no Change row has that id the update matches
    no row, the state is left as it was and True is still returned. *)
Theorem set_version_name_reports_success st ch_id op_id u_id version_name :
  is_admin st u_id op_id || is_creator st u_id op_id || is_collaborator st u_id op_id = true ->
  exists st', set_version_name st ch_id op_id u_id version_name = Ret true st' /\
              (change_by_id st ch_id = None -> st' = st).
Proof.
  intros Hauth. unfold set_version_name.
  destruct (is_admin st u_id op_id), (is_creator st u_id op_id),
    (is_collaborator st u_id op_id); try discriminate; simpl;
    (eexists; split; [reflexivity|]); intros Hnone; unfold change_by_id in Hnone;
    rewrite (map_no_match (fun c => c_id c =? ch_id)) by done; apply set_changes_id.
Qed.

(** ** undo_changes and get_change_content on an unknown change id *)

(** C7: for a change id without a Change row both methods read [ch.op_id]
    from None before their not-found checks, so an AttributeError escapes
    instead of False being returned. *)
Theorem unknown_change_raises st ch_id user :
  change_by_id st ch_id = None ->
  undo_changes st ch_id user = Raise AttributeError st /\
  get_change_content st ch_id user = Raise AttributeError st.
Proof. intros H. unfold undo_changes, get_change_content. by rewrite H. Qed.

(** ** delete_bulk_permission *)

(** C5: a requester without a Permission row gets False; a member who is
    neither admin nor creator gets False unless the target list is exactly
    their own id, in which case the deletion goes ahead; a creator whose own
    id is in the target list gets False; an admin or creator who names a
    user that is not a member gets False.  Every False leaves the state as
    it was. *)
Theorem delete_bulk_permission_guards st op_id user u_ids :
  (is_member st (user_id user) op_id = false ->
   delete_bulk_permission integrity_ok st op_id user u_ids = Ret false st) /\
  (is_member st (user_id user) op_id = true ->
   is_admin st (user_id user) op_id = false ->
   is_creator st (user_id user) op_id = false ->
   (u_ids <> [user_id user] ->
    delete_bulk_permission integrity_ok st op_id user u_ids = Ret false st) /\
   (u_ids = [user_id user] ->
    delete_bulk_permission integrity_ok st op_id user u_ids =
    delete_bulk_rows integrity_ok st op_id u_ids) /\
   (forall st', delete_bulk_permission integrity_ok st op_id user u_ids = Ret true st' ->
                u_ids = [user_id user])) /\
  (is_creator st (user_id user) op_id = true -> In (user_id user) u_ids ->
   delete_bulk_permission integrity_ok st op_id user u_ids = Ret false st) /\
  (is_admin st (user_id user) op_id || is_creator st (user_id user) op_id = true ->
   (exists u_id, In u_id u_ids /\ is_member st u_id op_id = false) ->
   delete_bulk_permission integrity_ok st op_id user u_ids = Ret false st).
Proof.
  unfold delete_bulk_permission. split; [|split; [|split]].
  - intros ->. done.
  - intros -> -> ->. simpl.
    destruct (negb (length u_ids =? 1) || negb (mem_nat (user_id user) u_ids)) eqn:E.
    + split; [done|]. split; [|discriminate].
      intros ->. simpl in E. rewrite Nat.eqb_refl in E. discriminate.
    + apply single_target in E. split; [done|]. split; done.
  - intros Hcr Hin. rewrite (has_level_member _ _ _ _ Hcr).
    fold (is_creator st (user_id user) op_id).
    rewrite Hcr. simpl. rewrite andb_false_r.
    destruct (existsb _ u_ids); [done|].
    apply mem_nat_In in Hin. by rewrite Hin.
  - intros Hauth (u & Hin & Hnot).
    assert (is_member st (user_id user) op_id = true) as ->.
    { apply orb_true_iff in Hauth as [H|H]; eapply has_level_member; apply H. }
    simpl.
    assert (negb (is_admin st (user_id user) op_id) &&
            negb (is_creator st (user_id user) op_id) = false) as ->.
    { apply orb_true_iff in Hauth as [->| ->]; simpl; [done|apply andb_false_r]. }
    assert (existsb (fun u_id => negb (is_member st u_id op_id)) u_ids = true) as ->; [|done].
    apply existsb_exists. exists u. by rewrite Hnot.
Qed.


(** ** save_file *)

(** C2, as the code has it: save_file never reads the Permission table, so
    a caller without a Permission row is served like any other caller; it
    returns False with the state untouched when the operation does not
    exist. *)
Theorem save_file_ignores_permissions st op_id content user :
  (forall ps,
     save_file (set_permissions ps st) op_id content user =
     outcome_map_state (set_permissions ps) (save_file st op_id content user)) /\
  (operation_by_id st op_id = None -> save_file st op_id content user = Ret false st).
Proof.
  split.
  - intros ps. unfold save_file, operation_by_id. simpl.
    destruct (List.find _ (operations st)) as [operation|]; [|done].
    destruct (data_dir st !! o_path operation) as [d|]; [|done].
    destruct (diff_content_nonempty _ _); done.
  - intros H. unfold save_file. by rewrite H.
Qed.

(** C3, as the code has it: saving the text that main.ftml already holds
    returns False and leaves the whole state (file, commits, Change rows) as
    it was; saving a text whose lines differ from the current lines returns
    True, adds one commit with a new id that records the text, and appends
    one Change row carrying that commit id and the id of the user. *)
Theorem save_file_same_or_new_lines st op_id content user operation d :
  operation_by_id st op_id = Some operation ->
  data_dir st !! o_path operation = Some d ->
  (content = main_ftml d -> save_file st op_id content user = Ret false st) /\
  (splitlines content <> splitlines (main_ftml d) ->
   exists st' cm change,
     save_file st op_id content user = Ret true st' /\
     changes st' = changes st ++ [change] /\
     c_op_id change = op_id /\ c_u_id change = user_id user /\
     c_commit_hash change = hexsha cm /\
     ~ In (hexsha cm) (map hexsha (repo d)) /\
     data_dir st' !! o_path operation = Some (mkOpDir content (repo d ++ [cm])) /\
     committed_text (repo d ++ [cm]) (c_commit_hash change) = Some content).
Proof.
  intros Hop Hd. unfold save_file. rewrite Hop, Hd. split.
  - intros ->. unfold diff_content_nonempty.
    rewrite bool_decide_eq_true_2 by done. simpl.
    rewrite OpDir_eta, insert_id by done. by rewrite set_data_dir_id.
  - intros Hne. unfold diff_content_nonempty.
    rewrite bool_decide_eq_false_2 by (intros E; by apply Hne). simpl.
    destruct (git_commit_show d content) as [Hshow Hnew].
    eexists _, (fst (git_commit d content)),
      (new_change st op_id (user_id user) (hexsha (fst (git_commit d content)))).
    split; [reflexivity|].
    do 4 (split; [reflexivity|]). split; [exact Hnew|].
    split; [apply lookup_insert_eq|exact Hshow].
Qed.

(** ** undo_changes *)

(** C8: when undo_changes returns True, the Change table is the old one
    followed by one new row for the same operation and the acting user, but
    get_file of the acting user returns the text that the commit of the
    undone Change records without its final line feed: what [repo.git.show]
    returns is written to main.ftml as it is.  A recorded text that ends
    with a line feed is therefore not what get_file returns afterwards. *)
Theorem undo_changes_strips_line_feed st ch_id user st' :
  undo_changes st ch_id user = Ret true st' ->
  exists ch operation d recorded change,
    change_by_id st ch_id = Some ch /\
    operation_by_id st (c_op_id ch) = Some operation /\
    data_dir st !! o_path operation = Some d /\
    committed_text (repo d) (c_commit_hash ch) = Some recorded /\
    get_file st' (c_op_id ch) user = Ret (RVal (strip_newline recorded)) st' /\
    (endswith recorded nl = true ->
     get_file st' (c_op_id ch) user <> Ret (RVal recorded) st') /\
    (endswith recorded nl = false ->
     get_file st' (c_op_id ch) user = Ret (RVal recorded) st') /\
    changes st' = changes st ++ [change] /\
    c_op_id change = c_op_id ch /\ c_u_id change = user_id user /\
    length (changes st') = S (length (changes st)).
Proof.
  unfold undo_changes.
  destruct (change_by_id st ch_id) as [ch|] eqn:Hch; [|discriminate].
  destruct (negb (is_admin st (user_id user) (c_op_id ch)) &&
            negb (is_creator st (user_id user) (c_op_id ch)) &&
            negb (is_collaborator st (user_id user) (c_op_id ch))) eqn:Hauth; [discriminate|].
  destruct (operation_by_id st (c_op_id ch)) as [operation|] eqn:Hop; [|discriminate].
  destruct (data_dir st !! o_path operation) as [d|] eqn:Hd; [|discriminate].
  rewrite git_show_committed.
  destruct (committed_text (repo d) (c_commit_hash ch)) as [recorded|] eqn:Hrec;
    [|discriminate].
  simpl. intros [= <-].
  eexists ch, operation, d, recorded, _.
  do 4 (split; [done|]).
  match goal with
  | |- ?G /\ _ => assert G as Hget
  end.
  { unfold get_file. simpl.
    assert (is_member st (user_id user) (c_op_id ch) = true) as Hmem.
    { rewrite !andb_false_iff, !negb_false_iff in Hauth.
      destruct Hauth as [[H|H]|H]; eapply has_level_member; apply H. }
    unfold is_member in Hmem.
    destruct (perm_first (permissions st) (user_id user) (c_op_id ch)); [|discriminate].
    unfold operation_by_id in *. simpl. rewrite Hop.
    by rewrite lookup_insert_eq. }
  split; [exact Hget|]. split; [|split].
  - intros Hend. rewrite Hget. intros [= E]. by apply (strip_newline_shortens recorded).
  - intros Hend. rewrite Hget. by rewrite strip_newline_keeps.
  - simpl. split; [reflexivity|]. split; [reflexivity|]. split; [reflexivity|].
    rewrite length_app. simpl. lia.
Qed.


(** ** import_permissions *)

Lemma pair_in_In x l : pair_in x l = true <-> In x l.
Proof.
  unfold pair_in. rewrite existsb_exists. split.
  - intros (y & Hy & Heq). unfold pair_eqb, level_eqb in Heq.
    apply andb_true_iff in Heq as [H1%Nat.eqb_eq H2%bool_decide_eq_true].
    destruct x, y; simpl in *; by subst.
  - intros H. exists x. split; [done|]. unfold pair_eqb, level_eqb.
    rewrite Nat.eqb_refl. by rewrite bool_decide_eq_true_2.
Qed.

Lemma perm_first_Some ps u op p :
  perm_first ps u op = Some p -> In p ps /\ perm_u_id p = u /\ perm_op_id p = op.
Proof.
  intros [Hin Hm]%find_some. unfold perm_matches in Hm.
  apply andb_true_iff in Hm as [?%Nat.eqb_eq ?%Nat.eqb_eq]. done.
Qed.

Lemma perm_first_None ps u op :
  perm_first ps u op = None <-> ~ In (u, op) (map perm_key ps).
Proof.
  unfold perm_first. split.
  - intros Hnone (p & Hk & Hin)%in_map_iff.
    pose proof (find_none _ _ Hnone p Hin) as Hm. unfold perm_matches in Hm.
    injection Hk as <- <-. by rewrite !Nat.eqb_refl in Hm.
  - intros Hnot. destruct (List.find _ ps) as [p|] eqn:E; [|done].
    apply perm_first_Some in E as (Hin & <- & <-).
    destruct Hnot. by apply (in_map perm_key).
Qed.

Lemma imported_level_not_creator l : imported_level l <> creator.
Proof. by destruct l. Qed.

(** Where a tuple of [new_perm] comes from. *)
Lemma new_perm_source ps imp u c x :
  In x (new_perm_of (import_perms_of ps imp u c)) ->
  exists s, In s ps /\ perm_op_id s = imp /\ perm_u_id s <> u /\ perm_u_id s <> c /\
            x = (perm_u_id s, imported_level (perm_access_level s)).
Proof.
  unfold new_perm_of, import_perms_of.
  intros (s & <- & [Hin Hq]%filter_In)%in_map_iff.
  unfold is_import_perm in Hq.
  apply andb_true_iff in Hq as [?%Nat.eqb_eq [?%negb_true_iff ?%negb_true_iff]%andb_true_iff].
  exists s. rewrite !Nat.eqb_neq in *. done.
Qed.

(** The second loop only appends rows, each for the current operation and
    for a tuple of [new_perm] that is not in [is_perm]. *)
Lemma add_new_permissions_spec st cur isp np w w' :
  add_new_permissions integrity_ok st cur isp np w = Some w' ->
  exists added, w' = w ++ added /\
    forall r, In r added ->
      perm_op_id r = cur /\ In (pair_of r) np /\ pair_in (pair_of r) isp = false.
Proof.
  revert w. induction np as [|[x l] np IH]; simpl; intros w H.
  - injection H as <-. exists []. split; [by rewrite app_nil_r|]. intros r [].
  - destruct (pair_in (x, l) isp) eqn:Hin.
    + destruct (IH _ H) as (added & -> & Hadded). exists added. split; [done|].
      intros r Hr. destruct (Hadded r Hr) as (? & ? & ?). auto.
    + destruct (flush_ok integrity_ok st w); simpl in H; [|discriminate].
      destruct (perm_first w x cur).
      * destruct (IH _ H) as (added & -> & Hadded). exists added. split; [done|].
        intros r Hr. destruct (Hadded r Hr) as (? & ? & ?). auto.
      * destruct (IH _ H) as (added & -> & Hadded).
        exists (mkPermission x cur l :: added). split; [by rewrite <- app_assoc|].
        intros r [<-|Hr]; [simpl; auto|].
        destruct (Hadded r Hr) as (? & ? & ?). auto.
Qed.

Lemma filter_filter_keep {A} (f g : A -> bool) l :
  (forall x, In x l -> f x = true -> g x = true) ->
  List.filter f (List.filter g l) = List.filter f l.
Proof.
  induction l as [|a l IH]; simpl; [done|]. intros H.
  destruct (g a) eqn:Eg; simpl.
  - destruct (f a); [f_equal|]; apply IH; intros x Hx; apply H; by right.
  - destruct (f a) eqn:Ef.
    + rewrite (H a) in Eg; [discriminate|by left|done].
    + apply IH. intros x Hx. apply H. by right.
Qed.

Lemma filter_none {A} (f : A -> bool) l :
  (forall x, In x l -> f x = false) -> List.filter f l = [].
Proof.
  induction l as [|a l IH]; simpl; [done|]. intros H.
  rewrite (H a) by (by left). apply IH. intros x Hx. apply H. by right.
Qed.

(** What a call of import_permissions can leave behind: the state it got, or
    the table after the deletions followed by the added rows. *)
Lemma import_permissions_shape st imp cur u :
  state_of (import_permissions integrity_ok st imp cur u) = st \/
  exists crow added,
    creator_row (permissions st) cur = Some crow /\
    state_of (import_permissions integrity_ok st imp cur u) =
      set_permissions
        (delete_missing cur u
           (new_perm_of (import_perms_of (permissions st) imp u (perm_u_id crow)))
           (permissions st) ++ added) st /\
    forall r, In r added ->
      perm_op_id r = cur /\
      In (pair_of r) (new_perm_of (import_perms_of (permissions st) imp u (perm_u_id crow))) /\
      pair_in (pair_of r) (map pair_of (existing_perms_of (permissions st) cur u)) = false.
Proof.
  unfold import_permissions.
  destruct (negb (is_creator st u cur) && negb (is_admin st u cur)); [by left|].
  destruct (perm_first (permissions st) u imp); [|by left].
  destruct (creator_row (permissions st) cur) as [crow|] eqn:Hcr; [|by left].
  destruct (bool_decide _); [by left|].
  destruct (negb (flush_ok _ _ _)); [by left|].
  destruct (add_new_permissions _ _ _ _ _ _) as [w'|] eqn:Hadd; [|by left].
  destruct (flush_ok _ _ w'); [|by left].
  right. apply add_new_permissions_spec in Hadd as (added & -> & Hadded).
  exists crow, added. done.
Qed.


Lemma filter_all {A} (l : list A) : List.filter (fun _ => true) l = l.
Proof. induction l as [|a l IH]; simpl; [done|]. by rewrite IH. Qed.

(** The rows of the requester are out of reach of import_permissions, and so
    are the other tables and the data directory. *)
Lemma import_permissions_frame st imp cur u op :
  let st' := state_of (import_permissions integrity_ok st imp cur u) in
  operations st' = operations st /\ changes st' = changes st /\
  data_dir st' = data_dir st /\
  perm_first (permissions st') u op = perm_first (permissions st) u op.
Proof.
  simpl. destruct (import_permissions_shape st imp cur u) as [->|(crow & added & _ & -> & Hadded)];
    [done|].
  simpl. do 3 (split; [done|]). unfold perm_first.
  rewrite find_app_skip.
  - unfold delete_missing. apply find_filter_keep.
    intros p _ Hm. unfold perm_matches in Hm. unfold is_existing_perm.
    apply andb_true_iff in Hm as [-> _]. simpl. by rewrite andb_false_r.
  - intros r Hr. destruct (Hadded r Hr) as (_ & Hnp & _).
    apply new_perm_source in Hnp as (s & _ & _ & Hu & _ & Heq).
    unfold perm_matches. injection Heq as Heq _. rewrite Heq.
    apply Nat.eqb_neq in Hu. by rewrite Hu.
Qed.

(** ** create_operation followed by get_file *)

Lemma find_new_operation ops operation :
  o_id operation = fresh_id (map o_id ops) ->
  List.find (fun o => o_id o =? o_id operation) (ops ++ [operation]) = Some operation.
Proof.
  intros Hid. rewrite find_app_none.
  - simpl. by rewrite Nat.eqb_refl.
  - destruct (List.find _ ops) as [o|] eqn:E; [|done].
    apply find_some in E as [Hin Heq%Nat.eqb_eq].
    destruct (fresh_id_not_in (map o_id ops)). rewrite <- Hid, <- Heq. by apply in_map.
Qed.

(** C9: when create_operation returns True, the path was free, the
    Operation table is the old one followed by one row with that path and
    an id no operation had, this new operation is the one found under the
    path and under its id, and get_file of the creating user on it returns
    the supplied content, or the stub document when none was supplied. *)
Theorem create_operation_then_get_file st now path description user last_used
    content category active st' :
  create_operation integrity_ok written_before_close st now path description user
                   last_used content category active = Ret true st' ->
  exists operation,
    operation_by_path (operations st) path = None /\
    ~ In (o_id operation) (map o_id (operations st)) /\
    operations st' = operations st ++ [operation] /\
    o_path operation = path /\
    operation_by_path (operations st') path = Some operation /\
    operation_by_id st' (o_id operation) = Some operation /\
    get_file st' (o_id operation) user =
      Ret (RVal (match content with Some text => text | None => STUB_CODE end)) st'.
Proof.
  unfold create_operation.
  destruct (contains path "/" || contains path "\" || contains path " "); [discriminate|].
  destruct (operation_by_path (operations st) path) eqn:Hpath; [discriminate|].
  destruct (negb (flush_ok _ _ _)); [discriminate|].
  set (operation := mkOperation (fresh_id (map o_id (operations st))) path description
                      (default now last_used) category active).
  set (st1 := set_permissions _ (set_operations _ st)).
  intros H.
  assert (exists st2, operations st2 = operations st1 /\
            perm_first (permissions st2) (user_id user) (o_id operation) =
            perm_first (permissions st1) (user_id user) (o_id operation) /\
            st' = set_data_dir
                    (<[path := mkOpDir (default STUB_CODE content)
                                 [mkCommit (fresh_id [])
                                    (written_before_close (default STUB_CODE content))]]>
                       (data_dir st2)) st2) as (st2 & Hops & Hperm & ->).
  { destruct (negb (endswith path GROUP_POSTFIX)).
    - destruct (operation_by_path _ (category +:+ GROUP_POSTFIX)) as [import_op|].
      + pose proof (import_permissions_frame st1 (o_id import_op) (o_id operation)
                      (user_id user) (o_id operation)) as Hfr.
        simpl in Hfr. change (fresh_id (map o_id (operations st))) with (o_id operation) in H.
        destruct (import_permissions _ st1 _ _ _) as [r st2|e st2]; [|discriminate].
        simpl in Hfr. destruct Hfr as (Hops & _ & _ & Hperm).
        destruct (makedir (data_dir st2) path) eqn:Hd; [discriminate|].
        injection H as <-. exists st2. done.
      + destruct (makedir (data_dir st1) path) eqn:Hd; [discriminate|].
        injection H as <-. exists st1. done.
    - destruct (makedir (data_dir st1) path) eqn:Hd; [discriminate|].
      injection H as <-. exists st1. done. }
  pose proof (find_new_operation (operations st) operation eq_refl) as Hfind.
  exists operation. simpl. rewrite Hops. simpl.
  split; [done|]. split; [apply fresh_id_not_in|]. split; [done|]. split; [done|].
  split; [|split].
  - unfold operation_by_path in *. rewrite find_app_none by done.
    simpl. by rewrite String.eqb_refl.
  - unfold operation_by_id. simpl. rewrite Hops. exact Hfind.
  - unfold get_file. simpl. simpl in Hperm. rewrite Hperm.
    assert (exists p, perm_first
                        (permissions st ++
                         [mkPermission (user_id user) (fresh_id (map o_id (operations st)))
                                       creator])
                        (user_id user) (fresh_id (map o_id (operations st))) = Some p)
      as [p ->].
    { unfold perm_first.
      destruct (List.find (perm_matches (user_id user) (fresh_id (map o_id (operations st))))
                  (permissions st)) as [p|] eqn:E.
      - exists p. by apply find_app_l.
      - eexists. rewrite find_app_none by done. simpl. unfold perm_matches. simpl.
        by rewrite !Nat.eqb_refl. }
    unfold operation_by_id. simpl. rewrite Hops. unfold st1. simpl.
    simpl in Hfind. rewrite Hfind.
    simpl. rewrite lookup_insert_eq. by destruct content.
Qed.


(** ** Sorting tuples *)

Global Instance pair_le_total : Total pair_le.
Proof. intros [a la] [b lb]. unfold pair_le. simpl. lia. Qed.

Global Instance pair_le_trans : Transitive pair_le.
Proof. intros [a la] [b lb] [c lc]. unfold pair_le. simpl. lia. Qed.

Global Instance pair_le_antisymm : AntiSymm (=) pair_le.
Proof.
  intros [a la] [b lb]. unfold pair_le. simpl. intros H1 H2.
  assert (a = b) as -> by lia.
  assert (level_rank la = level_rank lb) as Hrank by lia.
  f_equal. destruct la, lb; simpl in Hrank; congruence.
Qed.

(** [sorted] only depends on the tuples as a multiset. *)
Lemma sorted_Permutation l1 l2 : l1 ≡ₚ l2 -> sorted l1 = sorted l2.
Proof.
  intros Hp. unfold sorted. apply (Sorted_unique pair_le).
  - apply Sorted_merge_sort; apply _.
  - apply Sorted_merge_sort; apply _.
  - by rewrite !merge_sort_Permutation.
Qed.

(** ** Tables with one row per user and operation *)

Lemma NoDup_map_filter {A B} (f : A -> B) (g : A -> bool) l :
  NoDup (map f l) -> NoDup (map f (List.filter g l)).
Proof.
  induction l as [|a l IH]; simpl; [done|].
  intros [Hnot Hl]%NoDup_cons. destruct (g a); simpl; [|auto].
  apply NoDup_cons. split; [|auto].
  intros (x & Hx & [Hin _]%filter_In)%list_elem_of_In%in_map_iff.
  apply Hnot, list_elem_of_In. rewrite <- Hx. by apply in_map.
Qed.

Lemma NoDup_map_eq {A B} (f : A -> B) l x y :
  NoDup (map f l) -> In x l -> In y l -> f x = f y -> x = y.
Proof.
  induction l as [|a l IH]; simpl; [done|].
  intros [Hnot Hl]%NoDup_cons [->|Hx] [->|Hy] Heq; auto.
  - destruct Hnot. apply list_elem_of_In. rewrite Heq. by apply in_map.
  - destruct Hnot. apply list_elem_of_In. rewrite <- Heq. by apply in_map.
Qed.

Lemma NoDup_users_of_op l op :
  (forall p, In p l -> perm_op_id p = op) ->
  NoDup (map perm_key l) -> NoDup (map perm_u_id l).
Proof.
  induction l as [|a l IH]; simpl; [constructor|].
  intros Hop [Hnot Hl]%NoDup_cons. apply NoDup_cons. split.
  - intros (x & Hx & Hin)%list_elem_of_In%in_map_iff. apply Hnot, list_elem_of_In.
    apply in_map_iff. exists x. split; [|done]. unfold perm_key.
    rewrite Hx, (Hop x), (Hop a); auto.
  - apply IH; auto.
Qed.

Lemma NoDup_fst_unique {A B} (l : list (A * B)) a x y :
  NoDup (map fst l) -> In (a, x) l -> In (a, y) l -> x = y.
Proof.
  intros Hnd Hx Hy.
  pose proof (NoDup_map_eq fst l (a, x) (a, y) Hnd Hx Hy eq_refl). congruence.
Qed.

(** The second loop keeps the table free of duplicates. *)
Lemma add_new_permissions_NoDup st cur isp np w w' :
  NoDup (map perm_key w) ->
  add_new_permissions integrity_ok st cur isp np w = Some w' ->
  NoDup (map perm_key w').
Proof.
  revert w. induction np as [|[x l] np IH]; simpl; intros w Hnd H.
  - by injection H as <-.
  - destruct (pair_in (x, l) isp); [eauto|].
    destruct (flush_ok integrity_ok st w); simpl in H; [|discriminate].
    destruct (perm_first w x cur) eqn:Hfirst; [eauto|].
    apply (fun Hw => IH _ Hw H).
    rewrite map_app. simpl. apply NoDup_app. split; [done|]. split.
    + intros k Hk [<-|[]]%list_elem_of_In. apply perm_first_None in Hfirst.
      apply Hfirst. by apply list_elem_of_In.
    + apply NoDup_singleton.
Qed.

(** Every tuple of [new_perm] that is not in [is_perm] ends up as a row,
    unless its user already had a row for the operation. *)
Lemma add_new_permissions_covers st cur isp np w w' :
  NoDup (map fst np) ->
  add_new_permissions integrity_ok st cur isp np w = Some w' ->
  forall x l, In (x, l) np -> pair_in (x, l) isp = false ->
    In (mkPermission x cur l) w' \/
    exists r0, In r0 w /\ perm_u_id r0 = x /\ perm_op_id r0 = cur.
Proof.
  revert w. induction np as [|[y k] np IH]; simpl; intros w Hnd H x l Hin Hisp; [done|].
  apply NoDup_cons in Hnd as [Hy Hnd].
  destruct Hin as [[= -> ->]|Hin].
  - rewrite Hisp in H.
    destruct (flush_ok integrity_ok st w); simpl in H; [|discriminate].
    destruct (perm_first w x cur) as [r0|] eqn:Hfirst.
    + right. apply perm_first_Some in Hfirst as (? & ? & ?). by exists r0.
    + left. apply add_new_permissions_spec in H as (added & -> & _).
      apply in_or_app. left. apply in_or_app. right. by left.
  - assert (x <> y) as Hxy.
    { intros ->. apply Hy, list_elem_of_In. by apply (in_map fst _ (y, l)). }
    assert (forall w0, add_new_permissions integrity_ok st cur isp np w0 = Some w' ->
              (forall r, In r w0 -> In r w \/ r = mkPermission y cur k) ->
              In (mkPermission x cur l) w' \/
              exists r0, In r0 w /\ perm_u_id r0 = x /\ perm_op_id r0 = cur) as Hstep.
    { intros w0 H0 Hw0. destruct (IH w0 Hnd H0 x l Hin Hisp) as [?|(r0 & Hr0 & Hu & Ho)];
        [by left|].
      destruct (Hw0 r0 Hr0) as [?| ->]; [right; by exists r0|].
      simpl in Hu. congruence. }
    destruct (pair_in (y, k) isp); [apply (Hstep w H); auto|].
    destruct (flush_ok integrity_ok st w); simpl in H; [|discriminate].
    destruct (perm_first w y cur).
    + apply (Hstep w H); auto.
    + apply (Hstep _ H). intros r [?|[<-|[]]]%in_app_or; auto.
Qed.


Lemma creator_row_Some ps cur crow :
  creator_row ps cur = Some crow ->
  In crow ps /\ perm_op_id crow = cur /\ perm_access_level crow = creator.
Proof.
  intros [Hin Hq]%find_some.
  apply andb_true_iff in Hq as [?%Nat.eqb_eq ?%bool_decide_eq_true]. done.
Qed.

(** On a table that satisfies the invariants, leaving out the rows at level
    creator of an operation and leaving out the rows of its creator is the
    same selection. *)
Lemma existing_is_import ps cur u crow :
  NoDup (map perm_key ps) -> at_most_one_creator ps cur ->
  creator_row ps cur = Some crow ->
  forall p, In p ps ->
    is_existing_perm cur u p = is_import_perm cur u (perm_u_id crow) p.
Proof.
  intros Hnd Hone (Hcin & Hcop & Hclvl)%creator_row_Some p Hp.
  unfold is_existing_perm, is_import_perm.
  destruct (perm_op_id p =? cur) eqn:Hop; [|done]. apply Nat.eqb_eq in Hop.
  destruct (perm_u_id p =? u); [done|]. simpl. f_equal.
  unfold level_eqb.
  destruct (decide (perm_access_level p = creator)) as [Hl|Hl].
  - rewrite bool_decide_eq_true_2 by done.
    rewrite (Hone p crow) by done. symmetry. apply Nat.eqb_refl.
  - rewrite bool_decide_eq_false_2 by done. symmetry. apply Nat.eqb_neq.
    intros Hu. apply Hl.
    rewrite (NoDup_map_eq perm_key ps p crow Hnd Hp Hcin); [done|].
    unfold perm_key. by rewrite Hu, Hop, Hcop.
Qed.

Lemma new_perm_same_op ps cur u crow :
  NoDup (map perm_key ps) -> at_most_one_creator ps cur ->
  creator_row ps cur = Some crow ->
  new_perm_of (import_perms_of ps cur u (perm_u_id crow)) =
  map pair_of (existing_perms_of ps cur u).
Proof.
  intros Hnd Hone Hcr. unfold import_perms_of, existing_perms_of, new_perm_of.
  rewrite <- (List.filter_ext_in _ _ ps (existing_is_import ps cur u crow Hnd Hone Hcr)).
  apply map_ext_in. intros p [_ Hq]%filter_In. unfold pair_of. f_equal.
  unfold is_existing_perm, level_eqb in Hq.
  apply andb_true_iff in Hq as [_ [_ Hl%negb_true_iff%bool_decide_eq_false]%andb_true_iff].
  by destruct (perm_access_level p).
Qed.

Lemma filter_all_true {A} (f : A -> bool) l :
  (forall x, In x l -> f x = true) -> List.filter f l = l.
Proof.
  induction l as [|a l IH]; simpl; [done|]. intros H.
  rewrite (H a) by (by left). f_equal. apply IH. intros x Hx. apply H. by right.
Qed.

(** An added row is one of the rows [existing_perms] selects. *)
Lemma added_is_existing ps imp cur u c r :
  perm_op_id r = cur ->
  In (pair_of r) (new_perm_of (import_perms_of ps imp u c)) ->
  is_existing_perm cur u r = true.
Proof.
  intros Hop (s & _ & _ & Hu & _ & Heq)%new_perm_source.
  injection Heq as Hru Hrl. unfold is_existing_perm, level_eqb.
  rewrite Hop, Nat.eqb_refl, Hru, Hrl. simpl.
  apply andb_true_iff. split.
  - apply negb_true_iff. by apply Nat.eqb_neq.
  - apply negb_true_iff, bool_decide_eq_false_2, imported_level_not_creator.
Qed.


(** The table a successful import_permissions leaves behind, on a table
    that satisfies the invariants: the creator row found first is the same,
    the rows read from the source operation are the same, and the tuples of
    the target operation are the imported tuples up to their order. *)
Lemma import_permissions_done st imp cur u ev msg st' :
  NoDup (map perm_key (permissions st)) ->
  at_most_one_creator (permissions st) cur ->
  import_permissions integrity_ok st imp cur u = Ret (true, ev, msg) st' ->
  exists crow,
    creator_row (permissions st) cur = Some crow /\
    creator_row (permissions st') cur = Some crow /\
    import_perms_of (permissions st') imp u (perm_u_id crow) =
    import_perms_of (permissions st) imp u (perm_u_id crow) /\
    new_perm_of (import_perms_of (permissions st) imp u (perm_u_id crow)) ≡ₚ
    map pair_of (existing_perms_of (permissions st') cur u) /\
    NoDup (map perm_key (permissions st')).
Proof.
  intros Hnd Hone H. unfold import_permissions in H.
  destruct (negb (is_creator st u cur) && negb (is_admin st u cur)); [discriminate|].
  destruct (perm_first (permissions st) u imp) as [m|]; [|discriminate].
  destruct (creator_row (permissions st) cur) as [crow|] eqn:Hcr; [|discriminate].
  exists crow. split; [done|].
  set (np := new_perm_of (import_perms_of (permissions st) imp u (perm_u_id crow))) in *.
  set (isp := map pair_of (existing_perms_of (permissions st) cur u)) in *.
  destruct (bool_decide (sorted np = sorted isp)) eqn:Hsorted; [discriminate|].
  apply bool_decide_eq_false in Hsorted.
  destruct (negb (flush_ok _ _ _)); [discriminate|].
  destruct (add_new_permissions _ _ _ _ _ _) as [w'|] eqn:Hadd; [|discriminate].
  destruct (flush_ok _ _ w'); [|discriminate].
  injection H as _ _ <-. simpl.
  set (w := delete_missing cur u np (permissions st)) in *.
  (* the source is another operation *)
  assert (imp <> cur) as Hne.
  { intros ->. apply Hsorted. unfold np, isp. by rewrite (new_perm_same_op _ _ _ crow). }
  assert (NoDup (map perm_key w)) as Hndw by (by apply NoDup_map_filter).
  pose proof (add_new_permissions_NoDup _ _ _ _ _ _ Hndw Hadd) as Hnd'.
  assert (NoDup (map fst np)) as Hndnp.
  { unfold np, new_perm_of. rewrite map_map. simpl.
    apply (NoDup_users_of_op _ imp).
    - intros p [_ Hq]%filter_In. unfold is_import_perm in Hq.
      by apply andb_true_iff in Hq as [?%Nat.eqb_eq _].
    - by apply NoDup_map_filter. }
  pose proof (add_new_permissions_covers _ _ _ _ _ _ Hndnp Hadd) as Hcov.
  apply add_new_permissions_spec in Hadd as (added & -> & Hadded).
  destruct (creator_row_Some _ _ _ Hcr) as (Hcin & Hcop & Hclvl).
  split; [|split; [|split; [|done]]].
  - (* the creator row *)
    unfold creator_row in *. rewrite find_app_skip.
    + unfold w, delete_missing. rewrite find_filter_keep; [done|].
      intros p _ Hp. unfold is_existing_perm.
      apply andb_true_iff in Hp as [_ ->]. simpl. by rewrite !andb_false_r.
    + intros r Hr. destruct (Hadded r Hr) as (Hop & Hnp & _).
      pose proof (added_is_existing (permissions st) imp cur u (perm_u_id crow) r Hop Hnp) as Hq.
      unfold is_existing_perm in Hq.
      apply andb_true_iff in Hq as [_ [_ Hl%negb_true_iff]%andb_true_iff].
      rewrite Hl. apply andb_false_r.
  - (* the rows of the source operation *)
    unfold import_perms_of. rewrite List.filter_app.
    rewrite (filter_none _ added).
    + rewrite app_nil_r. unfold w, delete_missing. apply filter_filter_keep.
      intros p _ Hp. unfold is_import_perm in Hp. unfold is_existing_perm.
      apply andb_true_iff in Hp as [Hop%Nat.eqb_eq _].
      assert ((perm_op_id p =? cur) = false) as -> by (apply Nat.eqb_neq; congruence).
      done.
    + intros r Hr. destruct (Hadded r Hr) as (Hop & _ & _).
      unfold is_import_perm.
      assert ((perm_op_id r =? imp) = false) as -> by (apply Nat.eqb_neq; congruence).
      done.
  - (* the tuples of the target operation *)
    assert (existing_perms_of (w ++ added) cur u =
            List.filter (is_existing_perm cur u) w ++ added) as ->.
    { unfold existing_perms_of. rewrite List.filter_app. f_equal.
      apply filter_all_true. intros r Hr. destruct (Hadded r Hr) as (Hop & Hnp & _).
      by apply (added_is_existing (permissions st) imp _ _ (perm_u_id crow)). }
    apply NoDup_Permutation.
    + apply (NoDup_fmap_1 fst). exact Hndnp.
    + apply (NoDup_fmap_1 fst). change (fst <$> ?l) with (map fst l).
      rewrite map_map. simpl.
      assert (List.filter (is_existing_perm cur u) w ++ added =
              existing_perms_of (w ++ added) cur u) as ->.
      { unfold existing_perms_of. rewrite List.filter_app. f_equal. symmetry.
        apply filter_all_true. intros r Hr. destruct (Hadded r Hr) as (Hop & Hnp & _).
        by apply (added_is_existing (permissions st) imp _ _ (perm_u_id crow)). }
      apply (NoDup_users_of_op _ cur).
      * intros p [_ Hq]%filter_In. unfold is_existing_perm in Hq.
        by apply andb_true_iff in Hq as [?%Nat.eqb_eq _].
      * by apply NoDup_map_filter.
    + intros [x l]. rewrite !list_elem_of_In. split.
      * intros Hin. apply in_map_iff.
        destruct (pair_in (x, l) isp) eqn:Hisp.
        -- apply pair_in_In in Hisp. unfold isp in Hisp.
           apply in_map_iff in Hisp as (r & Hr & [Hrin Hq]%filter_In).
           exists r. split; [done|]. apply in_or_app. left.
           apply filter_In. split; [|done]. unfold w, delete_missing.
           apply filter_In. split; [done|]. rewrite Hq, Hr. simpl.
           apply pair_in_In in Hin. by rewrite Hin.
        -- destruct (Hcov x l Hin Hisp) as [Hnew|(r0 & Hr0 & Hu0 & Ho0)].
           ++ exists (mkPermission x cur l). split; [done|].
              apply in_app_or in Hnew as [Hnew|Hnew]; apply in_or_app; [left|by right].
              apply filter_In. split; [done|].
              by apply (added_is_existing (permissions st) imp _ _ (perm_u_id crow)).
           ++ exfalso. apply new_perm_source in Hin as Hsrc.
              destruct Hsrc as (s & _ & _ & Hsu & Hsc & Heq). injection Heq as -> ->.
              apply filter_In in Hr0 as [Hr0 Hkeep].
              assert (is_existing_perm cur u r0 = true) as Hq.
              { unfold is_existing_perm, level_eqb. rewrite Ho0, Nat.eqb_refl, Hu0. simpl.
                apply andb_true_iff. split; [by apply negb_true_iff, Nat.eqb_neq|].
                apply negb_true_iff, bool_decide_eq_false_2. intros Hl.
                apply Hsc. rewrite <- Hu0. by rewrite (Hone r0 crow). }
              rewrite Hq in Hkeep. simpl in Hkeep.
              apply negb_true_iff, negb_false_iff, pair_in_In in Hkeep.
              apply not_true_iff_false in Hisp. apply Hisp, pair_in_In.
              unfold isp. apply in_map_iff. exists r0.
              split; [|apply filter_In; split; [exact Hr0|exact Hq]].
              unfold pair_of in *. rewrite Hu0 in *. f_equal.
              exact (NoDup_fst_unique _ _ _ _ Hndnp Hkeep Hin).
      * intros (r & <- & [[Hr Hq]%filter_In|Hr]%in_app_or)%in_map_iff.
        -- unfold w, delete_missing in Hr. apply filter_In in Hr as [_ Hkeep].
           rewrite Hq in Hkeep. simpl in Hkeep.
           by apply negb_true_iff, negb_false_iff, pair_in_In in Hkeep.
        -- by destruct (Hadded r Hr) as (_ & ? & _).
Qed.


(** C6: whatever import_permissions returns or raises, the rows at level
    creator (those of the target operation among them) are the same rows in
    the same order afterwards, and the table is a sub-list of the old rows
    followed by added rows; each added row belongs to the target operation
    and copies a row of the source operation for the same user, at level
    admin when the source row is at level creator and at the source level
    otherwise.  On a table with one row per user and operation and one
    creator row for the target, a call that returns True leaves an admin row
    on the target for every imported user whose source row is at level
    creator. *)
Theorem import_permissions_keeps_creator st import_op_id current_op_id u_id :
  let st' := state_of (import_permissions integrity_ok st import_op_id current_op_id u_id) in
  List.filter is_creator_level (permissions st') =
  List.filter is_creator_level (permissions st) /\
  (exists keep added,
    permissions st' = List.filter keep (permissions st) ++ added /\
    (forall p, In p (permissions st) -> is_creator_level p = true -> keep p = true) /\
    forall r, In r added ->
      perm_op_id r = current_op_id /\
      exists s, In s (permissions st) /\ perm_op_id s = import_op_id /\
                perm_u_id s = perm_u_id r /\
                perm_access_level r =
                  match perm_access_level s with creator => admin | l => l end) /\
  (NoDup (map perm_key (permissions st)) ->
   at_most_one_creator (permissions st) current_op_id ->
   forall ev msg crow s,
     import_permissions integrity_ok st import_op_id current_op_id u_id
       = Ret (true, ev, msg) st' ->
     creator_row (permissions st) current_op_id = Some crow ->
     In s (permissions st) -> perm_op_id s = import_op_id ->
     perm_u_id s <> u_id -> perm_u_id s <> perm_u_id crow ->
     perm_access_level s = creator ->
     In (mkPermission (perm_u_id s) current_op_id admin) (permissions st')).
Proof.
  simpl. split; [|split].
  - destruct (import_permissions_shape st import_op_id current_op_id u_id)
      as [->|(crow & added & _ & -> & Hadded)]; [done|].
    simpl. rewrite List.filter_app. unfold delete_missing. rewrite filter_filter_keep.
    + rewrite (filter_none _ added); [by rewrite app_nil_r|].
      intros r Hr. destruct (Hadded r Hr) as (_ & Hnp & _).
      apply new_perm_source in Hnp as (s & _ & _ & _ & _ & Heq).
      unfold is_creator_level, level_eqb. apply bool_decide_eq_false_2.
      injection Heq as _ ->. apply imported_level_not_creator.
    + intros p _ Hp. unfold is_existing_perm. unfold is_creator_level in Hp.
      rewrite Hp. simpl. by rewrite !andb_false_r.
  - destruct (import_permissions_shape st import_op_id current_op_id u_id)
      as [->|(crow & added & _ & -> & Hadded)].
    + exists (fun _ => true), []. rewrite filter_all, app_nil_r.
      split; [done|]. split; [done|]. intros r [].
    + simpl. eexists _, added. split; [reflexivity|]. split.
      * intros p _ Hp. unfold is_existing_perm. unfold is_creator_level in Hp.
        rewrite Hp. simpl. by rewrite !andb_false_r.
      * intros r Hr. destruct (Hadded r Hr) as (Hop & Hnp & _). split; [done|].
        apply new_perm_source in Hnp as (s & Hs & Himp & _ & _ & Heq).
        exists s. injection Heq as Hu Hl. rewrite Hu, Hl. do 3 (split; [done|]).
        by destruct (perm_access_level s).
  - intros Hnd Hone ev msg crow s H Hcr Hs Hsop Hsu Hsc Hsl.
    destruct (import_permissions_done _ _ _ _ _ _ _ Hnd Hone H)
      as (crow' & Hcr2 & _ & _ & Hperm & _).
    rewrite Hcr in Hcr2. injection Hcr2 as <-.
    assert (In (perm_u_id s, admin)
              (new_perm_of (import_perms_of (permissions st) import_op_id u_id
                                            (perm_u_id crow)))) as Hin.
    { unfold new_perm_of, import_perms_of. apply in_map_iff. exists s. split.
      - by rewrite Hsl.
      - apply filter_In. split; [done|]. unfold is_import_perm.
        rewrite Hsop, Nat.eqb_refl. simpl.
        apply andb_true_iff. split; apply negb_true_iff; by apply Nat.eqb_neq. }
    apply list_elem_of_In in Hin. rewrite Hperm in Hin.
    apply list_elem_of_In, in_map_iff in Hin as (r & Hr & [Hrin Hq]%filter_In).
    unfold is_existing_perm in Hq. apply andb_true_iff in Hq as [Hop%Nat.eqb_eq _].
    destruct r as [ru rop rl]. unfold pair_of in Hr. simpl in *.
    injection Hr as -> ->. by subst rop.
Qed.

(** C4, as the code has it: on a Permission table with one row per user and
    operation and one creator row for the target operation, a call of
    import_permissions that returned True is followed, for the same
    arguments, by a call that returns (False, None, "Permissions are already
    given") and leaves the state, and so every Permission row, as it is. *)
Theorem import_permissions_twice st import_op_id current_op_id u_id ev msg st' :
  NoDup (map perm_key (permissions st)) ->
  at_most_one_creator (permissions st) current_op_id ->
  import_permissions integrity_ok st import_op_id current_op_id u_id
    = Ret (true, ev, msg) st' ->
  import_permissions integrity_ok st' import_op_id current_op_id u_id
    = Ret (false, None, "Permissions are already given") st'.
Proof.
  intros Hnd Hone H.
  destruct (import_permissions_done _ _ _ _ _ _ _ Hnd Hone H)
    as (crow & Hcr & Hcr' & Himp & Hperm & _).
  pose proof (import_permissions_frame st import_op_id current_op_id u_id current_op_id)
    as (_ & _ & _ & Hcur).
  pose proof (import_permissions_frame st import_op_id current_op_id u_id import_op_id)
    as (_ & _ & _ & Hsrc).
  rewrite H in Hcur, Hsrc. simpl in Hcur, Hsrc.
  unfold import_permissions in H |- *. unfold is_creator, is_admin, has_level in *.
  rewrite Hcur, Hsrc.
  destruct (negb _ && negb _); [discriminate|].
  destruct (perm_first (permissions st) u_id import_op_id); [|discriminate].
  rewrite Hcr', Himp.
  rewrite bool_decide_eq_true_2; [done|].
  by apply sorted_Permutation.
Qed.


End Properties.

(** ** Group templates *)

(** C1: on the template "texGroup", add_bulk_permission for the users 3 and 4
    gives both a row on the template but only user 4, the last of the list,
    a row on "alpha" of category "tex"; modify_bulk_permission and
    delete_bulk_permission for user 2 also change and remove the row of
    user 2 on "fooGroup", an operation of category "tex" whose path ends
    with the Group postfix. *)
Theorem group_propagation_defects :
  (exists st',
     add_bulk_permission unique_user_op st_group 1 alice [3; 4] viewer = Ret true st' /\
     is_viewer st' 3 1 = true /\ is_viewer st' 4 1 = true /\
     is_viewer st' 4 2 = true /\ is_member st' 3 2 = false) /\
  (exists st',
     modify_bulk_permission unique_user_op st_group 1 alice [2] viewer = Ret true st' /\
     is_viewer st' 2 1 = true /\
     is_collaborator st_group 2 3 = true /\ is_viewer st' 2 3 = true) /\
  (exists st',
     delete_bulk_permission unique_user_op st_group 1 alice [2] = Ret true st' /\
     is_member st' 2 1 = false /\
     is_member st_group 2 3 = true /\ is_member st' 2 3 = false).
Proof.
  split; [|split]; eexists; (split; [vm_compute; reflexivity|]); vm_compute; auto.
Qed.

(** ** The theorems at concrete states *)

Lemma set_version_name_reports_success_witness :
  exists st', set_version_name st_alpha 7 1 1 (Some "v1") = Ret true st' /\
              (change_by_id st_alpha 7 = None -> st' = st_alpha).
Proof. apply (set_version_name_reports_success st_alpha 7 1 1 (Some "v1")). reflexivity. Defined.

Lemma unknown_change_raises_witness :
  undo_changes st_alpha 1 alice = Raise AttributeError st_alpha /\
  get_change_content st_alpha 1 alice = Raise AttributeError st_alpha.
Proof. apply (unknown_change_raises st_alpha 1 alice). reflexivity. Defined.

Lemma delete_bulk_permission_guards_witness :
  delete_bulk_permission unique_user_op st_group 1 carol [2] = Ret false st_group /\
  delete_bulk_permission unique_user_op st_group 1 bob [1] = Ret false st_group /\
  delete_bulk_permission unique_user_op st_group 1 bob [2] =
    delete_bulk_rows unique_user_op st_group 1 [2] /\
  delete_bulk_permission unique_user_op st_group 1 alice [1; 2] = Ret false st_group /\
  delete_bulk_permission unique_user_op st_group 1 alice [2; 3] = Ret false st_group.
Proof.
  split; [|split; [|split; [|split]]].
  - destruct (delete_bulk_permission_guards unique_user_op st_group 1 carol [2])
      as (H & _). apply H. reflexivity.
  - destruct (delete_bulk_permission_guards unique_user_op st_group 1 bob [1])
      as (_ & H & _). destruct H as (H & _); [reflexivity..|].
    apply H. discriminate.
  - destruct (delete_bulk_permission_guards unique_user_op st_group 1 bob [2])
      as (_ & H & _). destruct H as (_ & H & _); [reflexivity..|].
    apply H. reflexivity.
  - destruct (delete_bulk_permission_guards unique_user_op st_group 1 alice [1; 2])
      as (_ & _ & H & _). apply H; [reflexivity|simpl; auto].
  - destruct (delete_bulk_permission_guards unique_user_op st_group 1 alice [2; 3])
      as (_ & _ & _ & H). apply H; [reflexivity|].
    exists 3. split; [simpl; auto|reflexivity].
Defined.

Lemma save_file_ignores_permissions_witness :
  save_file st_alpha 9 "b" bob = Ret false st_alpha.
Proof.
  destruct (save_file_ignores_permissions st_alpha 9 "b" bob) as (_ & H).
  apply H. reflexivity.
Defined.

Lemma save_file_same_or_new_lines_witness :
  save_file st_alpha 1 "a" alice = Ret false st_alpha /\
  exists st' cm change,
    save_file st_alpha 1 "b" alice = Ret true st' /\
    changes st' = changes st_alpha ++ [change] /\
    c_op_id change = 1 /\ c_u_id change = user_id alice /\
    c_commit_hash change = hexsha cm /\
    ~ In (hexsha cm) (map hexsha (repo alpha_dir)) /\
    data_dir st' !! "alpha" = Some (mkOpDir "b" (repo alpha_dir ++ [cm])) /\
    committed_text (repo alpha_dir ++ [cm]) (c_commit_hash change) = Some "b".
Proof.
  split.
  - destruct (save_file_same_or_new_lines st_alpha 1 "a" alice
                (mkOperation 1 "alpha" "" 0 "tex" true) alpha_dir) as (H & _);
      [reflexivity..|].
    apply H. reflexivity.
  - destruct (save_file_same_or_new_lines st_alpha 1 "b" alice
                (mkOperation 1 "alpha" "" 0 "tex" true) alpha_dir) as (_ & H);
      [reflexivity..|].
    apply H. vm_compute. discriminate.
Defined.

Lemma undo_changes_strips_line_feed_witness :
  undo_changes st_line_saved 1 alice = Ret true st_line_undone /\
  committed_text (repo (mkOpDir "c" [mkCommit 1 "a"; mkCommit 2 ("b" +:+ nl);
                                     mkCommit 3 "c"])) 2 = Some ("b" +:+ nl) /\
  get_file st_line_undone 1 alice = Ret (RVal "b") st_line_undone /\
  exists ch operation d recorded change,
    change_by_id st_line_saved 1 = Some ch /\
    operation_by_id st_line_saved (c_op_id ch) = Some operation /\
    data_dir st_line_saved !! o_path operation = Some d /\
    committed_text (repo d) (c_commit_hash ch) = Some recorded /\
    get_file st_line_undone (c_op_id ch) alice
      = Ret (RVal (strip_newline recorded)) st_line_undone /\
    (endswith recorded nl = true ->
     get_file st_line_undone (c_op_id ch) alice <> Ret (RVal recorded) st_line_undone) /\
    (endswith recorded nl = false ->
     get_file st_line_undone (c_op_id ch) alice = Ret (RVal recorded) st_line_undone) /\
    changes st_line_undone = changes st_line_saved ++ [change] /\
    c_op_id change = c_op_id ch /\ c_u_id change = user_id alice /\
    length (changes st_line_undone) = S (length (changes st_line_saved)).
Proof.
  assert (undo_changes st_line_saved 1 alice = Ret true st_line_undone) as Hrun
    by (vm_compute; reflexivity).
  split; [exact Hrun|]. split; [vm_compute; reflexivity|].
  split; [vm_compute; reflexivity|].
  exact (undo_changes_strips_line_feed st_line_saved 1 alice st_line_undone Hrun).
Defined.

Lemma create_operation_then_get_file_witness :
  create_operation unique_user_op nothing_written st_group 5 "gamma" "third" bob
    None (Some "x") "tex" true = Ret true st_created /\
  exists operation,
    operation_by_path (operations st_group) "gamma" = None /\
    ~ In (o_id operation) (map o_id (operations st_group)) /\
    operations st_created = operations st_group ++ [operation] /\
    o_path operation = "gamma" /\
    operation_by_path (operations st_created) "gamma" = Some operation /\
    operation_by_id st_created (o_id operation) = Some operation /\
    get_file st_created (o_id operation) bob = Ret (RVal "x") st_created.
Proof.
  assert (create_operation unique_user_op nothing_written st_group 5 "gamma" "third" bob
            None (Some "x") "tex" true = Ret true st_created) as Hrun
    by (vm_compute; reflexivity).
  split; [exact Hrun|].
  exact (create_operation_then_get_file unique_user_op nothing_written st_group 5 "gamma"
           "third" bob None (Some "x") "tex" true st_created Hrun).
Defined.

Lemma st_import_unique : NoDup (map perm_key (permissions st_import)).
Proof. apply (bool_decide_unpack _). vm_compute. exact I. Defined.

Lemma st_import_one_creator : at_most_one_creator (permissions st_import) 1.
Proof.
  intros p q Hp Hq. simpl in Hp, Hq.
  destruct Hp as [<-|[<-|[<-|[<-|[]]]]], Hq as [<-|[<-|[<-|[<-|[]]]]]; simpl;
    intros; try reflexivity; discriminate.
Defined.

Lemma import_permissions_twice_witness :
  import_permissions unique_user_op st_imported 2 1 1
    = Ret (false, None, "Permissions are already given") st_imported.
Proof.
  eapply (import_permissions_twice unique_user_op st_import 2 1 1).
  - exact st_import_unique.
  - exact st_import_one_creator.
  - vm_compute. reflexivity.
Defined.

Lemma import_permissions_keeps_creator_witness :
  In (mkPermission 2 1 admin)
     (permissions (state_of (import_permissions unique_user_op st_import 2 1 1))).
Proof.
  eapply (import_permissions_keeps_creator unique_user_op st_import 2 1 1)
    with (s := mkPermission 2 2 creator) (crow := mkPermission 1 1 creator).
  - exact st_import_unique.
  - exact st_import_one_creator.
  - vm_compute. reflexivity.
  - reflexivity.
  - simpl. auto.
  - reflexivity.
  - simpl. lia.
  - simpl. lia.
  - reflexivity.
Defined.

(** ** Where the claims fail *)

(** C2 as stated fails: bob has no Permission row on "alpha", and his
    save_file returns True, rewrites main.ftml, commits and adds a Change
    row. *)
Lemma save_file_by_non_member :
  is_member st_alpha (user_id bob) 1 = false /\
  save_file st_alpha 1 "b" bob = Ret true st_bob_saved /\
  save_file st_alpha 1 "b" bob <> Ret false st_alpha.
Proof. split; [reflexivity|]. split; [vm_compute; reflexivity|]. vm_compute. discriminate. Qed.

(** C3 as stated fails: "a" followed by a line feed is not the current
    content "a", yet save_file returns False and adds neither a commit nor a
    Change row (the file itself is rewritten). *)
Lemma save_file_trailing_newline :
  "a" +:+ nl <> main_ftml alpha_dir /\
  save_file st_alpha 1 ("a" +:+ nl) alice = Ret false st_newline_saved /\
  changes st_newline_saved = changes st_alpha.
Proof. split; [vm_compute; discriminate|]. split; [vm_compute; reflexivity|reflexivity]. Qed.

(** C4 as stated fails: after a successful import the second call returns
    the message "Permissions are already given", not "already applied". *)
Lemma import_permissions_second_message :
  import_permissions unique_user_op st_import 2 1 1 =
    Ret (true, Some (import_events [] [(2, admin); (3, collaborator)]), "success")
        st_imported /\
  import_permissions unique_user_op st_imported 2 1 1 <>
    Ret (false, None, "already applied") st_imported.
Proof. split; [vm_compute; reflexivity|]. vm_compute. discriminate. Qed.

(** * Further properties of the file manager *)

Lemma find_exists {A} (f : A -> bool) l x :
  In x l -> f x = true -> exists y, List.find f l = Some y.
Proof.
  intros Hin Hf. destruct (List.find f l) as [y|] eqn:E; [by exists y|].
  rewrite (find_none _ _ E x Hin) in Hf. discriminate.
Qed.

Lemma find_map_keep {A} (f : A -> bool) (g : A -> A) l :
  (forall x, f (g x) = f x) ->
  List.find f (map g l) = option_map g (List.find f l).
Proof.
  intros Hg. induction l as [|a l IH]; simpl; [done|].
  rewrite Hg. by destruct (f a).
Qed.

Lemma not_admin_nor_creator st u op :
  is_admin st u op = false -> is_creator st u op = false ->
  negb (is_admin st u op) && negb (is_creator st u op) = true.
Proof. by intros -> ->. Qed.

Section MoreProperties.

Variable integrity_ok : list Permission -> bool.
Variable written_before_close : string -> string.
Variable users : list User.
Variable Message : Type.
Variable message_op_id : Message -> nat.

(** ** Access levels *)

(** X1: of the four level predicates exactly one holds for a member and
    none for a user without a Permission row, and [auth_type] names the
    level that holds. *)
Theorem access_levels_partition st u_id op_id :
  Nat.b2n (is_admin st u_id op_id) + Nat.b2n (is_creator st u_id op_id) +
  Nat.b2n (is_collaborator st u_id op_id) + Nat.b2n (is_viewer st u_id op_id)
  = Nat.b2n (is_member st u_id op_id) /\
  (is_admin st u_id op_id = true <-> auth_type st u_id op_id = RVal admin) /\
  (is_creator st u_id op_id = true <-> auth_type st u_id op_id = RVal creator) /\
  (is_collaborator st u_id op_id = true <-> auth_type st u_id op_id = RVal collaborator) /\
  (is_viewer st u_id op_id = true <-> auth_type st u_id op_id = RVal viewer) /\
  (is_member st u_id op_id = false <-> auth_type st u_id op_id = RFalse).
Proof.
  unfold is_admin, is_creator, is_collaborator, is_viewer, has_level, is_member, auth_type.
  destruct (perm_first (permissions st) u_id op_id) as [p|]; simpl.
  - destruct (perm_access_level p); vm_compute; intuition congruence.
  - intuition congruence.
Qed.

(** X2: a user without a Permission row on an operation gets False, with
    nothing changed, from get_file, get_operation_details, set_version_name
    and delete_bulk_permission on it, and from get_change_content and
    undo_changes on every Change row of it. *)
Theorem non_member_is_refused st op_id user :
  is_member st (user_id user) op_id = false ->
  get_file st op_id user = Ret RFalse st /\
  get_operation_details st op_id user = Ret RFalse st /\
  (forall ch_id version_name,
     set_version_name st ch_id op_id (user_id user) version_name = Ret false st) /\
  (forall u_ids, delete_bulk_permission integrity_ok st op_id user u_ids = Ret false st) /\
  (forall ch_id ch, change_by_id st ch_id = Some ch -> c_op_id ch = op_id ->
     get_change_content st ch_id user = Ret RFalse st /\
     undo_changes st ch_id user = Ret false st).
Proof.
  intros Hmem.
  assert (perm_first (permissions st) (user_id user) op_id = None) as Hnone.
  { unfold is_member in Hmem. by destruct perm_first. }
  assert (forall lvl, has_level lvl st (user_id user) op_id = false) as Hlvl.
  { intros lvl. unfold has_level. by rewrite Hnone. }
  split; [|split; [|split; [|split]]].
  - unfold get_file. by rewrite Hnone.
  - unfold get_operation_details. by rewrite Hmem.
  - intros ch_id version_name. unfold set_version_name, is_admin, is_creator, is_collaborator.
    by rewrite !Hlvl.
  - intros u_ids. unfold delete_bulk_permission. by rewrite Hmem.
  - intros ch_id ch Hch <-. split.
    + unfold get_change_content. by rewrite Hch, Hnone.
    + unfold undo_changes, is_admin, is_creator, is_collaborator. by rewrite Hch, !Hlvl.
Qed.

(** X3: a requester who is neither admin nor creator of an operation (a
    collaborator, a viewer or a stranger) gets False from
    add_bulk_permission, modify_bulk_permission, update_operation and the
    three fetch queries, the refusal tuple from import_permissions into it,
    and False from delete_operation; nothing is changed. *)
Theorem admin_or_creator_only st op_id user :
  is_admin st (user_id user) op_id = false ->
  is_creator st (user_id user) op_id = false ->
  (forall new_u_ids access_level,
     add_bulk_permission integrity_ok st op_id user new_u_ids access_level = Ret false st) /\
  (forall u_ids new_access_level,
     modify_bulk_permission integrity_ok st op_id user u_ids new_access_level
       = Ret false st) /\
  (forall attribute,
     update_operation integrity_ok st op_id attribute user = Finished (Ret false st)) /\
  fetch_users_without_permission users st op_id (user_id user) = Ret RFalse st /\
  fetch_users_with_permission users st op_id (user_id user) = Ret RFalse st /\
  fetch_operation_creator users st op_id (user_id user) = Ret RFalse st /\
  (forall import_op_id,
     import_permissions integrity_ok st import_op_id op_id (user_id user)
       = Ret (false, None, "Not the creator or admin of this operation") st) /\
  (forall messages : list Message,
     delete_operation integrity_ok Message message_op_id st messages op_id user
       = (Ret false st, messages)).
Proof.
  intros Ha Hc. pose proof (not_admin_nor_creator _ _ _ Ha Hc) as Hg.
  repeat split; intros.
  - unfold add_bulk_permission. by rewrite Hg.
  - unfold modify_bulk_permission. by rewrite Hg.
  - destruct attribute as [value|c]; simpl.
    + by rewrite Hg.
    + unfold update_operation_column. by rewrite Hg.
  - unfold fetch_users_without_permission. by rewrite Hg.
  - unfold fetch_users_with_permission. by rewrite Hg.
  - unfold fetch_operation_creator. by rewrite Hg.
  - unfold import_permissions. by rewrite Hc, Ha.
  - unfold delete_operation, auth_type. unfold is_creator, has_level, level_eqb in Hc.
    destruct (perm_first (permissions st) (user_id user) op_id) as [p|]; [|done].
    by destruct (perm_access_level p).
Qed.

(** ** Bulk changes of permissions *)

Lemma for_each_op_fold st stmt ops w w' :
  for_each_op integrity_ok st stmt ops w = Some w' ->
  w' = fold_left (fun w o => stmt (o_id o) w) ops w.
Proof.
  revert w. induction ops as [|o ops IH]; simpl; intros w H; [by injection H|].
  destruct (flush_ok integrity_ok st (stmt (o_id o) w)); [|discriminate]. by apply IH.
Qed.

Lemma try_commit_true st w st' :
  try_commit integrity_ok st w = Ret true st' -> st' = set_permissions w st.
Proof. unfold try_commit. destruct flush_ok; [|discriminate]. by intros [= <-]. Qed.

Lemma perm_first_update_levels u_ids lvl target w u op :
  perm_first (update_levels u_ids lvl target w) u op =
  option_map (fun p => if (perm_op_id p =? target) && mem_nat (perm_u_id p) u_ids
                       then mkPermission (perm_u_id p) (perm_op_id p) lvl else p)
             (perm_first w u op).
Proof.
  unfold perm_first, update_levels. apply find_map_keep.
  intros p. by destruct ((perm_op_id p =? target) && mem_nat (perm_u_id p) u_ids).
Qed.

Lemma perm_first_delete_rows u_ids target w u op :
  perm_first (delete_rows u_ids target w) u op =
  if (op =? target) && mem_nat u u_ids then None else perm_first w u op.
Proof.
  unfold perm_first, delete_rows.
  destruct ((op =? target) && mem_nat u u_ids) eqn:E.
  - destruct (List.find _ (List.filter _ w)) as [p|] eqn:F; [|done].
    apply find_some in F as [[_ Hk]%filter_In Hm].
    unfold perm_matches in Hm.
    apply andb_true_iff in Hm as [Hu%Nat.eqb_eq Ho%Nat.eqb_eq].
    rewrite Hu, Ho, E in Hk. discriminate.
  - apply find_filter_keep. intros p _ Hm. unfold perm_matches in Hm.
    apply andb_true_iff in Hm as [Hu%Nat.eqb_eq Ho%Nat.eqb_eq]. by rewrite Hu, Ho, E.
Qed.

(** The access level of the first row, as [auth_type] returns it. *)
Lemma auth_type_set_permissions w st u op :
  auth_type (set_permissions w st) u op =
  match perm_first w u op with None => RFalse | Some p => RVal (perm_access_level p) end.
Proof. done. Qed.

Lemma modify_fold_level u_ids lvl ops w u op :
  let w' := fold_left (fun w o => update_levels u_ids lvl (o_id o) w) ops w in
  (perm_first w u op = None -> perm_first w' u op = None) /\
  (forall p, perm_first w u op = Some p ->
     exists p', perm_first w' u op = Some p' /\
       (perm_access_level p' = perm_access_level p \/
        (In u u_ids /\ perm_access_level p' = lvl))).
Proof.
  simpl. revert w. induction ops as [|o ops IH]; simpl; intros w.
  - split; [done|]. intros p Hp. exists p. auto.
  - destruct (IH (update_levels u_ids lvl (o_id o) w)) as [IHn IHs].
    rewrite perm_first_update_levels in IHn, IHs. split.
    + intros Hn. apply IHn. by rewrite Hn.
    + intros p Hp. rewrite Hp in IHs. simpl in IHs.
      destruct (IHs _ eq_refl) as (p' & Hp' & Hl). exists p'. split; [done|].
      apply perm_first_Some in Hp as (_ & Hu & _).
      destruct ((perm_op_id p =? o_id o) && mem_nat (perm_u_id p) u_ids) eqn:E; [|done].
      apply andb_true_iff in E as [_ Hm%mem_nat_In]. rewrite Hu in Hm.
      simpl in Hl. destruct Hl as [Hl|Hl]; auto.
Qed.

Lemma delete_fold_rows u_ids ops w u op :
  let w' := fold_left (fun w o => delete_rows u_ids (o_id o) w) ops w in
  (perm_first w u op = None -> perm_first w' u op = None) /\
  (~ In u u_ids -> perm_first w' u op = perm_first w u op) /\
  (forall p, In p w' -> In p w).
Proof.
  simpl. revert w. induction ops as [|o ops IH]; simpl; intros w; [done|].
  destruct (IH (delete_rows u_ids (o_id o) w)) as (IHn & IHk & IHs).
  rewrite perm_first_delete_rows in IHn, IHk. split; [|split].
  - intros Hn. apply IHn. rewrite Hn. by destruct (_ && _).
  - intros Hu. rewrite (IHk Hu).
    destruct (mem_nat u u_ids) eqn:E; [by apply mem_nat_In in E|by rewrite andb_false_r].
  - intros p Hp. apply IHs in Hp. unfold delete_rows in Hp.
    by apply filter_In in Hp as [? _].
Qed.

(** The table that a successful add_bulk_permission commits: the old rows,
    a row for each listed user who was not a member, and the rows for the
    operations of the category. *)
Lemma add_bulk_permission_shape st op_id user new_u_ids access_level st' :
  add_bulk_permission integrity_ok st op_id user new_u_ids access_level = Ret true st' ->
  exists propagated,
    st' = set_permissions
            (permissions st ++
             map (fun u_id => mkPermission u_id op_id access_level)
                 (List.filter (fun u_id => negb (is_member st u_id op_id)) new_u_ids) ++
             propagated) st.
Proof.
  unfold add_bulk_permission.
  destruct (negb _ && negb _); [discriminate|].
  destruct (negb (flush_ok _ _ _)); [discriminate|].
  destruct (operation_by_id st op_id) as [operation|]; [|discriminate].
  destruct (endswith (o_path operation) GROUP_POSTFIX).
  - destruct (List.filter _ (ops_of_category st (o_path operation))) as [|o targets].
    + intros ->%try_commit_true. exists []. by rewrite app_nil_r.
    + destruct (loop_variable new_u_ids); [|discriminate].
      intros ->%try_commit_true. eexists. by rewrite <- app_assoc.
  - intros ->%try_commit_true. exists []. by rewrite app_nil_r.
Qed.

(** X4: when add_bulk_permission returns True, every listed user is a
    member of the operation, no user who was a member of some operation has
    another level on it than before (a listed user who already was a
    member keeps the old level), and the other tables and the files are
    untouched. *)
Theorem add_bulk_permission_effect st op_id user new_u_ids access_level st' :
  add_bulk_permission integrity_ok st op_id user new_u_ids access_level = Ret true st' ->
  (forall u_id, In u_id new_u_ids -> is_member st' u_id op_id = true) /\
  (forall u_id op, is_member st u_id op = true ->
     auth_type st' u_id op = auth_type st u_id op) /\
  operations st' = operations st /\ changes st' = changes st /\
  data_dir st' = data_dir st.
Proof.
  intros (propagated & ->)%add_bulk_permission_shape.
  split; [|split; [|done]].
  - intros u Hu.
    assert (exists y, perm_first
              (permissions st ++
               map (fun u_id => mkPermission u_id op_id access_level)
                   (List.filter (fun u_id => negb (is_member st u_id op_id)) new_u_ids) ++
               propagated) u op_id = Some y) as [y Hy].
    { apply (find_exists _ _
               (match perm_first (permissions st) u op_id with
                | Some p => p
                | None => mkPermission u op_id access_level
                end)).
      - destruct (perm_first (permissions st) u op_id) as [p|] eqn:E.
        + apply perm_first_Some in E as (? & _). apply in_or_app. by left.
        + apply in_or_app. right. apply in_or_app. left.
          apply in_map_iff. exists u. split; [done|].
          apply filter_In. split; [done|]. unfold is_member. by rewrite E.
      - destruct (perm_first (permissions st) u op_id) as [p|] eqn:E.
        + apply perm_first_Some in E as (_ & Hpu & Hpo). unfold perm_matches.
          by rewrite Hpu, Hpo, !Nat.eqb_refl.
        + unfold perm_matches. simpl. by rewrite !Nat.eqb_refl. }
    unfold is_member at 1. simpl. by rewrite Hy.
  - intros u op Hm. unfold is_member in Hm. unfold auth_type. simpl.
    destruct (perm_first (permissions st) u op) as [p|] eqn:E; [|discriminate].
    unfold perm_first in *. by rewrite (find_app_l _ _ _ _ E).
Qed.

Lemma modify_fold_length u_ids lvl ops w :
  length (fold_left (fun w o => update_levels u_ids lvl (o_id o) w) ops w) = length w.
Proof.
  revert w. induction ops as [|o ops IH]; simpl; intros w; [done|].
  rewrite IH. apply length_map.
Qed.

(** The table that a successful modify_bulk_permission commits. *)
Lemma modify_bulk_permission_shape st op_id user u_ids new_access_level st' :
  modify_bulk_permission integrity_ok st op_id user u_ids new_access_level = Ret true st' ->
  exists ops,
    st' = set_permissions
            (fold_left (fun w o => update_levels u_ids new_access_level (o_id o) w) ops
               (update_levels u_ids new_access_level op_id (permissions st))) st.
Proof.
  unfold modify_bulk_permission.
  destruct (negb _ && negb _); [discriminate|].
  destruct (negb (flush_ok _ _ _)); [discriminate|].
  destruct (operation_by_id st op_id) as [operation|]; [|discriminate].
  destruct (endswith (o_path operation) GROUP_POSTFIX).
  - destruct (for_each_op _ _ _ _ _) as [w'|] eqn:E; [|discriminate].
    apply for_each_op_fold in E as ->. intros ->%try_commit_true. by eexists.
  - intros ->%try_commit_true. by exists [].
Qed.

(** X5: when modify_bulk_permission returns True, exactly the same users
    are members of the same operations as before (listing a user who is
    not a member adds nothing), every listed member of the operation has
    the new level, users who are not listed keep their level everywhere,
    and the other tables and the files are untouched. *)
Theorem modify_bulk_permission_effect st op_id user u_ids new_access_level st' :
  modify_bulk_permission integrity_ok st op_id user u_ids new_access_level = Ret true st' ->
  (forall u_id op, is_member st' u_id op = is_member st u_id op) /\
  (forall u_id, In u_id u_ids -> is_member st u_id op_id = true ->
     auth_type st' u_id op_id = RVal new_access_level) /\
  (forall u_id op, ~ In u_id u_ids -> auth_type st' u_id op = auth_type st u_id op) /\
  length (permissions st') = length (permissions st) /\
  operations st' = operations st /\ changes st' = changes st /\
  data_dir st' = data_dir st.
Proof.
  intros (ops & ->)%modify_bulk_permission_shape.
  split; [|split; [|split; [|split; [|done]]]].
  - intros u op. unfold is_member. simpl.
    destruct (modify_fold_level u_ids new_access_level ops
                (update_levels u_ids new_access_level op_id (permissions st)) u op)
      as [Hn Hs].
    rewrite perm_first_update_levels in Hn, Hs.
    destruct (perm_first (permissions st) u op) as [p|]; simpl in *.
    + by destruct (Hs _ eq_refl) as (p' & -> & _).
    + by rewrite Hn.
  - intros u Hu Hm. unfold is_member in Hm. rewrite auth_type_set_permissions.
    destruct (modify_fold_level u_ids new_access_level ops
                (update_levels u_ids new_access_level op_id (permissions st)) u op_id)
      as [_ Hs].
    rewrite perm_first_update_levels in Hs.
    destruct (perm_first (permissions st) u op_id) as [p|] eqn:E; [|discriminate].
    simpl in Hs. destruct (Hs _ eq_refl) as (p' & -> & Hl).
    apply perm_first_Some in E as (_ & Hpu & Hpo).
    apply mem_nat_In in Hu. rewrite Hpu, Hpo, Nat.eqb_refl, Hu in Hl. simpl in Hl.
    f_equal. by destruct Hl as [?|[_ ?]].
  - intros u op Hu. rewrite auth_type_set_permissions. unfold auth_type.
    destruct (modify_fold_level u_ids new_access_level ops
                (update_levels u_ids new_access_level op_id (permissions st)) u op)
      as [Hn Hs].
    rewrite perm_first_update_levels in Hn, Hs.
    destruct (perm_first (permissions st) u op) as [p|] eqn:E; simpl in *.
    + destruct (Hs _ eq_refl) as (p' & -> & Hl).
      apply perm_first_Some in E as (_ & Hpu & _).
      assert (mem_nat (perm_u_id p) u_ids = false) as Hnm.
      { destruct (mem_nat (perm_u_id p) u_ids) eqn:F; [|done].
        apply mem_nat_In in F. by rewrite Hpu in F. }
      rewrite Hnm, andb_false_r in Hl. f_equal. by destruct Hl as [?|[? _]].
    + by rewrite Hn.
  - simpl. rewrite modify_fold_length. apply length_map.
Qed.

(** The table that delete_bulk_rows commits, if it commits. *)
Lemma delete_bulk_rows_shape st op_id u_ids :
  state_of (delete_bulk_rows integrity_ok st op_id u_ids) = st \/
  exists ops,
    delete_bulk_rows integrity_ok st op_id u_ids =
    Ret true (set_permissions
                (fold_left (fun w o => delete_rows u_ids (o_id o) w) ops
                   (delete_rows u_ids op_id (permissions st))) st).
Proof.
  unfold delete_bulk_rows.
  destruct (negb (flush_ok _ _ _)); [by left|].
  destruct (operation_by_id st op_id) as [operation|]; [|by left].
  destruct (endswith (o_path operation) GROUP_POSTFIX).
  - destruct (for_each_op _ _ _ _ _) as [w'|] eqn:E; [|by left].
    apply for_each_op_fold in E as ->.
    destruct (flush_ok _ _ _); [|by left]. right. by eexists.
  - destruct (flush_ok _ _ _); [|by left]. right. by exists [].
Qed.

Lemma delete_bulk_permission_shape st op_id user u_ids :
  state_of (delete_bulk_permission integrity_ok st op_id user u_ids) = st \/
  (is_creator st (user_id user) op_id = true -> ~ In (user_id user) u_ids) /\
  exists ops,
    delete_bulk_permission integrity_ok st op_id user u_ids =
    Ret true (set_permissions
                (fold_left (fun w o => delete_rows u_ids (o_id o) w) ops
                   (delete_rows u_ids op_id (permissions st))) st).
Proof.
  unfold delete_bulk_permission.
  destruct (negb (is_member st (user_id user) op_id)); [by left|].
  destruct (negb (is_admin st (user_id user) op_id) &&
            negb (is_creator st (user_id user) op_id)) eqn:Hg.
  - destruct (negb _ || negb _); [by left|].
    destruct (delete_bulk_rows_shape st op_id u_ids) as [?|?]; [by left|right].
    split; [|done]. intros Hc. rewrite Hc, andb_false_r in Hg. discriminate.
  - destruct (existsb _ u_ids); [by left|].
    destruct (is_creator st (user_id user) op_id && mem_nat (user_id user) u_ids) eqn:Hs;
      [by left|].
    destruct (delete_bulk_rows_shape st op_id u_ids) as [?|?]; [by left|right].
    split; [|done]. intros Hc Hin%mem_nat_In. rewrite Hc, Hin in Hs. discriminate.
Qed.

Lemma delete_bulk_rows_true st op_id u_ids st' :
  delete_bulk_rows integrity_ok st op_id u_ids = Ret true st' ->
  exists ops,
    st' = set_permissions
            (fold_left (fun w o => delete_rows u_ids (o_id o) w) ops
               (delete_rows u_ids op_id (permissions st))) st.
Proof.
  unfold delete_bulk_rows.
  destruct (negb (flush_ok _ _ _)); [discriminate|].
  destruct (operation_by_id st op_id) as [operation|]; [|discriminate].
  destruct (endswith (o_path operation) GROUP_POSTFIX).
  - destruct (for_each_op _ _ _ _ _) as [w'|] eqn:E; [|discriminate].
    apply for_each_op_fold in E as ->.
    destruct (flush_ok _ _ _); [|discriminate]. intros [= <-]. by eexists.
  - destruct (flush_ok _ _ _); [|discriminate]. intros [= <-]. by exists [].
Qed.

Lemma delete_bulk_permission_true st op_id user u_ids st' :
  delete_bulk_permission integrity_ok st op_id user u_ids = Ret true st' ->
  exists ops,
    st' = set_permissions
            (fold_left (fun w o => delete_rows u_ids (o_id o) w) ops
               (delete_rows u_ids op_id (permissions st))) st.
Proof.
  unfold delete_bulk_permission.
  destruct (negb (is_member st (user_id user) op_id)); [discriminate|].
  destruct (negb _ && negb _).
  - destruct (negb _ || negb _); [discriminate|]. apply delete_bulk_rows_true.
  - destruct (existsb _ u_ids); [discriminate|].
    destruct (_ && _); [discriminate|]. apply delete_bulk_rows_true.
Qed.

(** X6: when delete_bulk_permission returns True, no listed user is a
    member of the operation any more, users who are not listed keep their
    level on every operation, no row is added, and the other tables and
    the files are untouched. *)
Theorem delete_bulk_permission_effect st op_id user u_ids st' :
  delete_bulk_permission integrity_ok st op_id user u_ids = Ret true st' ->
  (forall u_id, In u_id u_ids -> is_member st' u_id op_id = false) /\
  (forall u_id op, ~ In u_id u_ids -> auth_type st' u_id op = auth_type st u_id op) /\
  (forall p, In p (permissions st') -> In p (permissions st)) /\
  operations st' = operations st /\ changes st' = changes st /\
  data_dir st' = data_dir st.
Proof.
  intros (ops & ->)%delete_bulk_permission_true.
  split; [|split; [|split; [|done]]].
  - intros u Hu. unfold is_member. simpl.
    destruct (delete_fold_rows u_ids ops (delete_rows u_ids op_id (permissions st)) u op_id)
      as (Hn & _ & _).
    rewrite Hn; [done|]. rewrite perm_first_delete_rows.
    apply mem_nat_In in Hu. by rewrite Nat.eqb_refl, Hu.
  - intros u op Hu. rewrite auth_type_set_permissions. unfold auth_type.
    destruct (delete_fold_rows u_ids ops (delete_rows u_ids op_id (permissions st)) u op)
      as (_ & Hk & _).
    rewrite (Hk Hu), perm_first_delete_rows.
    destruct (mem_nat u u_ids) eqn:E; [by apply mem_nat_In in E|by rewrite andb_false_r].
  - intros p Hp. simpl in Hp.
    apply (delete_fold_rows u_ids ops _ 0 0) in Hp.
    unfold delete_rows in Hp. by apply filter_In in Hp as [? _].
Qed.

(** X7: the creator of an operation cannot leave it: whatever
    delete_bulk_permission called by the creator returns or raises, the
    caller is the creator of the operation afterwards. *)
Theorem creator_cannot_leave st op_id user u_ids :
  is_creator st (user_id user) op_id = true ->
  is_creator (state_of (delete_bulk_permission integrity_ok st op_id user u_ids))
             (user_id user) op_id = true.
Proof.
  intros Hc.
  destruct (delete_bulk_permission_shape st op_id user u_ids) as [->|(Hnot & ops & ->)];
    [done|].
  specialize (Hnot Hc). unfold is_creator, has_level in *. simpl.
  destruct (delete_fold_rows u_ids ops (delete_rows u_ids op_id (permissions st))
              (user_id user) op_id) as (_ & Hk & _).
  rewrite (Hk Hnot), perm_first_delete_rows.
  destruct (mem_nat (user_id user) u_ids) eqn:E; [by apply mem_nat_In in E|].
  by rewrite andb_false_r.
Qed.

(** ** More on import_permissions *)

(** X8: whatever import_permissions returns or raises, the rows of every
    operation other than the target are the same rows in the same order,
    the requester has the same level on every operation (the target among
    them), and the other tables and the files are untouched. *)
Theorem import_permissions_touches_only_target st import_op_id current_op_id u_id :
  let st' := state_of (import_permissions integrity_ok st import_op_id current_op_id u_id) in
  List.filter (fun p => negb (perm_op_id p =? current_op_id)) (permissions st') =
  List.filter (fun p => negb (perm_op_id p =? current_op_id)) (permissions st) /\
  (forall op, auth_type st' u_id op = auth_type st u_id op) /\
  operations st' = operations st /\ changes st' = changes st /\
  data_dir st' = data_dir st.
Proof.
  simpl. split.
  - destruct (import_permissions_shape integrity_ok st import_op_id current_op_id u_id)
      as [->|(crow & added & _ & -> & Hadded)]; [done|].
    simpl. rewrite List.filter_app, (filter_none _ added).
    + rewrite app_nil_r. unfold delete_missing. apply filter_filter_keep.
      intros p _ Hp. unfold is_existing_perm.
      apply negb_true_iff in Hp. by rewrite Hp.
    + intros r Hr. destruct (Hadded r Hr) as (-> & _). by rewrite Nat.eqb_refl.
  - split.
    + intros op. unfold auth_type.
      by destruct (import_permissions_frame integrity_ok st import_op_id current_op_id
                     u_id op) as (_ & _ & _ & ->).
    + by destruct (import_permissions_frame integrity_ok st import_op_id current_op_id
                     u_id 0) as (? & ? & ? & _).
Qed.

(** What a call of import_permissions leaves behind, with the second loop
    kept as it ran. *)
Lemma import_permissions_shape_loop st imp cur u :
  state_of (import_permissions integrity_ok st imp cur u) = st \/
  exists crow w',
    creator_row (permissions st) cur = Some crow /\
    add_new_permissions integrity_ok st cur
      (map pair_of (existing_perms_of (permissions st) cur u))
      (new_perm_of (import_perms_of (permissions st) imp u (perm_u_id crow)))
      (delete_missing cur u
         (new_perm_of (import_perms_of (permissions st) imp u (perm_u_id crow)))
         (permissions st)) = Some w' /\
    state_of (import_permissions integrity_ok st imp cur u) = set_permissions w' st.
Proof.
  unfold import_permissions.
  destruct (negb (is_creator st u cur) && negb (is_admin st u cur)); [by left|].
  destruct (perm_first (permissions st) u imp); [|by left].
  destruct (creator_row (permissions st) cur) as [crow|] eqn:Hcr; [|by left].
  destruct (bool_decide _); [by left|].
  destruct (negb (flush_ok _ _ _)); [by left|].
  destruct (add_new_permissions _ _ _ _ _ _) as [w'|] eqn:Hadd; [|by left].
  destruct (flush_ok _ _ w'); [|by left].
  right. by exists crow, w'.
Qed.

(** Both invariants of the Permission table outlast import_permissions. *)
Lemma import_permissions_invariants st imp cur u :
  NoDup (map perm_key (permissions st)) ->
  (forall op, at_most_one_creator (permissions st) op) ->
  NoDup (map perm_key (permissions (state_of (import_permissions integrity_ok st imp cur u))))
  /\ forall op, at_most_one_creator
                  (permissions (state_of (import_permissions integrity_ok st imp cur u))) op.
Proof.
  intros Hnd Hone.
  destruct (import_permissions_shape_loop st imp cur u) as [->|(crow & w' & _ & Hadd & ->)];
    [done|].
  simpl. split.
  - apply (add_new_permissions_NoDup _ _ _ _ _ _ _ (NoDup_map_filter _ _ _ Hnd) Hadd).
  - apply add_new_permissions_spec in Hadd as (added & -> & Hadded).
    assert (forall p, In p (delete_missing cur u
                (new_perm_of (import_perms_of (permissions st) imp u (perm_u_id crow)))
                (permissions st) ++ added) ->
              perm_access_level p = creator -> In p (permissions st)) as Hold.
    { intros p [Hp|Hp]%in_app_or Hl.
      - unfold delete_missing in Hp. by apply filter_In in Hp as [? _].
      - destruct (Hadded p Hp) as (_ & Hnp & _).
        apply new_perm_source in Hnp as (s & _ & _ & _ & _ & Heq).
        injection Heq as _ Heq. rewrite Hl in Heq.
        by destruct (imported_level_not_creator (perm_access_level s)). }
    intros op p q Hp Hq Hpo Hqo Hpl Hql.
    apply (Hone op); auto.
Qed.

(** X9: import_permissions keeps the invariants of the Permission table:
    if no user has two rows on one operation and no operation has two
    creator rows before the call, the same holds afterwards, whatever the
    call returns or raises. *)
Theorem import_permissions_keeps_invariants st import_op_id current_op_id u_id :
  NoDup (map perm_key (permissions st)) ->
  (forall op, at_most_one_creator (permissions st) op) ->
  let st' := state_of (import_permissions integrity_ok st import_op_id current_op_id u_id) in
  NoDup (map perm_key (permissions st')) /\
  forall op, at_most_one_creator (permissions st') op.
Proof. intros Hnd Hone. by apply import_permissions_invariants. Qed.

(** On a table with one row per user and operation, the first row for a
    user and an operation is the only one. *)
Lemma perm_first_unique ps p :
  NoDup (map perm_key ps) -> In p ps ->
  perm_first ps (perm_u_id p) (perm_op_id p) = Some p.
Proof.
  intros Hnd Hp.
  destruct (find_exists (perm_matches (perm_u_id p) (perm_op_id p)) ps p Hp) as [q Hq].
  { unfold perm_matches. by rewrite !Nat.eqb_refl. }
  unfold perm_first. rewrite Hq. f_equal.
  apply perm_first_Some in Hq as (Hqin & Hu & Ho).
  apply (NoDup_map_eq perm_key ps q p Hnd Hqin Hp). unfold perm_key. by rewrite Hu, Ho.
Qed.

(** X10: on a table that satisfies the invariants, a call of
    import_permissions that returns True gives every user other than the
    requester and the creator of the target the level on the target that
    the user has on the source, with creator replaced by admin, and no row
    on the target when the user has none on the source. *)
Theorem import_permissions_copies_levels st import_op_id current_op_id u_id ev msg st' :
  NoDup (map perm_key (permissions st)) ->
  (forall op, at_most_one_creator (permissions st) op) ->
  import_permissions integrity_ok st import_op_id current_op_id u_id
    = Ret (true, ev, msg) st' ->
  forall x, x <> u_id -> is_creator st x current_op_id = false ->
    auth_type st' x current_op_id =
    match auth_type st x import_op_id with
    | RFalse => RFalse
    | RVal creator => RVal admin
    | RVal l => RVal l
    end.
Proof.
  intros Hnd Hone H x Hxu Hxc.
  destruct (import_permissions_done integrity_ok _ _ _ _ _ _ _ Hnd (Hone current_op_id) H)
    as (crow & Hcr & Hcr' & _ & Hperm & Hnd').
  pose proof (import_permissions_invariants st import_op_id current_op_id u_id Hnd Hone)
    as [_ Hone'].
  rewrite H in Hone'. simpl in Hone'.
  destruct (creator_row_Some _ _ _ Hcr) as (Hcin & Hcop & Hclvl).
  assert (x <> perm_u_id crow) as Hxcrow.
  { intros ->. unfold is_creator, has_level, level_eqb in Hxc.
    rewrite <- Hcop, (perm_first_unique _ _ Hnd Hcin), Hclvl in Hxc.
    by rewrite bool_decide_eq_true_2 in Hxc. }
  unfold auth_type at 2.
  destruct (perm_first (permissions st) x import_op_id) as [s|] eqn:Hs.
  - apply perm_first_Some in Hs as (Hsin & Hsu & Hso).
    assert (In (x, imported_level (perm_access_level s))
               (new_perm_of (import_perms_of (permissions st) import_op_id u_id
                                             (perm_u_id crow)))) as Hin.
    { unfold new_perm_of, import_perms_of. apply in_map_iff. exists s.
      split; [by rewrite Hsu|]. apply filter_In. split; [done|].
      unfold is_import_perm. rewrite Hso, Hsu, Nat.eqb_refl. simpl.
      apply andb_true_iff. split; apply negb_true_iff; by apply Nat.eqb_neq. }
    apply list_elem_of_In in Hin. rewrite Hperm in Hin.
    apply list_elem_of_In, in_map_iff in Hin as (r & Hr & [Hrin Hq]%filter_In).
    unfold is_existing_perm in Hq. apply andb_true_iff in Hq as [Hro%Nat.eqb_eq _].
    injection Hr as Hru Hrl.
    pose proof (perm_first_unique _ _ Hnd' Hrin) as Hfirst.
    rewrite Hru, Hro in Hfirst. unfold auth_type. rewrite Hfirst, Hrl.
    by destruct (perm_access_level s).
  - unfold auth_type.
    destruct (perm_first (permissions st') x current_op_id) as [r|] eqn:Hr; [|done].
    exfalso. apply perm_first_Some in Hr as (Hrin & Hru & Hro).
    assert (perm_access_level r <> creator) as Hrl.
    { intros Hl. apply Hxcrow. rewrite <- Hru.
      destruct (creator_row_Some _ _ _ Hcr') as (Hcin' & _ & _).
      by rewrite (Hone' current_op_id r crow). }
    assert (In (pair_of r) (map pair_of (existing_perms_of (permissions st')
                                           current_op_id u_id))) as Hin.
    { apply in_map, filter_In. split; [done|]. unfold is_existing_perm, level_eqb.
      rewrite Hro, Hru, Nat.eqb_refl. simpl. apply andb_true_iff.
      split; apply negb_true_iff; [by apply Nat.eqb_neq|by apply bool_decide_eq_false_2]. }
    apply list_elem_of_In in Hin. rewrite <- Hperm in Hin.
    apply list_elem_of_In, new_perm_source in Hin as (s & Hsin & Hso & _ & _ & Heq).
    injection Heq as Heq _.
    apply perm_first_None in Hs. apply Hs. apply in_map_iff. exists s.
    split; [|done]. unfold perm_key. by rewrite <- Heq, Hru, Hso.
Qed.

(** ** Content and history *)

Lemma find_fresh_change cs :
  List.find (fun c => c_id c =? fresh_id (map c_id cs)) cs = None.
Proof.
  destruct (List.find _ cs) eqn:E; [|done].
  apply find_some in E as [Hin Heq%Nat.eqb_eq].
  destruct (fresh_id_not_in (map c_id cs)). rewrite <- Heq. by apply in_map.
Qed.

Lemma git_show_grows r h c extra :
  git_show r h = Some c -> git_show (r ++ extra) h = Some c.
Proof.
  unfold git_show, committed_text.
  destruct (List.find _ r) as [cm|] eqn:E; [|discriminate].
  by rewrite (find_app_l _ _ _ _ E).
Qed.

(** The two ways save_file ends when it returns. *)
Lemma save_file_returns st op_id content user b st' :
  save_file st op_id content user = Ret b st' ->
  (b = false /\ st' = st /\ operation_by_id st op_id = None) \/
  exists operation d,
    operation_by_id st op_id = Some operation /\
    data_dir st !! o_path operation = Some d /\
    ((b = false /\ splitlines (main_ftml d) = splitlines content /\
      st' = set_data_dir (<[o_path operation := mkOpDir content (repo d)]> (data_dir st)) st)
     \/
     (b = true /\ splitlines (main_ftml d) <> splitlines content /\
      st' = set_changes
              (changes st ++
               [new_change st op_id (user_id user) (fresh_id (map hexsha (repo d)))])
              (set_data_dir
                 (<[o_path operation :=
                      mkOpDir content
                        (repo d ++ [mkCommit (fresh_id (map hexsha (repo d))) content])]>
                    (data_dir st)) st))).
Proof.
  unfold save_file.
  destruct (operation_by_id st op_id) as [operation|] eqn:Hop.
  - destruct (data_dir st !! o_path operation) as [d|] eqn:Hd; [|discriminate].
    unfold diff_content_nonempty.
    destruct (decide (splitlines (main_ftml d) = splitlines content)) as [Heq|Hne].
    + rewrite bool_decide_eq_true_2 by done. simpl. intros [= <- <-].
      right. exists operation, d. split; [done|]. split; [done|]. left. done.
    + rewrite bool_decide_eq_false_2 by done. simpl. intros [= <- <-].
      right. exists operation, d. split; [done|]. split; [done|]. right. done.
  - intros [= <- <-]. by left.
Qed.

(** X11: after save_file has returned, True or False, on an existing
    operation, get_file of every member returns exactly the saved content. *)
Theorem save_file_then_get_file st op_id content user reader b st' :
  save_file st op_id content user = Ret b st' ->
  is_member st (user_id reader) op_id = true ->
  operation_by_id st op_id <> None ->
  get_file st' op_id reader = Ret (RVal content) st'.
Proof.
  intros H Hm Hex. unfold is_member in Hm.
  destruct (save_file_returns _ _ _ _ _ _ H)
    as [(_ & _ & Hnone)|(operation & d & Hop & Hd & [(_ & _ & ->)|(_ & _ & ->)])];
    [done| |]; unfold get_file, operation_by_id in *; simpl;
    destruct (perm_first (permissions st) (user_id reader) op_id); try discriminate;
    rewrite Hop; by rewrite lookup_insert_eq.
Qed.

(** X12: saving the same content a second time is a no-op: whatever the
    first save_file returned, the second one, by any user, returns False
    and leaves the state exactly as the first one left it. *)
Theorem save_file_twice st op_id content user user' b st' :
  save_file st op_id content user = Ret b st' ->
  save_file st' op_id content user' = Ret false st'.
Proof.
  intros H.
  destruct (save_file_returns _ _ _ _ _ _ H)
    as [(_ & -> & Hnone)|(operation & d & Hop & Hd & [(_ & _ & ->)|(_ & _ & ->)])].
  - unfold save_file. by rewrite Hnone.
  - unfold save_file, operation_by_id in *. simpl. rewrite Hop, lookup_insert_eq. simpl.
    unfold diff_content_nonempty. rewrite bool_decide_eq_true_2 by done. simpl.
    by rewrite insert_insert_eq.
  - unfold save_file, operation_by_id in *. simpl. rewrite Hop, lookup_insert_eq. simpl.
    unfold diff_content_nonempty. rewrite bool_decide_eq_true_2 by done. simpl.
    by rewrite insert_insert_eq.
Qed.

(** X13: when save_file returns True, the Change row it appended is found
    under its id, and get_change_content of every member for that id
    returns the saved content without one final line feed, as [git show]
    hands it over: exactly the saved content when that does not end with a
    line feed. *)
Theorem save_file_then_get_change_content st op_id content user reader st' :
  save_file st op_id content user = Ret true st' ->
  is_member st (user_id reader) op_id = true ->
  exists change,
    changes st' = changes st ++ [change] /\
    change_by_id st' (c_id change) = Some change /\
    c_op_id change = op_id /\ c_u_id change = user_id user /\
    get_change_content st' (c_id change) reader
      = Ret (RVal (strip_newline content)) st' /\
    (endswith content nl = false ->
     get_change_content st' (c_id change) reader = Ret (RVal content) st').
Proof.
  intros H Hm. unfold is_member in Hm.
  destruct (save_file_returns _ _ _ _ _ _ H)
    as [(? & _)|(operation & d & Hop & Hd & [(? & _)|(_ & _ & ->)])]; try discriminate.
  exists (new_change st op_id (user_id user) (fresh_id (map hexsha (repo d)))).
  assert (change_by_id
            (set_changes
               (changes st ++
                [new_change st op_id (user_id user) (fresh_id (map hexsha (repo d)))])
               (set_data_dir
                  (<[o_path operation :=
                       mkOpDir content
                         (repo d ++ [mkCommit (fresh_id (map hexsha (repo d))) content])]>
                     (data_dir st)) st))
            (fresh_id (map c_id (changes st)))
          = Some (new_change st op_id (user_id user) (fresh_id (map hexsha (repo d)))))
    as Hfind.
  { unfold change_by_id. simpl. rewrite find_app_none by apply find_fresh_change.
    simpl. by rewrite Nat.eqb_refl. }
  split; [done|]. split; [exact Hfind|]. split; [done|]. split; [done|].
  unfold get_change_content. simpl. rewrite Hfind. simpl.
  destruct (perm_first (permissions st) (user_id reader) op_id); [|discriminate].
  unfold operation_by_id in *. simpl. rewrite Hop, lookup_insert_eq. simpl.
  destruct (git_commit_show d content) as [Hshow _]. simpl in Hshow.
  rewrite git_show_committed, Hshow. simpl. split; [done|].
  intros Hend. by rewrite strip_newline_keeps.
Qed.

(** The way undo_changes ends when it returns True. *)
Lemma undo_changes_true st ch_id user st' :
  undo_changes st ch_id user = Ret true st' ->
  exists ch operation d file_content,
    change_by_id st ch_id = Some ch /\
    operation_by_id st (c_op_id ch) = Some operation /\
    data_dir st !! o_path operation = Some d /\
    git_show (repo d) (c_commit_hash ch) = Some file_content /\
    is_member st (user_id user) (c_op_id ch) = true /\
    st' = set_changes
            (changes st ++
             [new_change st (c_op_id ch) (user_id user) (fresh_id (map hexsha (repo d)))])
            (set_data_dir
               (<[o_path operation :=
                    mkOpDir file_content
                      (repo d ++ [mkCommit (fresh_id (map hexsha (repo d))) file_content])]>
                  (data_dir st)) st).
Proof.
  unfold undo_changes.
  destruct (change_by_id st ch_id) as [ch|] eqn:Hch; [|discriminate].
  destruct (negb (is_admin st (user_id user) (c_op_id ch)) &&
            negb (is_creator st (user_id user) (c_op_id ch)) &&
            negb (is_collaborator st (user_id user) (c_op_id ch))) eqn:Hauth; [discriminate|].
  destruct (operation_by_id st (c_op_id ch)) as [operation|] eqn:Hop; [|discriminate].
  destruct (data_dir st !! o_path operation) as [d|] eqn:Hd; [|discriminate].
  destruct (git_show (repo d) (c_commit_hash ch)) as [file_content|] eqn:Hshow; [|discriminate].
  simpl. intros [= <-]. exists ch, operation, d, file_content.
  do 4 (split; [done|]). split; [|done].
  rewrite !andb_false_iff, !negb_false_iff in Hauth.
  destruct Hauth as [[Hl|Hl]|Hl]; eapply has_level_member; apply Hl.
Qed.

(** X14: save_file and undo_changes only ever append: whatever they return
    or raise, the Change table afterwards starts with the old rows, every
    directory that existed still exists with the old commits at the front
    of its history, and [git show] of every old commit id gives the text it
    gave before. *)
Theorem history_is_append_only st op_id content ch_id user :
  forall st',
    st' = state_of (save_file st op_id content user) \/
    st' = state_of (undo_changes st ch_id user) ->
    (exists rows, changes st' = changes st ++ rows) /\
    forall path d, data_dir st !! path = Some d ->
      exists d' commits,
        data_dir st' !! path = Some d' /\ repo d' = repo d ++ commits /\
        forall commit_hash text,
          git_show (repo d) commit_hash = Some text ->
          git_show (repo d') commit_hash = Some text.
Proof.
  assert (forall st' : state,
            (changes st' = changes st /\ data_dir st' = data_dir st) \/
            (exists operation d0 text commits rows,
               data_dir st !! o_path operation = Some d0 /\
               changes st' = changes st ++ rows /\
               data_dir st' = <[o_path operation := mkOpDir text (repo d0 ++ commits)]>
                                (data_dir st)) ->
            (exists rows, changes st' = changes st ++ rows) /\
            forall path d, data_dir st !! path = Some d ->
              exists d' commits,
                data_dir st' !! path = Some d' /\ repo d' = repo d ++ commits /\
                forall commit_hash text,
                  git_show (repo d) commit_hash = Some text ->
                  git_show (repo d') commit_hash = Some text) as Hgen.
  { intros st' [[Hc Hd]|(operation & d0 & text & commits & rows & Hd0 & Hc & Hd)].
    - split; [exists []; by rewrite app_nil_r|].
      intros path d Hp. exists d, []. rewrite Hd, app_nil_r. done.
    - split; [by exists rows|]. intros path d Hp. rewrite Hd.
      destruct (decide (o_path operation = path)) as [<-|Hne].
      + rewrite Hd0 in Hp. injection Hp as <-.
        exists (mkOpDir text (repo d0 ++ commits)), commits.
        rewrite lookup_insert_eq. split; [done|]. split; [done|].
        intros h c Hs. by apply git_show_grows.
      + exists d, []. rewrite lookup_insert_ne by done. rewrite app_nil_r. done. }
  intros st' [->| ->]; apply Hgen.
  - destruct (save_file st op_id content user) as [b st1|e st1] eqn:H.
    + destruct (save_file_returns _ _ _ _ _ _ H)
        as [(_ & -> & _)|(operation & d & Hop & Hd & [(_ & _ & ->)|(_ & _ & ->)])].
      * by left.
      * right. exists operation, d, content, [], []. rewrite !app_nil_r. done.
      * right. by eexists operation, d, content, _, _.
    + left. unfold save_file in H.
      destruct (operation_by_id st op_id) as [operation|]; [|discriminate].
      destruct (data_dir st !! o_path operation); [|by injection H as _ <-].
      by destruct (diff_content_nonempty _ _).
  - destruct (undo_changes st ch_id user) as [b st1|e st1] eqn:H.
    + destruct b.
      * apply undo_changes_true in H as (ch & operation & d & text & _ & _ & Hd & _ & _ & ->).
        right. by eexists operation, d, text, _, _.
      * left. unfold undo_changes in H.
        destruct (change_by_id st ch_id) as [ch|]; [|discriminate].
        destruct (_ && _ && _); [by injection H as <-|].
        destruct (operation_by_id st (c_op_id ch)) as [operation|]; [|by injection H as <-].
        destruct (data_dir st !! o_path operation); [|discriminate].
        destruct (git_show _ _); [discriminate|by injection H as <-].
    + left. unfold undo_changes in H.
      destruct (change_by_id st ch_id) as [ch|]; [|by injection H as _ <-].
      destruct (_ && _ && _); [discriminate|].
      destruct (operation_by_id st (c_op_id ch)) as [operation|]; [|discriminate].
      destruct (data_dir st !! o_path operation); [|by injection H as _ <-].
      by destruct (git_show _ _).
Qed.

(** X15: when undo_changes returns True, get_change_content of the acting
    user gives for the undone Change the same text after the call as before
    it, get_file now returns this text, and for the appended Change row
    get_change_content gives this text without one final line feed: the
    same text when it does not end with a line feed. *)
Theorem undo_changes_is_recorded st ch_id user st' :
  undo_changes st ch_id user = Ret true st' ->
  exists change text,
    changes st' = changes st ++ [change] /\ c_id change <> ch_id /\
    get_change_content st ch_id user = Ret (RVal text) st /\
    get_change_content st' ch_id user = Ret (RVal text) st' /\
    get_file st' (c_op_id change) user = Ret (RVal text) st' /\
    get_change_content st' (c_id change) user = Ret (RVal (strip_newline text)) st' /\
    (endswith text nl = false ->
     get_change_content st' (c_id change) user = Ret (RVal text) st').
Proof.
  intros (ch & operation & d & text & Hch & Hop & Hd & Hshow & Hm & ->)%undo_changes_true.
  unfold is_member in Hm.
  exists (new_change st (c_op_id ch) (user_id user) (fresh_id (map hexsha (repo d)))), text.
  split; [done|].
  assert (fresh_id (map c_id (changes st)) <> ch_id) as Hfresh.
  { intros <-. unfold change_by_id in Hch. by rewrite find_fresh_change in Hch. }
  split; [done|].
  destruct (perm_first (permissions st) (user_id user) (c_op_id ch)) as [p|] eqn:Hp;
    [|discriminate].
  assert (get_change_content
            (set_changes
               (changes st ++
                [new_change st (c_op_id ch) (user_id user) (fresh_id (map hexsha (repo d)))])
               (set_data_dir
                  (<[o_path operation :=
                       mkOpDir text
                         (repo d ++ [mkCommit (fresh_id (map hexsha (repo d))) text])]>
                     (data_dir st)) st))
            (fresh_id (map c_id (changes st))) user
          = Ret (RVal (strip_newline text))
              (set_changes
                 (changes st ++
                  [new_change st (c_op_id ch) (user_id user)
                     (fresh_id (map hexsha (repo d)))])
                 (set_data_dir
                    (<[o_path operation :=
                         mkOpDir text
                           (repo d ++ [mkCommit (fresh_id (map hexsha (repo d))) text])]>
                       (data_dir st)) st))) as Hnew.
  { unfold get_change_content, change_by_id, operation_by_id in *. simpl.
    rewrite find_app_none by apply find_fresh_change. simpl.
    rewrite Nat.eqb_refl. simpl. rewrite Hp, Hop, lookup_insert_eq. simpl.
    destruct (git_commit_show d text) as [Hrec _]. simpl in Hrec.
    by rewrite git_show_committed, Hrec. }
  split; [|split; [|split; [|split]]].
  - unfold get_change_content. by rewrite Hch, Hp, Hop, Hd, Hshow.
  - unfold get_change_content, change_by_id, operation_by_id in *. simpl.
    rewrite (find_app_l _ _ _ _ Hch), Hp, Hop, lookup_insert_eq. simpl.
    by rewrite (git_show_grows _ _ _ _ Hshow).
  - unfold get_file, operation_by_id in *. simpl. by rewrite Hp, Hop, lookup_insert_eq.
  - exact Hnew.
  - intros Hend. simpl in *. rewrite Hnew. by rewrite strip_newline_keeps.
Qed.

(** X16: set_version_name called by an admin, creator or collaborator of
    [op_id] returns True and gives every Change row with the id the new
    name, whatever operation that row belongs to (op_id is only used for
    the access check); the rows with other ids, the commits, the contents
    that get_change_content returns and all other tables are as before. *)
Theorem set_version_name_effect st ch_id op_id u_id version_name :
  is_admin st u_id op_id || is_creator st u_id op_id || is_collaborator st u_id op_id = true ->
  exists st',
    set_version_name st ch_id op_id u_id version_name = Ret true st' /\
    (forall c, change_by_id st ch_id = Some c ->
       change_by_id st' ch_id =
       Some (mkChange (c_id c) (c_op_id c) (c_u_id c) (c_commit_hash c) version_name)) /\
    (forall id, id <> ch_id -> change_by_id st' id = change_by_id st id) /\
    map c_commit_hash (changes st') = map c_commit_hash (changes st) /\
    (forall id reader,
       get_change_content st' id reader =
       outcome_map_state (fun _ => st') (get_change_content st id reader)) /\
    operations st' = operations st /\ permissions st' = permissions st /\
    data_dir st' = data_dir st.
Proof.
  intros Hauth. unfold set_version_name.
  assert (negb (is_admin st u_id op_id) && negb (is_creator st u_id op_id) &&
          negb (is_collaborator st u_id op_id) = false) as ->.
  { by destruct (is_admin st u_id op_id), (is_creator st u_id op_id),
      (is_collaborator st u_id op_id). }
  set (rename := fun c => if c_id c =? ch_id
                          then mkChange (c_id c) (c_op_id c) (c_u_id c) (c_commit_hash c)
                                        version_name
                          else c).
  assert (forall id, change_by_id (set_changes (map rename (changes st)) st) id
                     = option_map rename (change_by_id st id)) as Hfind.
  { intros id. unfold change_by_id. simpl. apply find_map_keep.
    intros c. unfold rename. by destruct (c_id c =? ch_id). }
  eexists. split; [reflexivity|].
  split; [|split; [|split; [|split; [|done]]]].
  - intros c Hc. rewrite Hfind, Hc. simpl. unfold rename.
    apply find_some in Hc as [_ Hid]. by rewrite Hid.
  - intros id Hne. rewrite Hfind.
    destruct (change_by_id st id) as [c|] eqn:Hc; [|done]. simpl. unfold rename.
    apply find_some in Hc as [_ Hid%Nat.eqb_eq].
    assert ((c_id c =? ch_id) = false) as -> by (apply Nat.eqb_neq; congruence). done.
  - simpl. rewrite map_map. apply map_ext. intros c. unfold rename.
    by destruct (c_id c =? ch_id).
  - intros id reader. unfold get_change_content. rewrite Hfind.
    destruct (change_by_id st id) as [c|]; [|done]. simpl.
    assert (c_op_id (rename c) = c_op_id c /\ c_commit_hash (rename c) = c_commit_hash c)
      as [-> ->].
    { unfold rename. by destruct (c_id c =? ch_id). }
    destruct (perm_first (permissions st) (user_id reader) (c_op_id c)); [|done].
    unfold operation_by_id. simpl.
    destruct (List.find _ (operations st)) as [operation|]; [|done].
    destruct (data_dir st !! o_path operation) as [d|]; [|done].
    by destruct (git_show (repo d) (c_commit_hash c)).
Qed.

(** ** Paths *)

Lemma startswith_spec s p : startswith s p = true <-> exists post, s = p +:+ post.
Proof.
  revert s. induction p as [|a p IH]; intros s; simpl.
  - split; [by exists s|]. intros _. by destruct s.
  - destruct s as [|b s].
    + split; [discriminate|]. by intros [post Hp].
    + simpl. destruct (Ascii.eqb a b) eqn:E.
      * apply Ascii.eqb_eq in E as ->. rewrite IH. split.
        -- intros [post ->]. by exists post.
        -- intros [post [= ->]]. by exists post.
      * split; [discriminate|]. intros [post [= -> _]].
        by rewrite Ascii.eqb_refl in E.
Qed.

Lemma contains_cons c s sub :
  contains (String c s) sub = if startswith (String c s) sub then true else contains s sub.
Proof. done. Qed.
(** [sub in s]: [s] is some text, then [sub], then some text. *)
Lemma contains_spec s sub :
  contains s sub = true <-> exists pre post, s = pre +:+ sub +:+ post.
Proof.
  split.
  - induction s as [|c s IH].
    + unfold contains. destruct (startswith "" sub) eqn:E; [|discriminate].
      apply startswith_spec in E as [post E]. intros _. by exists "", post.
    + rewrite contains_cons. destruct (startswith (String c s) sub) eqn:E.
      * apply startswith_spec in E as [post E]. intros _. by exists "", post.
      * intros (pre & post & ->)%IH. by exists (String c pre), post.
  - intros (pre & post & ->). induction pre as [|c pre IH].
    + assert (startswith (sub +:+ post) sub = true) as Hs
        by (apply startswith_spec; by exists post).
      change ("" +:+ sub +:+ post) with (sub +:+ post).
      destruct (sub +:+ post); [unfold contains|rewrite contains_cons]; by rewrite Hs.
    + change (String c pre +:+ sub +:+ post) with (String c (pre +:+ sub +:+ post)).
      rewrite contains_cons, IH. by destruct (startswith _ sub).
Qed.

(** X17: create_operation returns False, with nothing changed, for every
    path that has a slash, a backslash or a space anywhere in it and for
    every path that an operation already has; update_operation returns
    False for such a new path and for the name of an existing directory. *)
Theorem paths_are_validated st now description user last_used content category active
    op_id :
  (forall pre sep post, In sep ["/"; "\"; " "] ->
     create_operation integrity_ok written_before_close st now (pre +:+ sep +:+ post)
       description user last_used content category active = Ret false st /\
     update_operation integrity_ok st op_id (attr_path (pre +:+ sep +:+ post)) user
       = Finished (Ret false st)) /\
  (forall o, In o (operations st) ->
     create_operation integrity_ok written_before_close st now (o_path o) description user
       last_used content category active = Ret false st) /\
  (forall value d, data_dir st !! value = Some d ->
     update_operation integrity_ok st op_id (attr_path value) user = Finished (Ret false st)).
Proof.
  split; [|split].
  - intros pre sep post Hsep.
    assert (contains (pre +:+ sep +:+ post) "/" || contains (pre +:+ sep +:+ post) "\" ||
            contains (pre +:+ sep +:+ post) " " = true) as Hbad.
    { assert (contains (pre +:+ sep +:+ post) sep = true) as Hc
        by (apply contains_spec; by exists pre, post).
      destruct Hsep as [<-|[<-|[<-|[]]]]; rewrite Hc; by rewrite ?orb_true_r. }
    split.
    + unfold create_operation. by rewrite Hbad.
    + simpl. rewrite Hbad. by destruct (negb _ && negb _).
  - intros o Ho. unfold create_operation.
    destruct (_ || _ || _); [done|].
    destruct (find_exists (fun o' => String.eqb (o_path o') (o_path o)) (operations st) o Ho)
      as [o' Ho']; [apply String.eqb_refl|].
    unfold operation_by_path. by rewrite Ho'.
  - intros value d Hd. simpl. rewrite Hd.
    destruct (negb _ && negb _); [done|]. by destruct (_ || _ || _).
Qed.

Lemma endswith_cons c s suf :
  endswith (String c s) suf = if String.eqb (String c s) suf then true else endswith s suf.
Proof. done. Qed.

Lemma split_head_cons c s sep :
  split_head (String c s) sep =
  if startswith (String c s) sep then EmptyString else String c (split_head s sep).
Proof. done. Qed.

Lemma startswith_postfix_inside s :
  startswith (s +:+ GROUP_POSTFIX) GROUP_POSTFIX = true ->
  s = "" \/ startswith s GROUP_POSTFIX = true.
Proof.
  unfold GROUP_POSTFIX.
  destruct s as [|c1 [|c2 [|c3 [|c4 [|c5 s]]]]]; [by left|..];
    cbv beta iota delta [startswith String.append];
    repeat match goal with
           | |- context [Ascii.eqb ?a ?c] =>
               is_var c; destruct (Ascii.eqb a c); [|discriminate]
           end;
    intros H; first [by vm_compute in H | right; by destruct s].
Qed.

(** X18: the name of a category's template leads back to the category: the
    path made of a category and the Group postfix ends with the postfix,
    and, as long as the category itself does not contain the postfix, the
    text in front of the first postfix (what the bulk methods and a rename
    take as the category) is the category. *)
Theorem template_name_round_trip category :
  endswith (category +:+ GROUP_POSTFIX) GROUP_POSTFIX = true /\
  (contains category GROUP_POSTFIX = false ->
   split_head (category +:+ GROUP_POSTFIX) GROUP_POSTFIX = category).
Proof.
  split.
  - induction category as [|c s IH]; [reflexivity|].
    change (String c s +:+ GROUP_POSTFIX) with (String c (s +:+ GROUP_POSTFIX)).
    rewrite endswith_cons, IH. by destruct (String.eqb _ _).
  - induction category as [|c s IH]; [reflexivity|].
    rewrite contains_cons.
    destruct (startswith (String c s) GROUP_POSTFIX) eqn:Hs; [discriminate|].
    intros Hc. change (String c s +:+ GROUP_POSTFIX) with (String c (s +:+ GROUP_POSTFIX)).
    rewrite split_head_cons.
    destruct (startswith (String c (s +:+ GROUP_POSTFIX)) GROUP_POSTFIX) eqn:Hs'.
    + apply (startswith_postfix_inside (String c s)) in Hs' as [?|Hs']; [discriminate|].
      rewrite Hs in Hs'. discriminate.
    + f_equal. by apply IH.
Qed.

(** ** Creating and deleting operations *)

(** The way create_operation ends when it returns True: [st2] is the state
    after the import from the template of the category, if there was one. *)
Lemma create_operation_true st now path description user last_used content category
    active st' :
  create_operation integrity_ok written_before_close st now path description user
    last_used content category active = Ret true st' ->
  exists st2,
    operation_by_path (operations st) path = None /\
    (st2 = set_permissions
             (permissions st ++
              [mkPermission (user_id user) (fresh_id (map o_id (operations st))) creator])
             (set_operations
                (operations st ++
                 [mkOperation (fresh_id (map o_id (operations st))) path description
                              (default now last_used) category active]) st)
     \/ exists import_op_id,
          st2 = state_of
                  (import_permissions integrity_ok
                     (set_permissions
                        (permissions st ++
                         [mkPermission (user_id user) (fresh_id (map o_id (operations st)))
                                       creator])
                        (set_operations
                           (operations st ++
                            [mkOperation (fresh_id (map o_id (operations st))) path
                               description (default now last_used) category active]) st))
                     import_op_id (fresh_id (map o_id (operations st))) (user_id user))) /\
    makedir (data_dir st2) path = None /\
    st' = set_data_dir
            (<[path := mkOpDir (default STUB_CODE content)
                         [mkCommit (fresh_id [])
                            (written_before_close (default STUB_CODE content))]]>
               (data_dir st2)) st2.
Proof.
  unfold create_operation.
  destruct (contains path "/" || contains path "\" || contains path " "); [discriminate|].
  destruct (operation_by_path (operations st) path) eqn:Hpath; [discriminate|].
  destruct (negb (flush_ok _ _ _)); [discriminate|].
  destruct (negb (endswith path GROUP_POSTFIX)).
  - destruct (operation_by_path _ (category +:+ GROUP_POSTFIX)) as [import_op|].
    + destruct (import_permissions _ _ _ _ _) as [r st2|e st2] eqn:Himp; [|discriminate].
      destruct (makedir (data_dir st2) path) eqn:Hd; [discriminate|].
      intros [= <-]. exists st2. split; [done|]. split; [|done].
      right. exists (o_id import_op). by rewrite Himp.
    + destruct (makedir _ path) eqn:Hd; [discriminate|].
      intros [= <-]. eexists. split; [done|]. split; [by left|done].
  - destruct (makedir _ path) eqn:Hd; [discriminate|].
    intros [= <-]. eexists. split; [done|]. split; [by left|done].
Qed.

(** X19: when create_operation returns True, the Operation table is the
    old one followed by one new row, whose id and path no operation had, so
    that ids and paths stay unique if they were; no Change row is added and
    the other directories are as before; and if every Permission row
    belonged to an existing operation, this still holds and the caller is
    the creator of the new operation. *)
Theorem create_operation_keeps_invariants st now path description user last_used content
    category active st' :
  create_operation integrity_ok written_before_close st now path description user
    last_used content category active = Ret true st' ->
  exists operation,
    operations st' = operations st ++ [operation] /\ o_path operation = path /\
    (NoDup (map o_id (operations st)) -> NoDup (map o_id (operations st'))) /\
    (NoDup (map o_path (operations st)) -> NoDup (map o_path (operations st'))) /\
    changes st' = changes st /\
    (forall other, other <> path -> data_dir st' !! other = data_dir st !! other) /\
    ((forall p, In p (permissions st) -> In (perm_op_id p) (map o_id (operations st))) ->
     (forall p, In p (permissions st') -> In (perm_op_id p) (map o_id (operations st'))) /\
     is_creator st' (user_id user) (o_id operation) = true).
Proof.
  intros (st2 & Hpath & Hst2 & _ & ->)%create_operation_true.
  set (new_id := fresh_id (map o_id (operations st))) in *.
  set (operation := mkOperation new_id path description (default now last_used) category
                      active) in *.
  set (st1 := set_permissions (permissions st ++ [mkPermission (user_id user) new_id creator])
                (set_operations (operations st ++ [operation]) st)) in *.
  assert (operations st2 = operations st1 /\ changes st2 = changes st1 /\
          data_dir st2 = data_dir st1 /\
          perm_first (permissions st2) (user_id user) new_id =
          perm_first (permissions st1) (user_id user) new_id /\
          forall p, In p (permissions st2) ->
            In p (permissions st1) \/ perm_op_id p = new_id)
    as (Hops & Hch & Hdd & Hfirst & Hrows).
  { destruct Hst2 as [->|[imp ->]]; [by auto 6|].
    destruct (import_permissions_frame integrity_ok st1 imp new_id (user_id user) new_id)
      as (? & ? & ? & ?).
    do 4 (split; [done|]).
    destruct (import_permissions_shape integrity_ok st1 imp new_id (user_id user))
      as [->|(crow & added & _ & -> & Hadded)]; [by left|].
    intros p [Hp|Hp]%in_app_or.
    - left. unfold delete_missing in Hp. by apply filter_In in Hp as [? _].
    - right. by destruct (Hadded p Hp) as (? & _). }
  exists operation. simpl. rewrite Hops, Hch, Hdd. simpl.
  split; [done|]. split; [done|]. split; [|split; [|split; [|split]]].
  - intros Hnd. rewrite map_app. simpl. apply NoDup_app. split; [done|]. split.
    + intros x Hx%list_elem_of_In [Heq|[]]%list_elem_of_In.
      apply (fresh_id_not_in (map o_id (operations st))). rewrite <- Heq in Hx. exact Hx.
    + apply NoDup_singleton.
  - intros Hnd. rewrite map_app. simpl. apply NoDup_app. split; [done|]. split.
    + intros x Hx%list_elem_of_In [Heq|[]]%list_elem_of_In.
      apply in_map_iff in Hx as (o & Ho & Hin).
      pose proof (find_none _ _ Hpath o Hin) as Hne. simpl in Hne, Heq.
      rewrite Ho, <- Heq, String.eqb_refl in Hne. discriminate.
    + apply NoDup_singleton.
  - reflexivity.
  - intros other Hne. by rewrite lookup_insert_ne.
  - intros Href. split.
    + intros p Hp. rewrite map_app. apply in_or_app.
      destruct (Hrows p Hp) as [Hold| ->]; [|right; by left].
      simpl in Hold. apply in_app_or in Hold as [Hold|[<-|[]]]; [left; by apply Href|].
      right. by left.
    + unfold is_creator, has_level. simpl. rewrite Hfirst. simpl.
      unfold perm_first. rewrite find_app_none.
      * simpl. unfold perm_matches. simpl. by rewrite !Nat.eqb_refl.
      * destruct (List.find _ (permissions st)) as [p|] eqn:E; [|done].
        apply perm_first_Some in E as (Hin & _ & Hop).
        destruct (fresh_id_not_in (map o_id (operations st))).
        fold new_id. rewrite <- Hop. by apply Href.
Qed.


(** ** Queries on users *)

(** X21: for an admin or creator, fetch_users_without_permission lists
    exactly the users of the User table without a Permission row on the
    operation, and fetch_users_with_permission lists exactly the pairs of a
    user and a row of that user on the operation, leaving out the requester
    and the rows at level creator; no user id is in both lists. *)
Theorem fetch_users_split st op_id u_id :
  is_admin st u_id op_id || is_creator st u_id op_id = true ->
  exists without_permission with_permission,
    fetch_users_without_permission users st op_id u_id = Ret (RVal without_permission) st /\
    fetch_users_with_permission users st op_id u_id = Ret (RVal with_permission) st /\
    (forall name id,
       In (name, id) without_permission <->
       exists user, In user users /\ username user = name /\ user_id user = id /\
                    is_member st id op_id = false) /\
    (forall e,
       In e with_permission <->
       exists user p, In user users /\ In p (permissions st) /\ perm_op_id p = op_id /\
                      perm_u_id p = user_id user /\ user_id user <> u_id /\
                      perm_access_level p <> creator /\
                      e = mkUserWithPermission (username user) (perm_access_level p)
                                               (user_id user)) /\
    (forall name id e, In (name, id) without_permission -> In e with_permission ->
                       uwp_id e <> id).
Proof.
  intros Hauth.
  assert (negb (is_admin st u_id op_id) && negb (is_creator st u_id op_id) = false) as Hg.
  { by destruct (is_admin st u_id op_id), (is_creator st u_id op_id). }
  unfold fetch_users_without_permission, fetch_users_with_permission. rewrite Hg.
  eexists _, _. split; [reflexivity|]. split; [reflexivity|].
  assert (forall name id,
            In (name, id)
               (map (fun user => (username user, user_id user))
                    (List.filter (fun user => negb (is_member st (user_id user) op_id)) users))
            <-> exists user, In user users /\ username user = name /\ user_id user = id /\
                             is_member st id op_id = false) as Hwithout.
  { intros name id. rewrite in_map_iff. split.
    - intros (user & [= <- <-] & [Hin Hm%negb_true_iff]%filter_In). by exists user.
    - intros (user & Hin & <- & <- & Hm). exists user. split; [done|].
      apply filter_In. by rewrite Hm. }
  assert (forall e,
            In e (flat_map
                    (fun p => map (fun user => mkUserWithPermission (username user)
                                                 (perm_access_level p) (user_id user))
                                  (List.filter (fun user => (user_id user =? perm_u_id p) &&
                                                            negb (user_id user =? u_id)) users))
                    (List.filter (fun p => (perm_op_id p =? op_id) &&
                                           negb (level_eqb (perm_access_level p) creator))
                                 (permissions st)))
            <-> exists user p, In user users /\ In p (permissions st) /\ perm_op_id p = op_id /\
                               perm_u_id p = user_id user /\ user_id user <> u_id /\
                               perm_access_level p <> creator /\
                               e = mkUserWithPermission (username user) (perm_access_level p)
                                                        (user_id user)) as Hwith.
  { intros e. rewrite in_flat_map. split.
    - intros (p & [Hp Hq]%filter_In & (user & <- & [Hu Hr]%filter_In)%in_map_iff).
      apply andb_true_iff in Hq as [Ho%Nat.eqb_eq Hl%negb_true_iff%bool_decide_eq_false].
      apply andb_true_iff in Hr as [Hi%Nat.eqb_eq Hn%negb_true_iff%Nat.eqb_neq].
      by exists user, p.
    - intros (user & p & Hu & Hp & Ho & Hi & Hn & Hl & ->). exists p. split.
      + apply filter_In. split; [done|]. rewrite Ho, Nat.eqb_refl. simpl.
        apply negb_true_iff. by apply bool_decide_eq_false_2.
      + apply in_map_iff. exists user. split; [done|]. apply filter_In. split; [done|].
        rewrite Hi, Nat.eqb_refl. simpl. apply negb_true_iff. by apply Nat.eqb_neq. }
  split; [exact Hwithout|]. split; [exact Hwith|].
  intros name id e (user & _ & _ & <- & Hm)%Hwithout
    (user' & p & _ & Hp & Ho & Hi & _ & _ & ->)%Hwith. simpl. intros Heq.
  unfold is_member in Hm.
  destruct (perm_first (permissions st) (user_id user) op_id) eqn:E; [discriminate|].
  apply perm_first_None in E. apply E. apply in_map_iff. exists p. split; [|done].
  unfold perm_key. by rewrite Hi, Ho, Heq.
Qed.

Lemma authorized_users_loop_spec perms :
  match authorized_users_loop users perms with
  | Some l =>
      Forall2 (fun p entry =>
                 snd entry = perm_access_level p /\
                 exists user, user_by_id users (perm_u_id p) = Some user /\
                              fst entry = username user) perms l
  | None => exists p, In p perms /\ user_by_id users (perm_u_id p) = None
  end.
Proof.
  induction perms as [|p perms IH]; simpl; [constructor|].
  destruct (user_by_id users (perm_u_id p)) as [user|] eqn:Hu.
  - destruct (authorized_users_loop users perms) as [l|]; simpl.
    + constructor; [|done]. split; [done|]. by exists user.
    + destruct IH as (q & Hq & Hn). exists q. auto.
  - exists p. auto.
Qed.

(** X22: get_authorized_users returns one entry per Permission row of the
    operation, in the order of the table, with the level of the row and
    the username of its user; it raises AttributeError exactly when the
    user of one of these rows is missing from the User table, and it never
    changes the state. *)
Theorem get_authorized_users_lists_rows st op_id :
  match get_authorized_users users st op_id with
  | Ret l st' =>
      st' = st /\
      Forall2 (fun p entry =>
                 snd entry = perm_access_level p /\
                 exists user, user_by_id users (perm_u_id p) = Some user /\
                              fst entry = username user)
              (List.filter (fun p => perm_op_id p =? op_id) (permissions st)) l
  | Raise e st' =>
      st' = st /\ e = AttributeError /\
      exists p, In p (permissions st) /\ perm_op_id p = op_id /\
                user_by_id users (perm_u_id p) = None
  end.
Proof.
  unfold get_authorized_users.
  pose proof (authorized_users_loop_spec
                (List.filter (fun p => perm_op_id p =? op_id) (permissions st))) as H.
  destruct (authorized_users_loop users _) as [l|]; [done|].
  destruct H as (p & [Hp Ho%Nat.eqb_eq]%filter_In & Hn). split; [done|]. split; [done|].
  by exists p.
Qed.

(** ** Renaming an operation *)

(** The imports after a rename to a template name leave the requester's
    rows, the other tables and the files alone. *)
Lemma import_into_each_frame st op_id u_id ops op :
  let st' := state_of (import_into_each integrity_ok st op_id u_id ops) in
  operations st' = operations st /\ changes st' = changes st /\
  data_dir st' = data_dir st /\
  perm_first (permissions st') u_id op = perm_first (permissions st) u_id op.
Proof.
  simpl. revert st. induction ops as [|o ops IH]; intros st; simpl; [done|].
  pose proof (import_permissions_frame integrity_ok st op_id (o_id o) u_id op)
    as (H1 & H2 & H3 & H4).
  destruct (import_permissions integrity_ok st op_id (o_id o) u_id) as [r st1|e st1];
    simpl in *; [|done].
  destruct (IH st1) as (I1 & I2 & I3 & I4). by rewrite I1, I2, I3, I4.
Qed.

(** X23: when update_operation returns True for a new path, the directory
    of the operation is found under the new path with the same main.ftml
    and the same commits, nothing is left under the old path, the row of
    the operation carries the new path, and for the requester get_file and
    get_change_content of the Change rows of the operation return what
    they returned before. *)
Theorem rename_keeps_content st op_id value user st' :
  update_operation integrity_ok st op_id (attr_path value) user = Finished (Ret true st') ->
  exists operation d,
    operation_by_id st op_id = Some operation /\
    data_dir st !! o_path operation = Some d /\
    data_dir st' !! value = Some d /\
    data_dir st' !! o_path operation = None /\
    operation_by_id st' op_id = Some (set_path value operation) /\
    changes st' = changes st /\
    get_file st' op_id user = Ret (RVal (main_ftml d)) st' /\
    forall ch_id ch text,
      change_by_id st ch_id = Some ch -> c_op_id ch = op_id ->
      get_change_content st ch_id user = Ret (RVal text) st ->
      get_change_content st' ch_id user = Ret (RVal text) st'.
Proof.
  simpl.
  destruct (negb (is_admin st (user_id user) op_id) &&
            negb (is_creator st (user_id user) op_id)) eqn:Hg; [discriminate|].
  destruct (contains value "/" || contains value "\" || contains value " "); [discriminate|].
  destruct (data_dir st !! value) eqn:Hv; [discriminate|].
  destruct (operation_by_id st op_id) as [operation|] eqn:Hop; [|discriminate].
  destruct (data_dir st !! o_path operation) as [d|] eqn:Hd; [|discriminate].
  set (st1 := set_data_dir (<[value := d]> (delete (o_path operation) (data_dir st))) st).
  intros H.
  assert (exists st2,
            operations st2 = operations st1 /\ changes st2 = changes st1 /\
            data_dir st2 = data_dir st1 /\
            perm_first (permissions st2) (user_id user) op_id =
            perm_first (permissions st1) (user_id user) op_id /\
            st' = update_operation_row op_id (set_path value) st2)
    as (st2 & Hops & Hch & Hdd & Hfirst & ->).
  { destruct (endswith value GROUP_POSTFIX).
    - pose proof (import_into_each_frame st1 op_id (user_id user)
                    (ops_of_category st1 value) op_id) as Hfr. cbv zeta in Hfr.
      destruct (import_into_each _ _ _ _ _) as [r st2|e st2]; [|discriminate].
      injection H as <-. exists st2. simpl in Hfr. by destruct Hfr as (? & ? & ? & ?).
    - injection H as <-. by exists st1. }
  assert (o_path operation <> value) as Hne by (intros E; by rewrite E, Hv in Hd).
  assert (exists p, perm_first (permissions st) (user_id user) op_id = Some p) as [p Hp].
  { unfold is_admin, is_creator, has_level in Hg.
    destruct (perm_first (permissions st) (user_id user) op_id) as [p|]; [by exists p|done]. }
  assert (List.find (fun o => o_id o =? op_id)
            (map (fun o => if o_id o =? op_id then set_path value o else o) (operations st))
          = Some (set_path value operation)) as Hfind.
  { rewrite find_map_keep.
    - unfold operation_by_id in Hop. rewrite Hop. simpl.
      apply find_some in Hop as [_ ->]. done.
    - intros o. by destruct (o_id o =? op_id) eqn:E. }
  exists operation, d. split; [done|]. split; [done|].
  unfold update_operation_row. simpl. rewrite Hdd, Hops, Hch. simpl.
  split; [apply lookup_insert_eq|].
  split; [rewrite lookup_insert_ne by done; apply lookup_delete_eq|].
  split; [unfold operation_by_id; simpl; exact Hfind|].
  split; [done|]. split.
  - unfold get_file, operation_by_id. simpl. rewrite Hfirst. simpl. rewrite Hp, Hfind. simpl.
    by rewrite Hdd; simpl; rewrite lookup_insert_eq.
  - intros ch_id ch text Hchange Hcop. unfold get_change_content, change_by_id in *. simpl.
    rewrite Hch. simpl. rewrite Hchange, Hcop, Hfirst. simpl. rewrite Hp, Hop, Hd.
    unfold operation_by_id. simpl. rewrite Hfind. simpl. rewrite Hdd. simpl.
    rewrite lookup_insert_eq.
    destruct (git_show (repo d) (c_commit_hash ch)) as [t|]; [|discriminate].
    by intros [= ->].
Qed.

(** ** Listing operations *)

Lemma archived_row_id now user st o o' :
  archived_row now user st o o' ->
  o_id o' = o_id o /\ o_path o' = o_path o /\ o_description o' = o_description o /\
  o_category o' = o_category o /\ o_last_used o' = o_last_used o /\
  (o_active o' = o_active o \/ o_active o' = false).
Proof. intros [->|(-> & _ & _)]; simpl; auto 10. Qed.

Lemma Forall2_refl_on {A} (R : A -> A -> Prop) l : (forall x, R x x) -> Forall2 R l l.
Proof. intros H. induction l; constructor; auto. Qed.

Lemma Forall2_map_r_on {A} (R : A -> A -> Prop) (g : A -> A) l :
  (forall x, In x l -> R x (g x)) -> Forall2 R l (map g l).
Proof.
  induction l as [|a l IH]; simpl; intros H; constructor; [apply H; by left|].
  apply IH. intros x Hx. apply H. by right.
Qed.

Lemma Forall2_trans_on {A} (R1 R2 R3 : A -> A -> Prop) l1 l2 l3 :
  (forall x y z, R1 x y -> R2 y z -> R3 x z) ->
  Forall2 R1 l1 l2 -> Forall2 R2 l2 l3 -> Forall2 R3 l1 l3.
Proof.
  intros H H12. revert l3. induction H12 as [|x y l1 l2 Hxy _ IH]; intros l3 H23.
  - inversion H23. constructor.
  - inversion H23 as [|y' z l2' l3' Hyz Hrest]; subst. constructor; eauto.
Qed.

Lemma Forall2_find {A} (R : A -> A -> Prop) (f : A -> bool) l l' :
  (forall x y, R x y -> f y = f x) -> Forall2 R l l' ->
  match List.find f l, List.find f l' with
  | Some x, Some y => R x y
  | None, None => True
  | _, _ => False
  end.
Proof.
  intros Hf H. induction H as [|x y l l' Hxy _ IH]; simpl; [done|].
  rewrite (Hf _ _ Hxy). by destruct (f x).
Qed.

Lemma Forall2_In_r {A} (R : A -> A -> Prop) l l' y :
  Forall2 R l l' -> In y l' -> exists x, In x l /\ R x y.
Proof.
  intros H. induction H as [|x y' l l' Hxy _ IH]; simpl; [done|].
  intros [<-|Hy]; [exists x; auto|]. destruct (IH Hy) as (x' & ? & ?). exists x'. auto.
Qed.

Lemma archives_refl now user st : archives now user st st.
Proof. do 3 (split; [done|]). apply Forall2_refl_on. intros o. by left. Qed.

Lemma archives_first now user st st' op_id :
  archives now user st st' ->
  match operation_by_id st op_id, operation_by_id st' op_id with
  | Some x, Some y => archived_row now user st x y
  | None, None => True
  | _, _ => False
  end.
Proof.
  intros (_ & _ & _ & F). unfold operation_by_id.
  apply (Forall2_find (archived_row now user st) (fun o => o_id o =? op_id)); [|done].
  intros x y Hxy. by destruct (archived_row_id _ _ _ _ _ Hxy) as (-> & _).
Qed.

Lemma archives_trans now user st1 st2 st3 :
  archives now user st1 st2 -> archives now user st2 st3 -> archives now user st1 st3.
Proof.
  intros H12 H23.
  destruct H12 as (P1 & C1 & D1 & F1). destruct H23 as (P2 & C2 & D2 & F2).
  split; [congruence|]. split; [congruence|]. split; [congruence|].
  apply (Forall2_trans_on (archived_row now user st1) (archived_row now user st2)
           (archived_row now user st1) _ (operations st2)); [|done|done].
  intros x y z Hxy Hyz.
  destruct (archived_row_id _ _ _ _ _ Hxy) as (Hid & _ & _ & _ & Hlu & _).
  destruct Hyz as [->|(-> & (found & Hfound & Hout) & Hadm)]; [done|].
  assert (exists found', operation_by_id st1 (o_id x) = Some found' /\
                         outdated now found' = true) as Hout'.
  { pose proof (archives_first now user st1 st2 (o_id x)
                  (conj P1 (conj C1 (conj D1 F1)))) as Hf.
    rewrite Hid in Hfound. rewrite Hfound in Hf.
    destruct (operation_by_id st1 (o_id x)) as [found'|]; [|done].
    exists found'. split; [done|].
    destruct (archived_row_id _ _ _ _ _ Hf) as (_ & _ & _ & _ & Hlu' & _).
    unfold outdated in *. by rewrite <- Hlu'. }
  assert ((is_admin st1 (user_id user) (o_id x) || is_creator st1 (user_id user) (o_id x))
          = true) as Hadm'.
  { unfold is_admin, is_creator, has_level in *. by rewrite <- P1, <- Hid. }
  right. destruct Hxy as [->|(-> & _ & _)]; [done|]. simpl. by destruct x.
Qed.

(** Archiving an operation that is found outdated is such a change. *)
Lemma update_active_archives now user st op_id operation :
  operation_by_id st op_id = Some operation ->
  outdated now operation = true ->
  archives now user st
    (state_of (update_operation_column st op_id (col_active false) user)).
Proof.
  intros Hop Hout. unfold update_operation_column.
  destruct (negb _ && negb _) eqn:Hg; [apply archives_refl|].
  rewrite Hop. simpl. do 3 (split; [done|]). simpl.
  apply Forall2_map_r_on. intros o Ho.
  destruct (o_id o =? op_id) eqn:E; [|by left].
  apply Nat.eqb_eq in E. right. split; [done|]. rewrite E. split; [by exists operation|].
  by destruct (is_admin st (user_id user) op_id), (is_creator st (user_id user) op_id).
Qed.

(** One round of archiving in [list_operations]: it returns, the state
    changes by archiving only, and an outdated operation of which the user
    is admin or creator is inactive afterwards. *)
Lemma archive_step now user st k operation :
  operation_by_id st k = Some operation ->
  exists b st1,
    (if outdated now operation
     then update_operation_column st k (col_active false) user
     else Ret false st) = Ret b st1 /\
    archives now user st st1 /\
    (outdated now operation = true ->
     (is_admin st (user_id user) k || is_creator st (user_id user) k) = true ->
     forall o, In o (operations st1) -> o_id o = k -> o_active o = false).
Proof.
  intros Hop. destruct (outdated now operation) eqn:Hout.
  - pose proof (update_active_archives now user st k operation Hop Hout) as Ha.
    unfold update_operation_column in *. rewrite Hop in *.
    destruct (negb _ && negb _) eqn:Hg.
    + exists false, st. split; [done|]. split; [done|]. intros _ Hadm.
      apply andb_true_iff in Hg as [G1 G2]. apply negb_true_iff in G1, G2.
      rewrite G1, G2 in Hadm. discriminate.
    + eexists _, _. split; [done|]. split; [exact Ha|]. intros _ _ o Ho Hid.
      simpl in Ho. apply in_map_iff in Ho as (x & <- & _).
      destruct (o_id x =? k) eqn:E; [done|]. apply Nat.eqb_neq in E. done.
  - exists false, st. split; [done|]. split; [apply archives_refl|]. intros; discriminate.
Qed.

Lemma list_operations_loop_spec now user skip_archived st0 perms :
  forall st acc entries st',
    archives now user st0 st ->
    list_operations_loop st now user skip_archived perms acc = Ret entries st' ->
    exists new,
      entries = acc ++ new /\
      (forall e, In e new ->
         (exists p, In p perms /\ perm_op_id p = ent_op_id e /\
                    perm_access_level p = ent_access_level e) /\
         (exists o, In o (operations st0) /\ o_id o = ent_op_id e /\
                    o_path o = ent_path e /\ o_description o = ent_description e /\
                    o_category o = ent_category e /\
                    (ent_active e = o_active o \/ ent_active e = false)) /\
         (skip_archived = true -> ent_active e = true) /\
         (forall found, operation_by_id st0 (ent_op_id e) = Some found ->
            outdated now found = true ->
            (is_admin st0 (user_id user) (ent_op_id e) ||
             is_creator st0 (user_id user) (ent_op_id e)) = true ->
            ent_active e = false)) /\
      (skip_archived = false ->
       map (fun e => (ent_op_id e, ent_access_level e)) new =
       map (fun p => (perm_op_id p, perm_access_level p)) perms).
Proof.
  induction perms as [|p rest IH]; intros st acc entries st' Ha Hloop.
  - simpl in Hloop. injection Hloop as <- <-. exists []. rewrite app_nil_r.
    split; [done|]. split; [intros e []|done].
  - simpl in Hloop.
    destruct (operation_by_id st (perm_op_id p)) as [operation|] eqn:Hop; [|discriminate].
    destruct (archive_step now user st (perm_op_id p) operation Hop)
      as (b & st1 & Harch & Ha1 & Hinactive).
    rewrite Harch in Hloop.
    pose proof (archives_trans _ _ _ _ _ Ha Ha1) as Ha01.
    set (found := if skip_archived
                  then List.find (fun o => (o_id o =? perm_op_id p) &&
                                           Bool.eqb (o_active o) true) (all_operations st1)
                  else operation_by_id st1 (perm_op_id p)) in *.
    assert (forall o', found = Some o' ->
              In o' (operations st1) /\ o_id o' = perm_op_id p /\
              (skip_archived = true -> o_active o' = true)) as Hfound.
    { intros o' Hf. subst found. destruct skip_archived.
      - apply find_some in Hf as [Hin Hb]. apply andb_true_iff in Hb as [Hb1 Hb2].
        apply Nat.eqb_eq in Hb1. apply Bool.eqb_prop in Hb2. done.
      - apply find_some in Hf as [Hin Hb]. apply Nat.eqb_eq in Hb. done. }
    assert (skip_archived = false -> found <> None) as Hsome.
    { intros -> Hf. subst found. pose proof (archives_first _ _ _ _ (perm_op_id p) Ha1) as H1.
      rewrite Hop, Hf in H1. done. }
    destruct found as [operation'|] eqn:Efound.
    + destruct (Hfound operation' eq_refl) as (Hin & Hid & Hact).
      destruct (IH _ _ _ _ Ha01 Hloop) as (new & -> & Hentries & Hkeys).
      eexists (_ :: new). split; [by rewrite <- app_assoc|]. split.
      * intros e [<-|He]; simpl.
        -- split; [exists p; split; [by left|done]|].
           destruct (Forall2_In_r _ _ _ _ (proj2 (proj2 (proj2 Ha01))) Hin)
             as (x & Hx & Hrow).
           destruct (archived_row_id _ _ _ _ _ Hrow) as (E1 & E2 & E3 & E4 & _ & E6).
           split; [exists x; rewrite <- E1, <- E2, <- E3, <- E4, Hid; auto 10|].
           split; [done|]. intros found0 Hf0 Hout0 Hadm0.
           pose proof (archives_first _ _ _ _ (perm_op_id p) Ha) as H0.
           rewrite Hf0, Hop in H0.
           destruct (archived_row_id _ _ _ _ _ H0) as (_ & _ & _ & _ & Elu & _).
           apply (Hinactive) ; [| |done|done].
           ++ unfold outdated in *. by rewrite Elu.
           ++ destruct Ha as (P & _). unfold is_admin, is_creator, has_level in *.
              by rewrite P.
        -- destruct (Hentries e He) as ((q & Hq & Hq') & H2). split; [|done].
           exists q. split; [by right|done].
      * intros Hs. simpl. by rewrite (Hkeys Hs).
    + destruct (IH _ _ _ _ Ha01 Hloop) as (new & -> & Hentries & Hkeys).
      exists new. split; [done|]. split.
      * intros e He. destruct (Hentries e He) as ((q & Hq & Hq') & H2). split; [|done].
        exists q. split; [by right|done].
      * intros Hs. by destruct (Hsome Hs).
Qed.

(** X24: what [list_operations] returns.  Every entry carries the operation
    id and access level of a Permission row of the user and the path,
    description and category of an operation of that id; its active flag is
    the operation's or False; with [skip_archived] every entry is active;
    and an operation that is outdated and of which the user is admin or
    creator is never listed as active, so with [skip_archived] it is not
    listed at all.  Without [skip_archived] there is one entry per
    Permission row of the user, in the order of the rows. *)
Theorem list_operations_entries st now user skip_archived entries st' :
  list_operations st now user skip_archived = Ret entries st' ->
  (forall e, In e entries ->
     (exists p, In p (permissions st) /\ perm_u_id p = user_id user /\
                perm_op_id p = ent_op_id e /\
                perm_access_level p = ent_access_level e) /\
     (exists o, In o (operations st) /\ o_id o = ent_op_id e /\
                o_path o = ent_path e /\ o_description o = ent_description e /\
                o_category o = ent_category e /\
                (ent_active e = o_active o \/ ent_active e = false)) /\
     (skip_archived = true -> ent_active e = true) /\
     (forall found, operation_by_id st (ent_op_id e) = Some found ->
        outdated now found = true ->
        (is_admin st (user_id user) (ent_op_id e) ||
         is_creator st (user_id user) (ent_op_id e)) = true ->
        ent_active e = false)) /\
  (skip_archived = false ->
   map (fun e => (ent_op_id e, ent_access_level e)) entries =
   map (fun p => (perm_op_id p, perm_access_level p))
       (List.filter (fun p => perm_u_id p =? user_id user) (permissions st))).
Proof.
  intros H. unfold list_operations in H.
  destruct (list_operations_loop_spec _ _ _ _ _ _ _ _ _ (archives_refl now user st) H)
    as (new & -> & Hentries & Hkeys).
  simpl. split; [|done]. intros e He.
  destruct (Hentries e He) as ((p & Hp & Hp1 & Hp2) & H2). split; [|done].
  apply filter_In in Hp as [Hp Hu]. apply Nat.eqb_eq in Hu. by exists p.
Qed.

Lemma list_operations_loop_archives now user skip_archived st0 perms :
  forall st acc,
    archives now user st0 st ->
    archives now user st0
      (state_of (list_operations_loop st now user skip_archived perms acc)).
Proof.
  induction perms as [|p rest IH]; intros st acc Ha; simpl; [done|].
  destruct (operation_by_id st (perm_op_id p)) as [operation|] eqn:Hop; [|done].
  destruct (archive_step now user st (perm_op_id p) operation Hop)
    as (b & st1 & -> & Ha1 & _).
  pose proof (archives_trans _ _ _ _ _ Ha Ha1) as Ha01.
  destruct (if skip_archived then _ else _); by apply IH.
Qed.

(** X25: whatever [list_operations] does, it changes the state by archiving
    only: the Permission and Change tables and the data directory are as
    before, and the Operation table has the same rows in the same order,
    each one as it was or with [active] set to False; a row is changed only
    if the operation of its id is outdated and the user is admin or creator
    of it. *)
Theorem list_operations_only_archives st now user skip_archived :
  archives now user st (state_of (list_operations st now user skip_archived)).
Proof. apply list_operations_loop_archives, archives_refl. Qed.

Lemma list_operations_loop_returns now user skip_archived st0 perms :
  forall st acc,
    archives now user st0 st ->
    (forall p, In p perms -> operation_by_id st0 (perm_op_id p) <> None) ->
    exists entries st',
      list_operations_loop st now user skip_archived perms acc = Ret entries st'.
Proof.
  induction perms as [|p rest IH]; intros st acc Ha Href; simpl; [by eexists _, _|].
  pose proof (archives_first _ _ _ _ (perm_op_id p) Ha) as H0.
  destruct (operation_by_id st (perm_op_id p)) as [operation|] eqn:Hop.
  - destruct (archive_step now user st (perm_op_id p) operation Hop)
      as (b & st1 & -> & Ha1 & _).
    pose proof (archives_trans _ _ _ _ _ Ha Ha1) as Ha01.
    destruct (if skip_archived then _ else _); apply IH; auto;
      intros q Hq; apply Href; by right.
  - exfalso. apply (Href p); [by left|].
    by destruct (operation_by_id st0 (perm_op_id p)).
Qed.

(** X26: [list_operations] returns a list when every Permission row of the
    user refers to an operation of the Operation table; a row of the user
    without its operation makes it raise AttributeError. *)
Theorem list_operations_returns st now user skip_archived :
  ((forall p, In p (permissions st) -> perm_u_id p = user_id user ->
      operation_by_id st (perm_op_id p) <> None) ->
   exists entries st', list_operations st now user skip_archived = Ret entries st') /\
  ((exists p, In p (permissions st) /\ perm_u_id p = user_id user /\
      operation_by_id st (perm_op_id p) = None) ->
   exists st', list_operations st now user skip_archived = Raise AttributeError st').
Proof.
  split.
  - intros Href. apply (list_operations_loop_returns now user skip_archived st);
      [apply archives_refl|].
    intros p Hp. apply filter_In in Hp as [Hp Hu]. apply Nat.eqb_eq in Hu. auto.
  - intros (p & Hp & Hu & Hnone). unfold list_operations.
    assert (In p (List.filter (fun p => perm_u_id p =? user_id user) (permissions st)))
      as Hin by (apply filter_In; split; [done|by apply Nat.eqb_eq]).
    revert Hin. generalize (List.filter (fun p => perm_u_id p =? user_id user)
                              (permissions st)) as perms.
    generalize (@nil OperationEntry) as acc.
    assert (forall perms acc st1, archives now user st st1 -> In p perms ->
              exists st', list_operations_loop st1 now user skip_archived perms acc =
                          Raise AttributeError st') as Hgen.
    { induction perms as [|q rest IH]; intros acc st1 Ha Hin; [destruct Hin|].
      simpl. pose proof (archives_first _ _ _ _ (perm_op_id q) Ha) as H0.
      destruct (operation_by_id st1 (perm_op_id q)) as [operation|] eqn:Hop;
        [|by eexists].
      destruct (archive_step now user st1 (perm_op_id q) operation Hop)
        as (b & st2 & -> & Ha1 & _).
      pose proof (archives_trans _ _ _ _ _ Ha Ha1) as Ha01.
      destruct Hin as [->|Hin].
      - rewrite Hnone in H0. done.
      - destruct (if skip_archived then _ else _); by apply IH. }
    intros acc perms Hin. apply (Hgen perms acc st); [apply archives_refl|done].
Qed.

End MoreProperties.

(** ** The further properties at concrete states *)

Lemma st_import_creators op : at_most_one_creator (permissions st_import) op.
Proof.
  intros p q Hp Hq. simpl in Hp, Hq.
  destruct Hp as [<-|[<-|[<-|[<-|[]]]]], Hq as [<-|[<-|[<-|[<-|[]]]]]; simpl;
    intros; try reflexivity; try discriminate; congruence.
Qed.

Lemma non_member_is_refused_witness :
  get_file st_alpha 1 bob = Ret RFalse st_alpha /\
  get_operation_details st_alpha 1 bob = Ret RFalse st_alpha.
Proof.
  destruct (non_member_is_refused unique_user_op st_alpha 1 bob) as (H1 & H2 & _);
    [reflexivity|]. split; assumption.
Defined.

Lemma admin_or_creator_only_witness :
  add_bulk_permission unique_user_op st_group 1 bob [3] viewer = Ret false st_group /\
  fetch_operation_creator [alice; bob; carol] st_group 1 (user_id bob) = Ret RFalse st_group.
Proof.
  destruct (admin_or_creator_only unique_user_op [alice; bob; carol] nat (fun m => m)
              st_group 1 bob) as (H1 & _ & _ & _ & _ & H2 & _); [reflexivity..|].
  split; [apply H1|exact H2].
Defined.

Lemma add_bulk_permission_effect_witness :
  is_member (state_of (add_bulk_permission unique_user_op st_group 1 alice [3; 4] viewer))
            3 1 = true.
Proof.
  destruct (add_bulk_permission_effect unique_user_op st_group 1 alice [3; 4] viewer
              (state_of (add_bulk_permission unique_user_op st_group 1 alice [3; 4] viewer)))
    as (H & _); [vm_compute; reflexivity|].
  apply H. simpl. auto.
Defined.

Lemma modify_bulk_permission_effect_witness :
  auth_type (state_of (modify_bulk_permission unique_user_op st_group 1 alice [2] viewer))
            2 1 = RVal viewer.
Proof.
  destruct (modify_bulk_permission_effect unique_user_op st_group 1 alice [2] viewer
              (state_of (modify_bulk_permission unique_user_op st_group 1 alice [2] viewer)))
    as (_ & H & _); [vm_compute; reflexivity|].
  apply H; [simpl; auto|reflexivity].
Defined.

Lemma delete_bulk_permission_effect_witness :
  is_member (state_of (delete_bulk_permission unique_user_op st_group 1 alice [2])) 2 1
  = false.
Proof.
  destruct (delete_bulk_permission_effect unique_user_op st_group 1 alice [2]
              (state_of (delete_bulk_permission unique_user_op st_group 1 alice [2])))
    as (H & _); [vm_compute; reflexivity|].
  apply H. simpl. auto.
Defined.

Lemma creator_cannot_leave_witness :
  is_creator (state_of (delete_bulk_permission unique_user_op st_group 1 alice [1]))
             (user_id alice) 1 = true.
Proof. apply (creator_cannot_leave unique_user_op st_group 1 alice [1]). reflexivity. Defined.

Lemma import_permissions_keeps_invariants_witness :
  NoDup (map perm_key
           (permissions (state_of (import_permissions unique_user_op st_import 2 1 1)))).
Proof.
  destruct (import_permissions_keeps_invariants unique_user_op st_import 2 1 1) as (H & _).
  - exact st_import_unique.
  - exact st_import_creators.
  - exact H.
Defined.

Lemma import_permissions_copies_levels_witness :
  auth_type st_imported 2 1 = RVal admin /\
  auth_type st_imported 3 1 = RVal collaborator.
Proof.
  pose proof (import_permissions_copies_levels unique_user_op st_import 2 1 1
                (Some (import_events [] [(2, admin); (3, collaborator)])) "success"
                st_imported st_import_unique st_import_creators) as H.
  split; apply H; (vm_compute; reflexivity) || discriminate || reflexivity.
Defined.

Lemma save_file_then_get_file_witness :
  get_file st_bob_saved 1 alice = Ret (RVal "b") st_bob_saved.
Proof.
  apply (save_file_then_get_file st_alpha 1 "b" bob alice true st_bob_saved).
  - vm_compute. reflexivity.
  - reflexivity.
  - discriminate.
Defined.

Lemma save_file_twice_witness :
  save_file st_bob_saved 1 "b" alice = Ret false st_bob_saved.
Proof.
  apply (save_file_twice st_alpha 1 "b" bob alice true st_bob_saved).
  vm_compute. reflexivity.
Defined.

Lemma save_file_then_get_change_content_witness :
  exists change,
    changes (state_of (save_file st_alpha 1 ("b" +:+ nl) bob))
      = changes st_alpha ++ [change] /\
    c_u_id change = user_id bob /\
    get_change_content (state_of (save_file st_alpha 1 ("b" +:+ nl) bob)) (c_id change) alice
      = Ret (RVal "b") (state_of (save_file st_alpha 1 ("b" +:+ nl) bob)).
Proof.
  destruct (save_file_then_get_change_content st_alpha 1 ("b" +:+ nl) bob alice
              (state_of (save_file st_alpha 1 ("b" +:+ nl) bob)))
    as (change & H1 & _ & _ & H2 & H3 & _); [vm_compute; reflexivity|reflexivity|].
  exists change. split; [exact H1|]. split; [exact H2|exact H3].
Defined.

Lemma history_is_append_only_witness :
  exists rows, changes (state_of (undo_changes st_saved 1 alice)) = changes st_saved ++ rows.
Proof.
  destruct (history_is_append_only st_saved 1 "d" 1 alice
              (state_of (undo_changes st_saved 1 alice))) as (H & _);
    [right; reflexivity|exact H].
Defined.

Lemma undo_changes_is_recorded_witness :
  exists change text,
    changes st_line_undone = changes st_line_saved ++ [change] /\ c_id change <> 1 /\
    get_change_content st_line_saved 1 alice = Ret (RVal text) st_line_saved /\
    get_change_content st_line_undone 1 alice = Ret (RVal text) st_line_undone /\
    get_file st_line_undone (c_op_id change) alice = Ret (RVal text) st_line_undone /\
    get_change_content st_line_undone (c_id change) alice
      = Ret (RVal (strip_newline text)) st_line_undone /\
    (endswith text nl = false ->
     get_change_content st_line_undone (c_id change) alice
       = Ret (RVal text) st_line_undone).
Proof.
  apply (undo_changes_is_recorded st_line_saved 1 alice st_line_undone).
  vm_compute. reflexivity.
Defined.

Lemma set_version_name_effect_witness :
  exists st',
    set_version_name st_saved 1 1 1 (Some "v1") = Ret true st' /\
    change_by_id st' 1 = Some (mkChange 1 1 1 2 (Some "v1")) /\
    change_by_id st' 2 = change_by_id st_saved 2.
Proof.
  destruct (set_version_name_effect st_saved 1 1 1 (Some "v1")) as (st' & H1 & H2 & H3 & _);
    [reflexivity|].
  exists st'. split; [exact H1|]. split; [apply (H2 (mkChange 1 1 1 2 None)); reflexivity|].
  apply H3. discriminate.
Defined.

Lemma create_operation_keeps_invariants_witness :
  exists operation,
    operations st_created = operations st_group ++ [operation] /\
    o_path operation = "gamma" /\
    is_creator st_created (user_id bob) (o_id operation) = true.
Proof.
  destruct (create_operation_keeps_invariants unique_user_op nothing_written st_group 5
              "gamma" "third" bob None (Some "x") "tex" true st_created)
    as (operation & H1 & H2 & _ & _ & _ & _ & H3); [vm_compute; reflexivity|].
  exists operation. split; [exact H1|]. split; [exact H2|]. apply H3.
  intros p Hp. simpl in Hp. simpl.
  destruct Hp as [<-|[<-|[<-|[<-|[<-|[]]]]]]; simpl; auto.
Defined.


Lemma fetch_users_split_witness :
  exists without_permission with_permission,
    fetch_users_without_permission [alice; bob; carol] st_group 1 1
      = Ret (RVal without_permission) st_group /\
    fetch_users_with_permission [alice; bob; carol] st_group 1 1
      = Ret (RVal with_permission) st_group /\
    forall name id e, In (name, id) without_permission -> In e with_permission ->
                      uwp_id e <> id.
Proof.
  destruct (fetch_users_split [alice; bob; carol] st_group 1 1)
    as (without_permission & with_permission & H1 & H2 & _ & _ & H3); [reflexivity|].
  exists without_permission, with_permission. split; [exact H1|]. split; [exact H2|exact H3].
Defined.

Lemma rename_keeps_content_witness :
  exists operation d,
    operation_by_id st_alpha 1 = Some operation /\
    data_dir st_alpha !! o_path operation = Some d /\
    data_dir (set_operations [mkOperation 1 "beta" "" 0 "tex" true]
                (set_data_dir (<["beta" := alpha_dir]> ∅) st_alpha)) !! "beta" = Some d.
Proof.
  destruct (rename_keeps_content unique_user_op st_alpha 1 "beta" alice
              (set_operations [mkOperation 1 "beta" "" 0 "tex" true]
                 (set_data_dir (<["beta" := alpha_dir]> ∅) st_alpha)))
    as (operation & d & H1 & H2 & H3 & _); [vm_compute; reflexivity|].
  exists operation, d. split; [exact H1|]. split; [exact H2|exact H3].
Defined.

Lemma list_operations_entries_witness :
  list_operations st_alpha (31 * (24 * 3600)) alice false =
    Ret [mkEntry 1 creator "alpha" "" "tex" false]
        (set_operations [mkOperation 1 "alpha" "" 0 "tex" false] st_alpha) /\
  forall e, In e [mkEntry 1 creator "alpha" "" "tex" false] -> ent_active e = false.
Proof.
  assert (list_operations st_alpha (31 * (24 * 3600)) alice false =
            Ret [mkEntry 1 creator "alpha" "" "tex" false]
                (set_operations [mkOperation 1 "alpha" "" 0 "tex" false] st_alpha)) as Hrun
    by (vm_compute; reflexivity).
  split; [exact Hrun|]. intros e He.
  destruct (list_operations_entries st_alpha (31 * (24 * 3600)) alice false _ _ Hrun)
    as (H & _).
  destruct (H e He) as (_ & _ & _ & Harchived).
  destruct He as [<-|[]].
  apply (Harchived (mkOperation 1 "alpha" "" 0 "tex" true)); vm_compute; reflexivity.
Defined.
